(** * kdebug: the debug-container lifecycle controller of [kdebug.py]

    A shallow embedding of [src/kdebug.py] and the properties of its
    lifecycle: pod resolution, identification of the new ephemeral
    container, the readiness poll loop, the backup flow and the cleanup that
    [main] guarantees.

    Conventions of the embedding.
    - Python [str] values are Rocq strings read as ASCII text.
    - What [json.loads] returns is a value of [json]; [dict.get], iteration,
      [in] and truthiness follow Python on every such value, and an
      operation Python rejects raises [Exception "AttributeError"] or
      [Exception "TypeError"].  JSON numbers are integers, and [JObj] lists
      the items of a dict, each key once.
    - Every effect goes through the world: a clock in milliseconds, the global
      [DEBUG_MODE] and the trace of what the process did, newest event first.
      What the outside answers (kubectl, the file system, the user's Ctrl-C)
      is an oracle over the history, so a theorem over every oracle is a
      theorem over every behaviour of the cluster.
    - [print] is an event that keeps the source's text as a template, with
      [{}] for each interpolated value and the values beside it; colour codes
      and decorative glyphs are left out.  [EvCleanup] is no effect of the
      program: it marks each entry into [cleanup_debug_container]. *)

From Stdlib Require Import ZArith List String Ascii Bool Lia.
Import ListNotations.
Open Scope string_scope.
Open Scope Z_scope.

Set Implicit Arguments.

(** ** Python strings *)

Module PyStr.

(** [str.isspace] on an ASCII character. *)
Definition is_space (c : ascii) : bool :=
  let n := nat_of_ascii c in
  ((9 <=? n) && (n <=? 13) || (28 <=? n) && (n <=? 32))%nat.

Definition is_empty (s : string) : bool :=
  match s with EmptyString => true | String _ _ => false end.

Fixpoint lstrip (s : string) : string :=
  match s with
  | EmptyString => EmptyString
  | String c r => if is_space c then lstrip r else s
  end.

Fixpoint rstrip (s : string) : string :=
  match s with
  | EmptyString => EmptyString
  | String c r =>
      let t := rstrip r in
      if is_empty t && is_space c then EmptyString else String c t
  end.

(** [s.strip()] *)
Definition strip (s : string) : string := rstrip (lstrip s).

(** [s.startswith(p)] *)
Definition startswith (s p : string) : bool := String.prefix p s.

(** [needle in hay] for two strings. *)
Fixpoint contains (hay needle : string) : bool :=
  String.prefix needle hay
  || match hay with
     | EmptyString => false
     | String _ r => contains r needle
     end.

Definition lower_char (c : ascii) : ascii :=
  let n := nat_of_ascii c in
  if ((65 <=? n) && (n <=? 90))%nat then ascii_of_nat (n + 32) else c.

(** [s.lower()] *)
Fixpoint lower (s : string) : string :=
  match s with
  | EmptyString => EmptyString
  | String c r => String (lower_char c) (lower r)
  end.

(** [sep.join(l)] *)
Fixpoint join (sep : string) (l : list string) : string :=
  match l with
  | [] => ""
  | [x] => x
  | x :: r => x ++ sep ++ join sep r
  end.

Definition slash : ascii := "/"%char.

(** [p[:p.rfind('/') + 1]] *)
Fixpoint upto_last_slash (p : string) : string :=
  match p with
  | EmptyString => EmptyString
  | String c r =>
      let t := upto_last_slash r in
      if negb (is_empty t) then String c t
      else if Ascii.eqb c slash then String c EmptyString
      else EmptyString
  end.

Fixpoint all_slashes (s : string) : bool :=
  match s with
  | EmptyString => true
  | String c r => Ascii.eqb c slash && all_slashes r
  end.

(** [s.rstrip('/')] *)
Fixpoint rstrip_slash (s : string) : string :=
  match s with
  | EmptyString => EmptyString
  | String c r =>
      let t := rstrip_slash r in
      if is_empty t && Ascii.eqb c slash then EmptyString else String c t
  end.

(** [os.path.dirname] of [posixpath]. *)
Definition dirname (p : string) : string :=
  let head := upto_last_slash p in
  if negb (is_empty head) && negb (all_slashes head) then rstrip_slash head
  else head.

(** Truthiness of a string: [bool(s)]. *)
Definition truthy (s : string) : bool := negb (is_empty s).

(** Truthiness of an optional argument ([None] or a string). *)
Definition truthy_opt (o : option string) : bool :=
  match o with Some s => truthy s | None => false end.

End PyStr.

(** ** Exceptions and results *)

Inductive exn : Type :=
| KeyboardInterrupt
| SystemExit (code : Z)
| Exception (kind : string).

(** The result of a computation: a value, a raised exception, or [Undef]
    when the run leaves what the embedding covers (the loop fuel is spent, or
    a JSON value that is not a string reaches a parameter the source
    annotates [str]). *)
Inductive res (A : Type) : Type :=
| Ret (a : A)
| Exc (e : exn)
| Undef.
Arguments Exc {A} e.
Arguments Undef {A}.

Definition res_bind {A B} (r : res A) (k : A -> res B) : res B :=
  match r with
  | Ret a => k a
  | Exc e => Exc e
  | Undef => Undef
  end.

Declare Scope res_scope.
Delimit Scope res_scope with res.
Notation "x <~ r ;; k" := (res_bind r (fun x => k))
  (at level 61, r at next level, right associativity) : res_scope.

(** ** JSON values as Python sees them *)

#[local] Unset Elimination Schemes.
Inductive json : Type :=
| JNull
| JBool (b : bool)
| JNum (n : Z)
| JStr (s : string)
| JArr (items : list json)
| JObj (fields : list (string * json)).
#[local] Set Elimination Schemes.

Module Py.

Definition AttributeError : exn := Exception "AttributeError".
Definition TypeError : exn := Exception "TypeError".

Fixpoint assoc (k : string) (kvs : list (string * json)) : option json :=
  match kvs with
  | [] => None
  | (k', v) :: r => if String.eqb k k' then Some v else assoc k r
  end.

(** [d.get(k, default)] *)
Definition get (d : json) (k : string) (default : json) : res json :=
  match d with
  | JObj kvs =>
      Ret (match assoc k kvs with Some v => v | None => default end)
  | _ => Exc AttributeError
  end.

(** [x == s] where [s] is a string. *)
Definition eq_str (x : json) (s : string) : bool :=
  match x with JStr t => String.eqb t s | _ => false end.

Fixpoint chars (s : string) : list json :=
  match s with
  | EmptyString => []
  | String c r => JStr (String c EmptyString) :: chars r
  end.

(** The elements a [for] loop over [x] visits. *)
Definition iter (x : json) : res (list json) :=
  match x with
  | JArr l => Ret l
  | JObj kvs => Ret (map (fun kv => JStr (fst kv)) kvs)
  | JStr s => Ret (chars s)
  | _ => Exc TypeError
  end.

(** [k in x] where [k] is a string. *)
Definition contains (k : string) (x : json) : res bool :=
  match x with
  | JObj kvs => Ret (match assoc k kvs with Some _ => true | None => false end)
  | JArr l => Ret (existsb (fun y => eq_str y k) l)
  | JStr s => Ret (PyStr.contains s k)
  | _ => Exc TypeError
  end.

(** [bool(x)] *)
Definition truthy (x : json) : bool :=
  match x with
  | JNull => false
  | JBool b => b
  | JNum n => negb (n =? 0)
  | JStr s => PyStr.truthy s
  | JArr l => match l with [] => false | _ => true end
  | JObj kvs => match kvs with [] => false | _ => true end
  end.

(** Hashable values: everything but lists and dicts. *)
Definition hashable (x : json) : bool :=
  match x with JArr _ | JObj _ => false | _ => true end.

(** [x in S] for a set [S] of strings: hashing a list or a dict raises. *)
Definition in_str_set (x : json) (S : list string) : res bool :=
  if hashable x then Ret (existsb (eq_str x) S) else Exc TypeError.

(** [x == y] when one side is hashable ([True == 1] and [False == 0] hold
    in Python; a list or a dict never equals a hashable value). *)
Definition eq_atom (x y : json) : bool :=
  match x, y with
  | JNull, JNull => true
  | JBool a, JBool b => Bool.eqb a b
  | JNum a, JNum b => a =? b
  | JBool a, JNum b | JNum b, JBool a => (if a then 1 else 0) =? b
  | JStr a, JStr b => String.eqb a b
  | _, _ => false
  end.

End Py.

(** ** The world: clock, global flag, trace *)

Inductive event : Type :=
| EvPrint (to_stderr : bool) (template : string) (args : list json)
| EvRun (use_bash : bool) (cmd : string)      (* subprocess.run, output captured *)
| EvAttach (argv : list string)               (* subprocess.run on the terminal *)
| EvSleep (seconds : Z)                       (* time.sleep *)
| EvMakedirs (path : string)                  (* os.makedirs(path, exist_ok=True) *)
| EvCleanup (pod namespace container : string). (* entry of cleanup_debug_container *)

Record World : Type := mkWorld {
  now : Z;                 (* time.time(), in milliseconds *)
  DEBUG_MODE : bool;       (* the module's global flag *)
  trace : list event       (* newest first *)
}.

(** How a blocking call ends. *)
Inductive outcome : Type :=
| Completed (returncode : Z) (stdout stderr : string)
| Raised (e : exn).

(** The outside of the process.  Each oracle reads the history whose newest
    event is the call it answers. *)
Record Env : Type := mkEnv {
  answer : list event -> outcome;      (* how the call ends *)
  lapse : list event -> nat;           (* milliseconds the call takes, beyond a sleep's own *)
  date_string : list event -> string   (* datetime.now().strftime("%Y-%m-%d_%H-%M-%S") *)
}.

Definition M (A : Type) : Type := World -> res A * World.

Definition ret {A} (a : A) : M A := fun w => (Ret a, w).

Definition bind {A B} (m : M A) (k : A -> M B) : M B :=
  fun w =>
    match m w with
    | (Ret a, w') => k a w'
    | (Exc e, w') => (Exc e, w')
    | (Undef, w') => (Undef, w')
    end.

Definition raise {A} (e : exn) : M A := fun w => (Exc e, w).

Definition undef {A} : M A := fun w => (Undef, w).

Definition lift {A} (r : res A) : M A := fun w => (r, w).

Declare Scope M_scope.
Delimit Scope M_scope with M.
Notation "x <- m ;; k" := (bind m (fun x => k))
  (at level 61, m at next level, right associativity) : M_scope.
Notation "m ;; k" := (bind m (fun _ => k))
  (at level 61, right associativity) : M_scope.
Open Scope M_scope.

(** [try: body  except KeyboardInterrupt: ...  except Exception: ...]:
    [SystemExit] is neither and passes through. *)
Definition try_except {A} (body : M A)
    (on_interrupt : M A) (on_exception : string -> M A) : M A :=
  fun w =>
    match body w with
    | (Exc KeyboardInterrupt, w') => on_interrupt w'
    | (Exc (Exception kind), w') => on_exception kind w'
    | other => other
    end.

(** [try: body  finally: final]: [final] runs however [body] ends; what
    [final] raises replaces what [body] raised. *)
Definition try_finally {A} (body : M A) (final : M unit) : M A :=
  fun w =>
    match body w with
    | (Undef, w') => (Undef, w')
    | (r, w') =>
        match final w' with
        | (Ret _, w'') => (r, w'')
        | (Exc e, w'') => (Exc e, w'')
        | (Undef, w'') => (Undef, w'')
        end
    end.

Definition emit (e : event) : M unit :=
  fun w => (Ret tt, mkWorld (now w) (DEBUG_MODE w) (e :: trace w)).

(** [print(...)] and [print(..., file=sys.stderr)] *)
Definition say (template : string) (args : list json) : M unit :=
  emit (EvPrint false template args).
Definition say_err (template : string) (args : list json) : M unit :=
  emit (EvPrint true template args).

Definition time_time : M Z := fun w => (Ret (now w), w).

Definition get_DEBUG_MODE : M bool := fun w => (Ret (DEBUG_MODE w), w).
Definition set_DEBUG_MODE (b : bool) : M unit :=
  fun w => (Ret tt, mkWorld (now w) b (trace w)).

(** A JSON value where the source annotates [str]. *)
Definition as_str (x : json) : res string :=
  match x with JStr s => Ret s | _ => Undef end.

(** An optional argument known to be truthy, as text. *)
Definition text (o : option string) : string :=
  match o with Some s => s | None => "" end.

(** The dict [{"name": ..., "namespace": ...}] that stands for a pod. *)
Module Pod.
Record t : Type := mk { name : json; namespace : string }.
End Pod.

Section Program.

Variable json_loads : string -> option json.  (* None: json.JSONDecodeError *)
Variable env : Env.

(** A call that blocks: the event is recorded, time passes, and the oracle
    says how it ends. *)
Definition blocking (e : event) (own_ms : Z) : M (Z * string * string) :=
  fun w =>
    let h := e :: trace w in
    let w' := mkWorld (now w + own_ms + Z.of_nat (lapse env h)) (DEBUG_MODE w) h in
    match answer env h with
    | Completed rc out err => (Ret (rc, out, err), w')
    | Raised ex => (Exc ex, w')
    end.

(** [time.sleep(seconds)]; a signal that arrives meanwhile does not raise in
    the embedding. *)
Definition sleep (seconds : Z) : M unit :=
  fun w =>
    let h := EvSleep seconds :: trace w in
    (Ret tt, mkWorld (now w + 1000 * seconds + Z.of_nat (lapse env h)) (DEBUG_MODE w) h).

Definition rule : string := "------------------------------------------------------------".

Definition print_debug_command (cmd : string) : M unit :=
  dbg <- get_DEBUG_MODE ;;
  if dbg then
    say "\n{}" [JStr rule] ;;
    say "DEBUG: Executing command:" [] ;;
    say "{}" [JStr rule] ;;
    say "{}" [JStr cmd] ;;
    say "{}\n" [JStr rule]
  else ret tt.

(** [run_command]: [subprocess.run] raises [CalledProcessError] only under
    [check=True] and a non-zero return code; then the handler prints and, as
    [check] holds, returns [None].  Any other exception propagates. *)
Definition run_command (cmd : string) (check use_bash : bool) : M (option string) :=
  print_debug_command cmd ;;
  r <- blocking (EvRun use_bash cmd) 0 ;;
  let '(rc, out, err) := r in
  if check && negb (rc =? 0) then
    say_err "Error running command: {}" [JStr cmd] ;;
    say_err "Error: {}" [JStr err] ;;
    ret None
  else ret (Some (PyStr.strip out)).

(** [not output] for what [run_command] returns. *)
Definition no_output (o : option string) : bool :=
  match o with Some s => PyStr.is_empty s | None => true end.

Definition namespace_query : string :=
  "kubectl config view --minify --output 'jsonpath={..namespace}'".

Definition get_current_namespace : M string :=
  output <- run_command namespace_query false false ;;
  ret (match output with
       | Some s => if PyStr.truthy s then s else "default"
       | None => "default"
       end).


(** *** Pod resolution *)

Definition pod_query (pod_name namespace : string) : string :=
  "kubectl get pod " ++ pod_name ++ " -n " ++ namespace ++ " -o json".

Definition get_pod_by_name (pod_name namespace : string) : M (option Pod.t) :=
  say "Looking up pod {} in namespace {}..." [JStr pod_name; JStr namespace] ;;
  output <- run_command (pod_query pod_name namespace) false false ;;
  if no_output output then
    say_err "Error: Pod '{}' not found in namespace '{}'" [JStr pod_name; JStr namespace] ;;
    ret None
  else
    match json_loads (text output) with
    | Some pod_data =>
        metadata <- lift (Py.get pod_data "metadata" (JObj [])) ;;
        n <- lift (Py.get metadata "name" (JStr "")) ;;
        ret (Some (Pod.mk n namespace))
    | None =>
        say_err "Error parsing pod JSON: {}" [] ;;
        ret None
    end.

Definition CONTROLLER_ALIASES : list (string * string) :=
  [ ("deployment", "Deployment"); ("deploy", "Deployment");
    ("statefulset", "StatefulSet"); ("sts", "StatefulSet");
    ("daemonset", "DaemonSet"); ("ds", "DaemonSet") ].

Fixpoint alias_get (k : string) (d : list (string * string)) : option string :=
  match d with
  | [] => None
  | (k', v) :: r => if String.eqb k k' then Some v else alias_get k r
  end.

(** [x.startswith(p)]: only a string has the method. *)
Definition py_startswith (x : json) (p : string) : res bool :=
  match x with
  | JStr s => Ret (PyStr.startswith s p)
  | _ => Exc Py.AttributeError
  end.

Open Scope res_scope.

(** The first inner loop: is one of the owner references the controller
    itself (the loop breaks at the first that is). *)
Fixpoint direct_owner (controller_kind controller_name : string)
    (owner_refs : list json) : res bool :=
  match owner_refs with
  | [] => Ret false
  | ref :: rest =>
      k <~ Py.get ref "kind" JNull ;;
      if Py.eq_str k controller_kind then
        n <~ Py.get ref "name" JNull ;;
        if Py.eq_str n controller_name then Ret true
        else direct_owner controller_kind controller_name rest
      else direct_owner controller_kind controller_name rest
  end.

(** The second inner loop: is one of the owner references a ReplicaSet
    named [<controller_name>-...]. *)
Fixpoint replicaset_owner (controller_name : string) (owner_refs : list json) : res bool :=
  match owner_refs with
  | [] => Ret false
  | ref :: rest =>
      k <~ Py.get ref "kind" JNull ;;
      if Py.eq_str k "ReplicaSet" then
        rs_name <~ Py.get ref "name" (JStr "") ;;
        hit <~ py_startswith rs_name (controller_name ++ "-") ;;
        if hit then Ret true else replicaset_owner controller_name rest
      else replicaset_owner controller_name rest
  end.

(** The loop over [pods_data.get("items", [])]. *)
Fixpoint matching_pods (controller_kind controller_name namespace : string)
    (items : list json) : res (list Pod.t) :=
  match items with
  | [] => Ret []
  | pod :: rest =>
      metadata <~ Py.get pod "metadata" (JObj []) ;;
      pod_name <~ Py.get metadata "name" (JStr "") ;;
      metadata' <~ Py.get pod "metadata" (JObj []) ;;
      owner_refs <~ Py.get metadata' "ownerReferences" (JArr []) ;;
      refs <~ Py.iter owner_refs ;;
      direct <~ direct_owner controller_kind controller_name refs ;;
      pod_matched <~
        (if String.eqb controller_kind "Deployment" && negb direct
         then replicaset_owner controller_name refs
         else Ret direct) ;;
      others <~ matching_pods controller_kind controller_name namespace rest ;;
      Ret (if pod_matched then Pod.mk pod_name namespace :: others else others)
  end.

Close Scope res_scope.

Definition pods_query (namespace : string) : string :=
  "kubectl get pods -n " ++ namespace ++ " -o json".

Definition get_pods_by_controller
    (controller_type controller_name namespace : string) : M (list Pod.t) :=
  match alias_get (PyStr.lower controller_type) CONTROLLER_ALIASES with
  | None =>
      say_err "Error: Unknown controller type '{}'" [JStr controller_type] ;;
      say_err "Supported types: {}"
        [JStr (PyStr.join ", " (map fst CONTROLLER_ALIASES))] ;;
      ret []
  | Some controller_kind =>
      say "Searching for pods from {} {} in namespace {}..."
        [JStr controller_kind; JStr controller_name; JStr namespace] ;;
      output <- run_command (pods_query namespace) false false ;;
      if no_output output then
        say_err "Error: Failed to get pods" [] ;;
        ret []
      else
        match json_loads (text output) with
        | None =>
            say_err "Error parsing pods JSON: {}" [] ;;
            ret []
        | Some pods_data =>
            items <- lift (Py.get pods_data "items" (JArr [])) ;;
            pods <- lift (Py.iter items) ;;
            lift (matching_pods controller_kind controller_name namespace pods)
        end
  end.

(** The parsed command line ([argparse.Namespace]). *)
Record Args : Type := mkArgs {
  arg_pod : option string;
  arg_controller : option string;
  arg_controller_name : option string;
  arg_namespace : option string;
  arg_container : option string;
  arg_debug_image : string;
  arg_cmd : string;
  arg_cd_into : option string;
  arg_backup : option string;
  arg_compress : bool;
  arg_as_root : bool;
  arg_debug : bool
}.

Definition select_pod (args : Args) : M (option Pod.t) :=
  namespace <- (if PyStr.truthy_opt (arg_namespace args)
                then ret (text (arg_namespace args))
                else get_current_namespace) ;;
  if PyStr.truthy_opt (arg_pod args) then
    get_pod_by_name (text (arg_pod args)) namespace
  else if PyStr.truthy_opt (arg_controller args) then
    if negb (PyStr.truthy_opt (arg_controller_name args)) then
      say_err "Error: --controller-name is required when using --controller" [] ;;
      ret None
    else
      pods <- get_pods_by_controller (text (arg_controller args))
                (text (arg_controller_name args)) namespace ;;
      match pods with
      | [] =>
          say_err "No pods found for {} '{}'"
            [JStr (text (arg_controller args)); JStr (text (arg_controller_name args))] ;;
          ret None
      | first :: more =>
          (if (1 <? Z.of_nat (List.length pods)) then
             say "Found {} pods, selecting first one: {}"
               [JNum (Z.of_nat (List.length pods)); Pod.name first]
           else ret tt) ;;
          ret (Some first)
      end
  else
    say_err "Error: Either --pod or --controller must be specified" [] ;;
    ret None.

(** *** Container inventory *)

Record ContainerInfo : Type := mkInfo {
  containers : list string;
  init_containers : list string;
  ephemeral_containers : list string
}.

Open Scope res_scope.

(** [[c.get("name") for c in l if c.get("name")]], a [List[str]]. *)
Fixpoint container_names (l : list json) : res (list string) :=
  match l with
  | [] => Ret []
  | c :: rest =>
      guard <~ Py.get c "name" JNull ;;
      if Py.truthy guard then
        n <~ Py.get c "name" JNull ;;
        s <~ as_str n ;;
        others <~ container_names rest ;;
        Ret (s :: others)
      else container_names rest
  end.

Definition section_names (spec : json) (key : string) : res (list string) :=
  section <~ Py.get spec key (JArr []) ;;
  l <~ Py.iter section ;;
  container_names l.

Close Scope res_scope.

Definition get_pod_containers (pod_name namespace : string) : M ContainerInfo :=
  output <- run_command (pod_query pod_name namespace) true false ;;
  if no_output output then ret (mkInfo [] [] [])
  else
    match json_loads (text output) with
    | None =>
        say_err "Error parsing pod JSON: {}" [] ;;
        ret (mkInfo [] [] [])
    | Some pod_data =>
        spec <- lift (Py.get pod_data "spec" (JObj [])) ;;
        cs <- lift (section_names spec "containers") ;;
        ics <- lift (section_names spec "initContainers") ;;
        ecs <- lift (section_names spec "ephemeralContainers") ;;
        ret (mkInfo cs ics ecs)
    end.

Definition get_existing_ephemeral_containers (pod_name namespace : string) : M (list string) :=
  container_info <- get_pod_containers pod_name namespace ;;
  ret (ephemeral_containers container_info).

(** *** The readiness poll *)

Definition failure_states : list string :=
  [ "ImagePullBackOff"; "ErrImagePull"; "CrashLoopBackOff";
    "CreateContainerError"; "InvalidImageName"; "CreateContainerConfigError" ].

(** The loop [for status in ephemeral_statuses] of one tick.  It yields
    [Some b] when the function returns [b] from inside the loop, and [None]
    when the loop runs out; the second component is [last_reason]. *)
Fixpoint scan_statuses (container_name : string) (statuses : list json)
    (last_reason : json) : M (option bool * json) :=
  match statuses with
  | [] => ret (None, last_reason)
  | status :: rest =>
      n <- lift (Py.get status "name" JNull) ;;
      if Py.eq_str n container_name then
        state <- lift (Py.get status "state" (JObj [])) ;;
        running <- lift (Py.contains "running" state) ;;
        if running then
          say "Container {} is running" [JStr container_name] ;;
          ret (Some true, last_reason)
        else
          waiting <- lift (Py.contains "waiting" state) ;;
          if waiting then
            waiting_info <- lift (Py.get state "waiting" (JObj [])) ;;
            reason <- lift (Py.get waiting_info "reason" (JStr "Unknown")) ;;
            message <- lift (Py.get waiting_info "message" (JStr "")) ;;
            fatal <- lift (Py.in_str_set reason failure_states) ;;
            if fatal then
              say_err "Container failed to start: {}" [reason] ;;
              (if Py.truthy message then say_err "Error details: {}" [message]
               else ret tt) ;;
              ret (Some false, last_reason)
            else if negb (Py.eq_atom reason last_reason) then
              say "Container status: {}" [reason] ;;
              scan_statuses container_name rest reason
            else scan_statuses container_name rest last_reason
          else
            terminated <- lift (Py.contains "terminated" state) ;;
            if terminated then
              terminated_info <- lift (Py.get state "terminated" (JObj [])) ;;
              reason <- lift (Py.get terminated_info "reason" (JStr "Unknown")) ;;
              exit_code <- lift (Py.get terminated_info "exitCode" (JStr "N/A")) ;;
              message <- lift (Py.get terminated_info "message" (JStr "")) ;;
              say_err "Container terminated: {} (exit code: {})" [reason; exit_code] ;;
              (if Py.truthy message then say_err "Error details: {}" [message]
               else ret tt) ;;
              ret (Some false, last_reason)
            else if negb (Py.eq_atom last_reason (JStr "NoState")) then
              say "Container status: Initializing..." [] ;;
              scan_statuses container_name rest (JStr "NoState")
            else scan_statuses container_name rest last_reason
      else scan_statuses container_name rest last_reason
  end.

(** What follows the [while] loop. *)
Definition report_timeout (timeout : Z) (last_reason : json) : M bool :=
  say_err "Timeout ({}s) waiting for container to start" [JNum timeout] ;;
  (if Py.truthy last_reason then say_err "Last known status: {}" [last_reason]
   else ret tt) ;;
  ret false.

(** [pod_data.get("status", {}).get("ephemeralContainerStatuses", [])], as
    the [for] loop walks it. *)
Definition ephemeral_statuses_of (pod_data : json) : res (list json) :=
  (status <~ Py.get pod_data "status" (JObj []) ;;
   ephemeral_statuses <~ Py.get status "ephemeralContainerStatuses" (JArr []) ;;
   Py.iter ephemeral_statuses)%res.

(** One pass through the body of the [while] loop.  It yields [Some b] when
    the function returns [b], and [None], after [time.sleep(2)], when the
    loop goes on; the second component is [last_reason]. *)
Definition poll_once (pod_name namespace container_name : string) (last_reason : json)
    : M (option bool * json) :=
  output <- run_command (pod_query pod_name namespace) true false ;;
  if no_output output then
    sleep 2 ;;
    ret (None, last_reason)
  else
    match json_loads (text output) with
    | Some pod_data =>
        statuses <- lift (ephemeral_statuses_of pod_data) ;;
        r <- scan_statuses container_name statuses last_reason ;;
        match fst r with
        | Some _ => ret r
        | None => sleep 2 ;; ret r
        end
    | None =>
        say_err "Warning: Failed to parse pod JSON: {}" [] ;;
        sleep 2 ;;
        ret (None, last_reason)
    end.

(** The [while time.time() - start_time < timeout] loop; [fuel] bounds the
    number of times its condition is evaluated. *)
Fixpoint wait_loop (fuel : nat) (pod_name namespace container_name : string)
    (timeout start_time : Z) (last_reason : json) : M bool :=
  match fuel with
  | O => undef
  | S fuel' =>
      t <- time_time ;;
      if t - start_time <? 1000 * timeout then
        r <- poll_once pod_name namespace container_name last_reason ;;
        match fst r with
        | Some b => ret b
        | None =>
            wait_loop fuel' pod_name namespace container_name timeout start_time (snd r)
        end
      else report_timeout timeout last_reason
  end.

(** Every pass through the loop that does not return sleeps two seconds, so
    the condition is evaluated at most [timeout + 1] times. *)
Definition wait_for_container_running (pod_name namespace container_name : string)
    (timeout : Z) : M bool :=
  say "Waiting for container {} to be running..." [JStr container_name] ;;
  start_time <- time_time ;;
  wait_loop (S (Z.to_nat timeout)) pod_name namespace container_name timeout start_time JNull.

(** *** Provisioning *)

Definition dq : string := String "034"%char EmptyString.

Definition debug_command (pod_name namespace debug_image : string)
    (target_container : option string) (as_root : bool) : string :=
  PyStr.join " "
    ([ "nohup kubectl debug -i --tty"; pod_name; "--namespace=" ++ namespace ]
     ++ (if PyStr.truthy_opt target_container
         then [ "--target=" ++ text target_container ] else [])
     ++ [ "--share-processes"; "--profile=general" ]
     ++ (if as_root
         then [ "--custom=<(echo '{" ++ dq ++ "securityContext" ++ dq ++ ":{"
                ++ dq ++ "runAsUser" ++ dq ++ ":0}}')" ]
         else [])
     ++ [ "--image=" ++ debug_image; "-- sleep 300 > /dev/null 2>&1 &" ]).

(** [name in l] for a list of strings. *)
Definition mem (name : string) (l : list string) : bool :=
  existsb (String.eqb name) l.

(** [[name for name in new_containers if name not in existing_containers]] *)
Definition new_names (new_containers existing_containers : list string) : list string :=
  filter (fun name => negb (mem name existing_containers)) new_containers.

(** The first part of [launch_debug_container]: the request, the settling
    delay and the second snapshot of the ephemeral containers. *)
Definition request_debug_container (pod_name namespace debug_image : string)
    (target_container : option string) (existing_containers : list string)
    (as_root : bool) : M (list string) :=
  say "Launching debug container for pod {}..." [JStr pod_name] ;;
  (match existing_containers with
   | [] => ret tt
   | _ => say "Existing ephemeral containers: {}"
            [JStr (PyStr.join ", " existing_containers)]
   end) ;;
  run_command (debug_command pod_name namespace debug_image target_container as_root)
    false true ;;
  sleep 2 ;;
  get_existing_ephemeral_containers pod_name namespace.

(** Its last part: wait for the identified container. *)
Definition await_debug_container (pod_name namespace debug_container : string)
    : M (option string) :=
  started <- wait_for_container_running pod_name namespace debug_container 60 ;;
  if started then ret (Some debug_container)
  else
    say_err "Error: Debug container failed to start" [] ;;
    ret None.

Definition launch_debug_container (pod_name namespace debug_image : string)
    (target_container : option string) (existing_containers : list string)
    (as_root : bool) : M (option string) :=
  new_containers <- request_debug_container pod_name namespace debug_image
                      target_container existing_containers as_root ;;
  match new_names new_containers existing_containers with
  | [] =>
      say_err "Error: Could not identify newly created debug container" [] ;;
      ret None
  | debug_container :: _ =>
      say "Created debug container: {}" [JStr debug_container] ;;
      await_debug_container pod_name namespace debug_container
  end.

(** *** The two operations *)

Definition bar : string := "============================================================".

Definition interactive_argv (pod_name namespace container_name cmd : string)
    (cd_into : option string) : list string :=
  let cmd :=
    if PyStr.truthy_opt cd_into then
      if String.eqb cmd "bash" then
        "bash -c 'cd /proc/1/root" ++ text cd_into ++ " && exec bash'"
      else if String.eqb cmd "sh" then
        "sh -c 'cd /proc/1/root" ++ text cd_into ++ " && exec sh'"
      else "bash -c 'cd /proc/1/root" ++ text cd_into ++ " && " ++ cmd ++ "'"
    else cmd in
  [ "kubectl"; "exec"; "-it"; pod_name; "-n"; namespace; "-c"; container_name; "--" ]
  ++ (if PyStr.startswith cmd "bash -c" || PyStr.startswith cmd "sh -c"
      then [ "sh"; "-c"; cmd ] else [ cmd ]).

Definition exec_interactive (pod_name namespace container_name cmd : string)
    (cd_into : option string) : M Z :=
  say "\n{}" [JStr bar] ;;
  say "Starting interactive session in pod {}" [JStr pod_name] ;;
  say "Container: {}" [JStr container_name] ;;
  say "Command: {}" [JStr cmd] ;;
  (if PyStr.truthy_opt cd_into then say "Directory: {}" [JStr (text cd_into)]
   else ret tt) ;;
  say "{}\n" [JStr bar] ;;
  let kubectl_cmd := interactive_argv pod_name namespace container_name cmd cd_into in
  print_debug_command (PyStr.join " " kubectl_cmd) ;;
  try_except
    (result <- blocking (EvAttach kubectl_cmd) 0 ;;
     ret (fst (fst result)))
    (say "\n\nInterrupted by user" [] ;; ret 130)
    (fun e => say_err "Error executing interactive command: {}" [JStr e] ;; ret 1).

Definition exec_prefix (pod_name namespace container_name : string) : string :=
  "kubectl exec " ++ pod_name ++ " -n " ++ namespace ++ " -c " ++ container_name ++ " ".

Definition verify_command (pod_name namespace container_name backup_path : string) : string :=
  exec_prefix pod_name namespace container_name ++ "-- ls -d " ++ backup_path ++ " 2>/dev/null".

Definition parent_command (pod_name namespace container_name parent_dir : string) : string :=
  exec_prefix pod_name namespace container_name
  ++ "-- ls -la " ++ parent_dir ++ " 2>/dev/null | head -20".

Definition archive_command (pod_name namespace container_name backup_path : string) : string :=
  exec_prefix pod_name namespace container_name
  ++ "-- /bin/bash -c 'tar czf /tmp/kdebug-backup.tar.gz " ++ backup_path ++ "'".

Definition copy_command (namespace container_name source local_filename : string) : string :=
  "kubectl cp -n " ++ namespace ++ " -c " ++ container_name ++ " "
  ++ source ++ " " ++ local_filename.

Definition remove_command (pod_name namespace container_name : string) : string :=
  "kubectl exec " ++ pod_name ++ " -n " ++ namespace ++ " -c " ++ container_name
  ++ " -- rm -f /tmp/kdebug-backup.tar.gz".

Definition today : M string := fun w => (Ret (date_string env (trace w)), w).

(** What [create_backup] prints before it checks the path. *)
Definition backup_banner (pod_name backup_path : string) (compress : bool) : M unit :=
  say "\n{}" [JStr bar] ;;
  say "Creating backup from pod {}" [JStr pod_name] ;;
  say "Path: {}" [JStr backup_path] ;;
  (if compress then say "Mode: {}" [JStr "Compressed (tar.gz)"]
   else say "Mode: {}" [JStr "Direct copy (uncompressed)"]) ;;
  say "{}\n" [JStr bar] ;;
  say "Verifying backup path exists..." [].

Definition create_backup (pod_name namespace container_name backup_path : string)
    (compress : bool) : M bool :=
  backup_banner pod_name backup_path compress ;;
  result <- run_command (verify_command pod_name namespace container_name backup_path)
              false false ;;
  if no_output result || PyStr.is_empty (PyStr.strip (text result)) then
    say_err "Error: Path {} does not exist in container" [JStr backup_path] ;;
    let parent_dir := PyStr.dirname backup_path in
    (if PyStr.truthy parent_dir && negb (String.eqb parent_dir "/") then
       say "Checking parent directory: {}" [JStr parent_dir] ;;
       parent_result <- run_command
                          (parent_command pod_name namespace container_name parent_dir)
                          false false ;;
       if negb (no_output parent_result) then
         say "Contents:\n{}" [JStr (text parent_result)]
       else ret tt
     else ret tt) ;;
    ret false
  else
    say "Path exists: {}" [JStr (PyStr.strip (text result))] ;;
    let backup_dir := "./backups/" ++ namespace in
    blocking (EvMakedirs backup_dir) 0 ;;
    date <- today ;;
    if compress then
      say "Creating tar.gz archive..." [] ;;
      result <- run_command (archive_command pod_name namespace container_name backup_path)
                  false false ;;
      match result with
      | None =>
          say_err "Backup command failed" [] ;;
          ret false
      | Some _ =>
          say "Backup archive created" [] ;;
          say "Copying backup to local machine..." [] ;;
          let local_filename := backup_dir ++ "/" ++ date ++ "_" ++ pod_name ++ ".tar.gz" in
          result <- run_command
                      (copy_command namespace container_name
                         (pod_name ++ ":/tmp/kdebug-backup.tar.gz") local_filename)
                      false false ;;
          match result with
          | None =>
              say_err "Failed to copy backup" [] ;;
              ret false
          | Some _ =>
              say "Backup saved to: {}" [JStr local_filename] ;;
              run_command (remove_command pod_name namespace container_name) false false ;;
              ret true
          end
      end
    else
      say "Copying files directly (uncompressed)..." [] ;;
      let local_filename := backup_dir ++ "/" ++ date ++ "_" ++ pod_name in
      result <- run_command
                  (copy_command namespace container_name
                     (pod_name ++ ":" ++ backup_path) local_filename)
                  false false ;;
      match result with
      | None =>
          say_err "Failed to copy backup" [] ;;
          ret false
      | Some _ =>
          say "Backup saved to: {}" [JStr local_filename] ;;
          ret true
      end.

(** *** Cleanup *)

Definition kill_command (pod_name namespace debug_container : string) : string :=
  exec_prefix pod_name namespace debug_container
  ++ "-- /bin/bash -c 'kill -9 1' 2>/dev/null || true".

Definition cleanup_debug_container (pod_name namespace debug_container : string) : M bool :=
  emit (EvCleanup pod_name namespace debug_container) ;;
  say "\nCleaning up debug container..." [] ;;
  run_command (kill_command pod_name namespace debug_container) false false ;;
  say "Debug container cleanup initiated" [] ;;
  ret true.

(** *** main *)

Definition sys_exit {A} (code : Z) : M A := raise (SystemExit code).

(** [parser.error(message)]: usage and message on stderr, exit status 2. *)
Definition parser_error {A} (message : string) : M A :=
  say_err "error: {}" [JStr message] ;;
  sys_exit 2.

(** [main] up to the check of what [launch_debug_container] returned: it
    returns the pod, the namespace and the debug container, and ends the
    process otherwise. *)
Definition main_provision (args : Args) : M (string * string * string) :=
  set_DEBUG_MODE (arg_debug args) ;;
  (if negb (PyStr.truthy_opt (arg_pod args)) && negb (PyStr.truthy_opt (arg_controller args))
   then parser_error "Either --pod or --controller must be specified"
   else ret tt) ;;
  (if PyStr.truthy_opt (arg_controller args)
      && negb (PyStr.truthy_opt (arg_controller_name args))
   then parser_error "--controller-name is required when using --controller"
   else ret tt) ;;
  pod <- select_pod args ;;
  match pod with
  | None => sys_exit 1
  | Some pod =>
      pod_name <- lift (as_str (Pod.name pod)) ;;
      let namespace := Pod.namespace pod in
      target_container <-
        (if PyStr.truthy_opt (arg_container args) then ret (text (arg_container args))
         else
           container_info <- get_pod_containers pod_name namespace ;;
           match containers container_info with
           | [] =>
               say_err "Error: No regular containers found in pod" [] ;;
               sys_exit 1
           | first :: _ =>
               say "No --container specified, auto-selecting first non-ephemeral container: {}"
                 [JStr first] ;;
               ret first
           end) ;;
      say "\n{}" [JStr bar] ;;
      say "Target Pod: {}" [JStr pod_name] ;;
      say "Namespace: {}" [JStr namespace] ;;
      say "Target Container: {}" [JStr target_container] ;;
      say "Debug Image: {}" [JStr (arg_debug_image args)] ;;
      say "{}\n" [JStr bar] ;;
      existing_containers <- get_existing_ephemeral_containers pod_name namespace ;;
      (match existing_containers with
       | [] => ret tt
       | _ =>
           say "Found existing ephemeral containers: {}"
             [JStr (PyStr.join ", " existing_containers)] ;;
           say "Creating new debug container..." []
       end) ;;
      debug_container <- launch_debug_container pod_name namespace (arg_debug_image args)
                           (Some target_container) existing_containers (arg_as_root args) ;;
      if PyStr.truthy_opt debug_container then ret (pod_name, namespace, text debug_container)
      else
        say_err "Failed to launch debug container" [] ;;
        sys_exit 1
  end.

(** The [try] suite of [main] with its two [except] clauses: the operation,
    and the exit code it leaves. *)
Definition guarded_operation (args : Args) (pod_name namespace debug_container : string) : M Z :=
  try_except
    (if PyStr.truthy_opt (arg_backup args) then
       success <- create_backup pod_name namespace debug_container
                    (text (arg_backup args)) (arg_compress args) ;;
       ret (if success then 0 else 1)
     else
       exec_interactive pod_name namespace debug_container (arg_cmd args)
         (arg_cd_into args))
    (say "\nInterrupted by user" [] ;; ret 130)
    (fun e => say_err "Error: {}" [JStr e] ;; ret 1).

(** The [try] / [except] / [finally] block of [main] and the final
    [sys.exit(exit_code)]. *)
Definition main_operate (args : Args) (pod_name namespace debug_container : string) : M unit :=
  exit_code <-
    try_finally
      (guarded_operation args pod_name namespace debug_container)
      (cleanup_debug_container pod_name namespace debug_container ;; ret tt) ;;
  sys_exit exit_code.

Definition main (args : Args) : M unit :=
  session <- main_provision args ;;
  let '(pod_name, namespace, debug_container) := session in
  main_operate args pod_name namespace debug_container.

End Program.

(** ** Concrete clusters

    The scenarios the examples below run on.  JSON text is written with ['] for
    the double quote and converted by [jsontext]; [loads] decodes exactly the
    payloads of the scenarios and rejects every other text. *)

Module Demo.

Definition requote (c : ascii) : ascii :=
  if Ascii.eqb c "'"%char then "034"%char else c.

Fixpoint jsontext (s : string) : string :=
  match s with
  | EmptyString => EmptyString
  | String c r => String (requote c) (jsontext r)
  end.

(** [kubectl get pod web-0 -n prod -o json] before the debug container
    exists. *)
Definition pod_before_text : string :=
  jsontext "{'metadata': {'name': 'web-0'}, 'spec': {'containers': [{'name': 'app'}]}, 'status': {}}".

Definition pod_before : json :=
  JObj [ ("metadata", JObj [ ("name", JStr "web-0") ]);
         ("spec", JObj [ ("containers", JArr [ JObj [ ("name", JStr "app") ] ]) ]);
         ("status", JObj []) ].

(** The same pod once [debugger-x7k2p] runs in it. *)
Definition pod_after_text : string :=
  jsontext "{'metadata': {'name': 'web-0'}, 'spec': {'containers': [{'name': 'app'}], 'ephemeralContainers': [{'name': 'debugger-x7k2p'}]}, 'status': {'ephemeralContainerStatuses': [{'name': 'debugger-x7k2p', 'state': {'running': {}}}]}}".

Definition pod_after : json :=
  JObj [ ("metadata", JObj [ ("name", JStr "web-0") ]);
         ("spec", JObj [ ("containers", JArr [ JObj [ ("name", JStr "app") ] ]);
                         ("ephemeralContainers",
                          JArr [ JObj [ ("name", JStr "debugger-x7k2p") ] ]) ]);
         ("status",
          JObj [ ("ephemeralContainerStatuses",
                  JArr [ JObj [ ("name", JStr "debugger-x7k2p");
                                ("state", JObj [ ("running", JObj []) ]) ] ]) ]) ].

(** The pod when two ephemeral containers appeared at once, the first
    running. *)
Definition pod_two_text : string :=
  jsontext "{'metadata': {'name': 'web-0'}, 'spec': {'containers': [{'name': 'app'}], 'ephemeralContainers': [{'name': 'debugger-aaaaa'}, {'name': 'debugger-bbbbb'}]}, 'status': {'ephemeralContainerStatuses': [{'name': 'debugger-aaaaa', 'state': {'running': {}}}, {'name': 'debugger-bbbbb', 'state': {'running': {}}}]}}".

Definition pod_two : json :=
  JObj [ ("metadata", JObj [ ("name", JStr "web-0") ]);
         ("spec", JObj [ ("containers", JArr [ JObj [ ("name", JStr "app") ] ]);
                         ("ephemeralContainers",
                          JArr [ JObj [ ("name", JStr "debugger-aaaaa") ];
                                 JObj [ ("name", JStr "debugger-bbbbb") ] ]) ]);
         ("status",
          JObj [ ("ephemeralContainerStatuses",
                  JArr [ JObj [ ("name", JStr "debugger-aaaaa");
                                ("state", JObj [ ("running", JObj []) ]) ];
                         JObj [ ("name", JStr "debugger-bbbbb");
                                ("state", JObj [ ("running", JObj []) ]) ] ]) ]) ].

(** The pod while the image of [debugger-x7k2p] cannot be pulled. *)
Definition pod_backoff_text : string :=
  jsontext "{'metadata': {'name': 'web-0'}, 'status': {'ephemeralContainerStatuses': [{'name': 'debugger-x7k2p', 'state': {'waiting': {'reason': 'ImagePullBackOff', 'message': 'Back-off pulling image'}}}]}}".

Definition pod_backoff : json :=
  JObj [ ("metadata", JObj [ ("name", JStr "web-0") ]);
         ("status",
          JObj [ ("ephemeralContainerStatuses",
                  JArr [ JObj [ ("name", JStr "debugger-x7k2p");
                                ("state",
                                 JObj [ ("waiting",
                                         JObj [ ("reason", JStr "ImagePullBackOff");
                                                ("message", JStr "Back-off pulling image") ]) ]) ] ]) ]) ].

(** [kubectl get pods -n prod -o json]: one pod owned by the Deployment
    [web] itself, one by its ReplicaSet, one by another ReplicaSet. *)
Definition pods_text : string :=
  jsontext "{'items': [{'metadata': {'name': 'web-direct', 'ownerReferences': [{'kind': 'Deployment', 'name': 'web'}]}}, {'metadata': {'name': 'web-5d9c-abcde', 'ownerReferences': [{'kind': 'ReplicaSet', 'name': 'web-5d9c'}]}}, {'metadata': {'name': 'api-77f-xyz12', 'ownerReferences': [{'kind': 'ReplicaSet', 'name': 'api-77f'}]}}]}".

Definition owner (kind name : string) : json :=
  JObj [ ("kind", JStr kind); ("name", JStr name) ].

Definition item (name : string) (owners : list json) : json :=
  JObj [ ("metadata", JObj [ ("name", JStr name); ("ownerReferences", JArr owners) ]) ].

Definition pods : json :=
  JObj [ ("items",
          JArr [ item "web-direct" [ owner "Deployment" "web" ];
                 item "web-5d9c-abcde" [ owner "ReplicaSet" "web-5d9c" ];
                 item "api-77f-xyz12" [ owner "ReplicaSet" "api-77f" ] ]) ].

Definition table : list (string * json) :=
  [ (pod_before_text, pod_before); (pod_after_text, pod_after);
    (pod_two_text, pod_two); (pod_backoff_text, pod_backoff);
    (pods_text, pods) ].

Definition loads (s : string) : option json := Py.assoc s table.

(** Was the [kubectl debug] request already sent? *)
Definition requested (h : list event) : bool :=
  existsb (fun e => match e with EvRun true _ => true | _ => false end) h.

Definition ok (out : string) : outcome := Completed 0 out "".

(** The command the newest event runs, if it runs one. *)
Definition command (h : list event) : option string :=
  match h with EvRun _ cmd :: _ => Some cmd | _ => None end.

Definition is_query (h : list event) : bool :=
  match command h with
  | Some cmd => String.eqb cmd (pod_query "web-0" "prod")
  | None => false
  end.

Definition starts (p : string) (h : list event) : bool :=
  match command h with Some cmd => PyStr.startswith cmd p | None => false end.

(** A cluster where the debug container comes up, and where [/var/configs]
    is not in the debug container's own file system. *)
Definition healthy (h : list event) : outcome :=
  if is_query h then ok (if requested (tl h) then pod_after_text else pod_before_text)
  else if starts "kubectl exec web-0 -n prod -c debugger-x7k2p -- ls -d /var/configs" h
  then Completed 2 "" "ls: cannot access '/var/configs': No such file or directory"
  else if starts "kubectl exec web-0 -n prod -c debugger-x7k2p -- ls -la /var " h
  then ok "total 12 drwxr-xr-x cache lib log"
  else if starts "kubectl get pods -n prod" h then ok pods_text
  else ok "".

(** The same cluster when a second ephemeral container appears together
    with ours. *)
Definition crowded (h : list event) : outcome :=
  if is_query h then ok (if requested (tl h) then pod_two_text else pod_before_text)
  else ok "".

(** The image cannot be pulled. *)
Definition backoff (h : list event) : outcome :=
  if is_query h then ok pod_backoff_text else ok "".

(** Every call answers with empty output. *)
Definition silent (h : list event) : outcome := ok "".

(** The status query answers with text that is not JSON. *)
Definition garbled (h : list event) : outcome :=
  if is_query h then ok "<html>502 Bad Gateway</html>" else ok "".

(** The path exists and the archive is made, but [kubectl cp] fails. *)
Definition copy_fails (h : list event) : outcome :=
  if starts "kubectl exec web-0 -n prod -c debugger-x7k2p -- ls -d " h
  then ok "/proc/1/root/var/configs"
  else if starts "kubectl cp " h
  then Completed 1 "" "error: unexpected EOF"
  else ok "".

(** The user presses Ctrl-C while the operation runs a command in the debug
    container. *)
Definition interrupted (h : list event) : outcome :=
  if is_query h then ok (if requested (tl h) then pod_after_text else pod_before_text)
  else if starts "kubectl exec web-0 -n prod -c debugger-x7k2p -- ls" h
  then Raised KeyboardInterrupt
  else ok "".


Definition cluster (answer : list event -> outcome) : Env :=
  mkEnv answer (fun _ => 150%nat) (fun _ => "2024-05-01_12-00-00").

Definition boot : World := mkWorld 0 false [].

Definition backup_args : Args :=
  mkArgs (Some "web-0") None None (Some "prod") (Some "app")
    "ghcr.io/jessegoodier/toolbox:latest" "bash" None (Some "/var/configs")
    false false false.

Definition shell_args : Args :=
  mkArgs (Some "web-0") None None (Some "prod") (Some "app")
    "ghcr.io/jessegoodier/toolbox:latest" "bash" None None false false false.

Definition bare_args : Args :=
  mkArgs (Some "web-0") None None None (Some "app")
    "ghcr.io/jessegoodier/toolbox:latest" "bash" None None false false false.

End Demo.

(** ** Reading a trace *)

(** The events of a trace that [f] selects, newest first. *)
Fixpoint pick {A} (f : event -> option A) (t : list event) : list A :=
  match t with
  | [] => []
  | e :: r => match f e with Some a => a :: pick f r | None => pick f r end
  end.

Definition command_of (e : event) : option string :=
  match e with EvRun _ cmd => Some cmd | _ => None end.

Definition sleep_of (e : event) : option Z :=
  match e with EvSleep s => Some s | _ => None end.

Definition cleanup_of (e : event) : option (string * string * string) :=
  match e with EvCleanup p n c => Some (p, n, c) | _ => None end.

(** The timeout that the line after the poll loop reports. *)
Definition timeout_report_of (e : event) : option (list json) :=
  match e with
  | EvPrint true template args =>
      if String.eqb template "Timeout ({}s) waiting for container to start"
      then Some args else None
  | _ => None
  end.

(** The commands the process ran, oldest first. *)
Definition commands (t : list event) : list string := rev (pick command_of t).

(** The calls of [cleanup_debug_container], newest first. *)
Definition cleanup_calls (t : list event) : list (string * string * string) :=
  pick cleanup_of t.

(** The world once the events [evs] (newest first) were printed. *)
Definition printed (evs : list event) (w : World) : World :=
  mkWorld (now w) (DEBUG_MODE w) (evs ++ trace w).

(** The world a computation leaves. *)
Definition after {A} (m : M A) (w : World) : World := snd (m w).

(** ** The vocabulary of the properties *)

Class Frame (R : World -> World -> Prop) : Prop := {
  frame_refl : forall w, R w w;
  frame_trans : forall a b c, R a b -> R b c -> R a c
}.

(** [m] keeps every world it starts from related to the one it leaves. *)
Definition stable (R : World -> World -> Prop) {A} (m : M A) : Prop :=
  forall w, R w (snd (m w)).

(** A computation is silent on [f] when it adds no event that [f] selects. *)
Definition silent_rel {A} (f : event -> option A) (w w' : World) : Prop :=
  pick f (trace w') = pick f (trace w).

(** The clock never runs backwards. *)
Definition later (w w' : World) : Prop := now w <= now w'.

(** The trace only grows. *)
Definition extends (w w' : World) : Prop :=
  exists new, trace w' = (new ++ trace w)%list.

Definition defined {A} (m : M A) : Prop := forall w, fst (m w) <> Undef.

(** The command line with [--namespace ns] added. *)
Definition with_namespace (ns : string) (args : Args) : Args :=
  mkArgs (arg_pod args) (arg_controller args) (arg_controller_name args) (Some ns)
    (arg_container args) (arg_debug_image args) (arg_cmd args) (arg_cd_into args)
    (arg_backup args) (arg_compress args) (arg_as_root args) (arg_debug args).

(** The command line passes the two checks at the head of [main]. *)
Definition valid_args (args : Args) : bool :=
  (PyStr.truthy_opt (arg_pod args) || PyStr.truthy_opt (arg_controller args))
  && (negb (PyStr.truthy_opt (arg_controller args))
      || PyStr.truthy_opt (arg_controller_name args)).

(** A status entry of some other container: an object whose name is not
    [c]. *)
Definition other_container (c : string) (status : json) : Prop :=
  exists fields n,
    status = JObj fields
    /\ Py.get status "name" JNull = Ret n
    /\ Py.eq_str n c = false.

(** What the loop prints when it meets a terminal waiting reason, newest
    first. *)
Definition failure_report (reason message : json) : list event :=
  (if Py.truthy message then [EvPrint true "Error details: {}" [message]] else [])
  ++ [EvPrint true "Container failed to start: {}" [reason]].

(** [waiting_info.get("message", "")] *)
Definition message_of (waiting : list (string * json)) : json :=
  match Py.assoc "message" waiting with Some m => m | None => JStr "" end.

(** A waiting reason the loop keeps polling on. *)
Definition transient_waiting (waiting : list (string * json)) : bool :=
  match Py.assoc "reason" waiting with
  | Some r => Py.hashable r && negb (existsb (Py.eq_str r) failure_states)
  | None => true
  end.

(** A state that is neither running, nor waiting on a terminal reason, nor
    terminated. *)
Definition pending_state (state : json) : bool :=
  match state with
  | JObj kv =>
      match Py.assoc "running" kv, Py.assoc "terminated" kv, Py.assoc "waiting" kv with
      | None, None, None => true
      | None, None, Some (JObj waiting) => transient_waiting waiting
      | _, _, _ => false
      end
  | _ => false
  end.

(** A status entry that does not settle the fate of container [c]: the
    entry of another container, or an entry of [c] in a pending state. *)
Definition pending_status (c : string) (status : json) : bool :=
  match status with
  | JObj fields =>
      match Py.assoc "name" fields with
      | Some n =>
          if Py.eq_str n c then
            match Py.assoc "state" fields with
            | Some state => pending_state state
            | None => true
            end
          else true
      | None => true
      end
  | _ => false
  end.

Definition pending_pod (c : string) (pod_data : json) : bool :=
  match ephemeral_statuses_of pod_data with
  | Ret statuses => forallb (pending_status c) statuses
  | _ => false
  end.

(** An answer to the status query that shows no running, terminal-waiting
    or terminated state of [c]: the query failed, printed nothing, printed
    text that is not JSON, or printed a pod in which [c] is pending. *)
Definition unsettled (json_loads : string -> option json) (c : string) (o : outcome) : bool :=
  match o with
  | Completed rc out _ =>
      negb (rc =? 0)
      || PyStr.is_empty (PyStr.strip out)
      || match json_loads (PyStr.strip out) with
         | Some pod_data => pending_pod c pod_data
         | None => true
         end
  | Raised _ => false
  end.

(** No status query, whenever it is asked, settles the fate of [c]. *)
Definition never_settles (json_loads : string -> option json) (env : Env)
    (name namespace c : string) : Prop :=
  forall h, unsettled json_loads c (answer env (EvRun false (pod_query name namespace) :: h)) = true.

(** No call of the process raises. *)
Definition completes (env : Env) : Prop :=
  forall h, exists rc out err, answer env h = Completed rc out err.

(** [parent_dir and parent_dir != "/"] *)
Definition probe_needed (backup_path : string) : bool :=
  PyStr.truthy (PyStr.dirname backup_path)
  && negb (String.eqb (PyStr.dirname backup_path) "/").

(** How [launch_debug_container] goes on once it has picked [d]. *)
Definition proceed_with (json_loads : string -> option json) (env : Env)
    (name namespace d : string) : M (option string) :=
  say "Created debug container: {}" [JStr d] ;;
  await_debug_container json_loads env name namespace d.

(** An owner reference and a pod descriptor, as far as the resolver reads
    them. *)
Record OwnerRef : Type := mkOwner { owner_kind : string; owner_name : string }.
Record PodDescr : Type := mkDescr { descr_name : string; descr_owners : list OwnerRef }.

(** The JSON object [j] is the owner reference [r] (it may hold other keys). *)
Definition is_owner_ref (j : json) (r : OwnerRef) : Prop :=
  exists fields,
    j = JObj fields
    /\ Py.assoc "kind" fields = Some (JStr (owner_kind r))
    /\ Py.assoc "name" fields = Some (JStr (owner_name r)).

(** The JSON object [j] is the pod [p]: its metadata holds the name and the
    owner references ([ownerReferences] is absent when there are none). *)
Definition is_pod (j : json) (p : PodDescr) : Prop :=
  exists fields metadata refs,
    j = JObj fields
    /\ Py.assoc "metadata" fields = Some (JObj metadata)
    /\ Py.assoc "name" metadata = Some (JStr (descr_name p))
    /\ (Py.assoc "ownerReferences" metadata = Some (JArr refs)
        \/ (Py.assoc "ownerReferences" metadata = None /\ refs = []))
    /\ Forall2 is_owner_ref refs (descr_owners p).

(** An owner reference whose kind and name are the controller's. *)
Definition owned_directly (kind name : string) (p : PodDescr) : bool :=
  existsb (fun r => String.eqb (owner_kind r) kind && String.eqb (owner_name r) name)
    (descr_owners p).

(** An owner reference to a ReplicaSet named [<name>-...]. *)
Definition owned_via_replicaset (name : string) (p : PodDescr) : bool :=
  existsb (fun r => String.eqb (owner_kind r) "ReplicaSet"
                    && PyStr.startswith (owner_name r) (name ++ "-"))
    (descr_owners p).

(** The ownership rule as the specification states it. *)
Definition stated_rule (kind name : string) (p : PodDescr) : bool :=
  if String.eqb kind "Deployment" then owned_via_replicaset name p
  else owned_directly kind name p.

(** The ownership rule of the code: the direct match counts for every kind,
    for a Deployment too. *)
Definition owned_by (kind name : string) (p : PodDescr) : bool :=
  owned_directly kind name p
  || String.eqb kind "Deployment" && owned_via_replicaset name p.

Definition pod_of (namespace : string) (p : PodDescr) : Pod.t :=
  Pod.mk (JStr (descr_name p)) namespace.

(** *** More events of a trace *)

Definition attach_of (e : event) : option (list string) :=
  match e with EvAttach argv => Some argv | _ => None end.

Definition makedirs_of (e : event) : option string :=
  match e with EvMakedirs path => Some path | _ => None end.

(** The commands run through [bash -c]: the debug request is the only one. *)
Definition request_of (e : event) : option string :=
  match e with EvRun true cmd => Some cmd | _ => None end.

(** The heading of the echo that [print_debug_command] prints. *)
Definition echo_of (e : event) : option unit :=
  match e with
  | EvPrint false template [] =>
      if String.eqb template "DEBUG: Executing command:" then Some tt else None
  | _ => None
  end.

(** *** Pod payloads, as far as the inventory and the poll read them *)

(** A container entry of a pod spec: an object with a name, or with none
    ([name] absent or [null]). *)
Definition is_container (j : json) (n : option string) : Prop :=
  exists fields,
    j = JObj fields
    /\ match n with
       | Some s => Py.assoc "name" fields = Some (JStr s)
       | None => Py.assoc "name" fields = None \/ Py.assoc "name" fields = Some JNull
       end.

(** The section [key] of the pod spec lists the containers [l]; an absent
    section lists none. *)
Definition section_lists (spec : list (string * json)) (key : string)
    (l : list (option string)) : Prop :=
  exists entries,
    (Py.assoc key spec = Some (JArr entries)
     \/ (Py.assoc key spec = None /\ entries = []))
    /\ Forall2 is_container entries l.

(** The names that are present and not empty, in order. *)
Fixpoint named (l : list (option string)) : list string :=
  match l with
  | [] => []
  | Some s :: rest => if PyStr.truthy s then s :: named rest else named rest
  | None :: rest => named rest
  end.

(** The pod shows container [c] running: one of its ephemeral-container
    statuses is named [c] and its state holds the key [running]. *)
Definition shows_running (c : string) (pod_data : json) : Prop :=
  exists statuses status n state,
    ephemeral_statuses_of pod_data = Ret statuses
    /\ In status statuses
    /\ Py.get status "name" JNull = Ret n
    /\ Py.eq_str n c = true
    /\ Py.get status "state" (JObj []) = Ret state
    /\ Py.contains "running" state = Ret true.

(** What the loop prints when it meets a terminated container, newest
    first. *)
Definition terminated_report (info : list (string * json)) : list event :=
  let get k default := match Py.assoc k info with Some v => v | None => default end in
  (if Py.truthy (get "message" (JStr ""))
   then [EvPrint true "Error details: {}" [get "message" (JStr "")]] else [])
  ++ [EvPrint true "Container terminated: {} (exit code: {})"
        [get "reason" (JStr "Unknown"); get "exitCode" (JStr "N/A")]].

(** *** The operation and the exit status *)

(** What [exec_interactive] returns for each way [subprocess.run] ends. *)
Definition session_code (o : outcome) : res Z :=
  match o with
  | Completed returncode _ _ => Ret returncode
  | Raised KeyboardInterrupt => Ret 130
  | Raised (Exception _) => Ret 1
  | Raised (SystemExit code) => Exc (SystemExit code)
  end.

(** The suite of the [try] statement of [main]. *)
Definition operation (env : Env) (args : Args) (pod_name namespace debug_container : string)
    : M Z :=
  if PyStr.truthy_opt (arg_backup args) then
    success <- create_backup env pod_name namespace debug_container
                 (text (arg_backup args)) (arg_compress args) ;;
    ret (if success then 0 else 1)
  else
    exec_interactive env pod_name namespace debug_container (arg_cmd args)
      (arg_cd_into args).

(** The exit status [main] leaves for each way the operation ends (the
    operation never leaves the embedding: the last case does not arise). *)
Definition exit_code (r : res Z) : Z :=
  match r with
  | Ret code => code
  | Exc KeyboardInterrupt => 130
  | Exc (Exception _) => 1
  | Exc (SystemExit code) => code
  | Undef => 0
  end.

(** *** The echo of a command *)

(** The lines [print_debug_command] prints for [cmd], newest first. *)
Definition echo (cmd : string) : list event :=
  [ EvPrint false "{}\n" [JStr rule];
    EvPrint false "{}" [JStr cmd];
    EvPrint false "{}" [JStr rule];
    EvPrint false "DEBUG: Executing command:" [];
    EvPrint false "\n{}" [JStr rule] ].

(** A trace in which every command that was run, and every session that was
    attached, comes right after the echo of its text. *)
Inductive echoed : list event -> Prop :=
| echoed_nil : echoed []
| echoed_run use_bash cmd t :
    echoed t -> echoed (EvRun use_bash cmd :: echo cmd ++ t)
| echoed_attach argv t :
    echoed t -> echoed (EvAttach argv :: echo (PyStr.join " " argv) ++ t)
| echoed_other e t :
    command_of e = None -> attach_of e = None -> echoed t -> echoed (e :: t).

(** *** Relations on whole runs *)

(** While [DEBUG_MODE] is off it stays off and no command is echoed. *)
Definition undebugged (w w' : World) : Prop :=
  DEBUG_MODE w = false ->
  DEBUG_MODE w' = false /\ pick echo_of (trace w') = pick echo_of (trace w).

(** While [DEBUG_MODE] is on it stays on, and what is added to the trace
    keeps it echoed. *)
Definition debugged (w w' : World) : Prop :=
  DEBUG_MODE w = true ->
  DEBUG_MODE w' = true
  /\ exists new,
       trace w' = (new ++ trace w)%list
       /\ forall t, echoed t -> echoed (new ++ t)%list.

(** [m] sends at most [n] debug requests, each of them [allowed]. *)
Definition sends (n : nat) (allowed : string -> Prop) {A} (m : M A) : Prop :=
  forall w, exists l,
    pick request_of (trace (snd (m w))) = (l ++ pick request_of (trace w))%list
    /\ (List.length l <= n)%nat
    /\ Forall allowed l.

(** *** The namespace of a command *)

(** The history in which the captured command [cmd], run from [w], is
    answered: its echo, under [DEBUG_MODE], comes first. *)
Definition asking (cmd : string) (w : World) : list event :=
  EvRun false cmd :: ((if DEBUG_MODE w then echo cmd else []) ++ trace w)%list.

(** The world once that command was answered. *)
Definition answered (env : Env) (cmd : string) (w : World) : World :=
  mkWorld (now w + Z.of_nat (lapse env (asking cmd w))) (DEBUG_MODE w) (asking cmd w).

(** [a] directly followed by [b] in an argument vector. *)
Fixpoint adjacent (a b : string) (argv : list string) : bool :=
  match argv with
  | [] => false
  | x :: rest =>
      match rest with
      | y :: _ => String.eqb x a && String.eqb y b
      | [] => false
      end
      || adjacent a b rest
  end.

(** The event addresses the namespace [ns]: a captured command has
    [-n ns] in its text, the debug request [--namespace=ns], and the
    argument vector of a session [-n] followed by [ns].  Events that reach
    no cluster pass. *)
Definition in_namespace (ns : string) (e : event) : bool :=
  match e with
  | EvRun false cmd => PyStr.contains cmd (" -n " ++ ns ++ " ")
  | EvRun true cmd => PyStr.contains cmd (" --namespace=" ++ ns ++ " ")
  | EvAttach argv => adjacent "-n" ns argv
  | _ => true
  end.

(** Everything added to the trace between [w] and [w'] addresses [ns]. *)
Definition within (ns : string) (w w' : World) : Prop :=
  exists new,
    trace w' = (new ++ trace w)%list /\ forallb (in_namespace ns) new = true.

(** *** More scenes *)

Module Scene.

(** The pod once [debugger-x7k2p] has exited. *)
Definition pod_exited_text : string :=
  Demo.jsontext "{'metadata': {'name': 'web-0'}, 'status': {'ephemeralContainerStatuses': [{'name': 'debugger-x7k2p', 'state': {'terminated': {'reason': 'Error', 'exitCode': 137}}}]}}".

Definition pod_exited : json :=
  JObj [ ("metadata", JObj [ ("name", JStr "web-0") ]);
         ("status",
          JObj [ ("ephemeralContainerStatuses",
                  JArr [ JObj [ ("name", JStr "debugger-x7k2p");
                                ("state",
                                 JObj [ ("terminated",
                                         JObj [ ("reason", JStr "Error");
                                                ("exitCode", JNum 137) ]) ]) ] ]) ]) ].

(** The pod while [debugger-x7k2p] is being created. *)
Definition pod_creating_text : string :=
  Demo.jsontext "{'metadata': {'name': 'web-0'}, 'status': {'ephemeralContainerStatuses': [{'name': 'debugger-x7k2p', 'state': {'waiting': {'reason': 'ContainerCreating'}}}]}}".

Definition pod_creating : json :=
  JObj [ ("metadata", JObj [ ("name", JStr "web-0") ]);
         ("status",
          JObj [ ("ephemeralContainerStatuses",
                  JArr [ JObj [ ("name", JStr "debugger-x7k2p");
                                ("state",
                                 JObj [ ("waiting",
                                         JObj [ ("reason", JStr "ContainerCreating") ]) ]) ] ]) ]) ].

Definition loads (s : string) : option json :=
  if String.eqb s pod_exited_text then Some pod_exited
  else if String.eqb s pod_creating_text then Some pod_creating
  else Demo.loads s.

(** The debug container has exited. *)
Definition exited (h : list event) : outcome :=
  if Demo.is_query h then Demo.ok pod_exited_text else Demo.ok "".

(** The debug container is being created. *)
Definition creating (h : list event) : outcome :=
  if Demo.is_query h then Demo.ok pod_creating_text else Demo.ok "".

(** The output of every command is padded with white space. *)
Definition padded (h : list event) : outcome :=
  Demo.ok (String "009"%char " web-0  " ++ String "010"%char "").

(** The path exists, and the local backup directory cannot be created. *)
Definition read_only (h : list event) : outcome :=
  match h with
  | EvMakedirs _ :: _ => Raised (Exception "PermissionError")
  | _ => Demo.copy_fails h
  end.

(** The user presses Ctrl-C while the launch takes its second snapshot. *)
Definition interrupted_early (h : list event) : outcome :=
  if Demo.is_query h && Demo.requested (tl h) then Raised KeyboardInterrupt
  else Demo.healthy h.

(** The world once a debug request was sent. *)
Definition requested : World := mkWorld 0 false [EvRun true "kubectl debug"].

Definition controller_args : Args :=
  mkArgs None (Some "deploy") (Some "web") (Some "prod") (Some "app")
    "ghcr.io/jessegoodier/toolbox:latest" "bash" None None false false false.

Definition bare_pod_args : Args :=
  mkArgs (Some "web-0") None None (Some "prod") None
    "ghcr.io/jessegoodier/toolbox:latest" "bash" None None false false false.

Definition debug_args : Args :=
  mkArgs (Some "web-0") None None (Some "prod") (Some "app")
    "ghcr.io/jessegoodier/toolbox:latest" "bash" None None false false true.

Definition no_args : Args :=
  mkArgs None None None None None
    "ghcr.io/jessegoodier/toolbox:latest" "bash" None None false false false.

(** No namespace is set in the kubectl context: the query of the context
    prints nothing.  The pod lives in [default], where the debug container
    comes up. *)
Definition no_context (h : list event) : outcome :=
  match Demo.command h with
  | Some cmd =>
      if String.eqb cmd "kubectl get pod web-0 -n default -o json"
      then Demo.ok (if Demo.requested (tl h) then Demo.pod_after_text
                    else Demo.pod_before_text)
      else Demo.ok ""
  | None => Demo.ok ""
  end.

(** The kubectl context names the namespace [staging], where the pod
    lives. *)
Definition staging_context (h : list event) : outcome :=
  match Demo.command h with
  | Some cmd =>
      if String.eqb cmd "kubectl config view --minify --output 'jsonpath={..namespace}'"
      then Demo.ok (" staging" ++ String "010"%char "")
      else if String.eqb cmd "kubectl get pod web-0 -n staging -o json"
      then Demo.ok Demo.pod_before_text
      else Demo.ok ""
  | None => Demo.ok ""
  end.

End Scene.

(** ** Checks of the embedding on known values *)

Example strip_output :
  PyStr.strip (String "009"%char " web-0  " ++ String "010"%char "") = "web-0"
  /\ PyStr.strip "  " = ""
  /\ PyStr.strip "a  b" = "a  b".
Proof. repeat split. Qed.

Example dirname_values :
  PyStr.dirname "/var/configs" = "/var"
  /\ PyStr.dirname "/configs" = "/"
  /\ PyStr.dirname "configs" = ""
  /\ PyStr.dirname "/a/b/" = "/a/b"
  /\ PyStr.dirname "//configs" = "//"
  /\ PyStr.dirname "a//b" = "a".
Proof. repeat split. Qed.

Example probe_needed_values :
  probe_needed "/var/configs" = true
  /\ probe_needed "/configs" = false
  /\ probe_needed "configs" = false.
Proof. repeat split. Qed.

Example alias_values :
  alias_get (PyStr.lower "STS") CONTROLLER_ALIASES = Some "StatefulSet"
  /\ alias_get (PyStr.lower "deploy") CONTROLLER_ALIASES = Some "Deployment"
  /\ alias_get (PyStr.lower "ds") CONTROLLER_ALIASES = Some "DaemonSet"
  /\ alias_get (PyStr.lower "job") CONTROLLER_ALIASES = None
  /\ PyStr.join ", " (map fst CONTROLLER_ALIASES)
     = "deployment, deploy, statefulset, sts, daemonset, ds".
Proof. repeat split. Qed.

Example python_on_json :
  Py.get (JObj [("a", JNum 1)]) "a" JNull = Ret (JNum 1)
  /\ Py.get (JObj [("a", JNum 1)]) "b" (JStr "") = Ret (JStr "")
  /\ Py.get JNull "a" JNull = Exc (Exception "AttributeError")
  /\ Py.contains "running" (JObj [("running", JObj [])]) = Ret true
  /\ Py.contains "running" (JStr "not running") = Ret true
  /\ Py.contains "running" JNull = Exc (Exception "TypeError")
  /\ Py.iter (JObj [("a", JNum 1); ("b", JNum 2)]) = Ret [JStr "a"; JStr "b"]
  /\ Py.in_str_set (JArr []) failure_states = Exc (Exception "TypeError")
  /\ Py.in_str_set (JStr "ErrImagePull") failure_states = Ret true
  /\ Py.in_str_set (JStr "ContainerCreating") failure_states = Ret false.
Proof. repeat split. Qed.

Example command_lines :
  debug_command "web-0" "prod" "busybox" (Some "app") false
  = "nohup kubectl debug -i --tty web-0 --namespace=prod --target=app --share-processes --profile=general --image=busybox -- sleep 300 > /dev/null 2>&1 &"
  /\ interactive_argv "web-0" "prod" "dbg" "bash" (Some "/var/configs")
     = [ "kubectl"; "exec"; "-it"; "web-0"; "-n"; "prod"; "-c"; "dbg"; "--";
         "sh"; "-c"; "bash -c 'cd /proc/1/root/var/configs && exec bash'" ]
  /\ interactive_argv "web-0" "prod" "dbg" "top" None
     = [ "kubectl"; "exec"; "-it"; "web-0"; "-n"; "prod"; "-c"; "dbg"; "--"; "top" ]
  /\ verify_command "web-0" "prod" "dbg" "/var/configs"
     = "kubectl exec web-0 -n prod -c dbg -- ls -d /var/configs 2>/dev/null"
  /\ copy_command "prod" "dbg" "web-0:/var/configs" "./backups/prod/d_web-0"
     = "kubectl cp -n prod -c dbg web-0:/var/configs ./backups/prod/d_web-0"
  /\ kill_command "web-0" "prod" "dbg"
     = "kubectl exec web-0 -n prod -c dbg -- /bin/bash -c 'kill -9 1' 2>/dev/null || true".
Proof. repeat split. Qed.

Example query_lines :
  namespace_query = "kubectl config view --minify --output 'jsonpath={..namespace}'"
  /\ pod_query "web-0" "prod" = "kubectl get pod web-0 -n prod -o json"
  /\ pods_query "prod" = "kubectl get pods -n prod -o json"
  /\ remove_command "web-0" "prod" "dbg"
     = "kubectl exec web-0 -n prod -c dbg -- rm -f /tmp/kdebug-backup.tar.gz"
  /\ in_namespace "prod" (EvRun false "kubectl get pod web-0 -n prod -o json") = true
  /\ in_namespace "prod" (EvRun false "kubectl get pod web-0 -n production -o json") = false
  /\ in_namespace "prod" (EvRun false "kubectl get pod web-0 -o json") = false
  /\ in_namespace "prod"
       (EvAttach ["kubectl"; "exec"; "-it"; "web-0"; "-n"; "prod"; "-c"; "dbg"; "--"; "sh"])
     = true
  /\ in_namespace "prod"
       (EvAttach ["kubectl"; "exec"; "-it"; "-n"; "web-0"; "prod"; "-c"; "dbg"; "--"; "sh"])
     = false.
Proof. repeat split. Qed.

(** The decoder of the concrete clusters reads their payloads. *)
Example demo_payloads :
  Demo.loads Demo.pod_before_text = Some Demo.pod_before
  /\ Demo.loads Demo.pod_after_text = Some Demo.pod_after
  /\ Demo.loads Demo.pods_text = Some Demo.pods
  /\ Demo.loads "<html>502 Bad Gateway</html>" = None
  /\ get_pod_containers Demo.loads (Demo.cluster Demo.healthy) "web-0" "prod" Demo.boot
     = (Ret (mkInfo ["app"] [] []),
        mkWorld 150 false [EvRun false (pod_query "web-0" "prod")]).
Proof. repeat split. Qed.

(** ** Running the monad *)

Lemma bind_Ret {A B} (m : M A) (k : A -> M B) w a w1 :
  m w = (Ret a, w1) -> bind m k w = k a w1.
Proof. intros H. unfold bind. rewrite H. reflexivity. Qed.

Lemma bind_assoc {A B C} (m : M A) (k : A -> M B) (k' : B -> M C) w :
  bind (bind m k) k' w = bind m (fun a => bind (k a) k') w.
Proof. unfold bind. destruct (m w) as [[a|e|] w1]; reflexivity. Qed.

(** ** Frames: what a computation leaves alone *)

Section Stable.

Context {R : World -> World -> Prop} `{Frame R}.

Lemma stable_ret {A} (a : A) : stable R (ret a).
Proof. intro w. apply frame_refl. Qed.

Lemma stable_raise {A} e : stable R (@raise A e).
Proof. intro w. apply frame_refl. Qed.

Lemma stable_undef {A} : stable R (@undef A).
Proof. intro w. apply frame_refl. Qed.

Lemma stable_lift {A} (r : res A) : stable R (lift r).
Proof. intro w. apply frame_refl. Qed.

Lemma stable_time_time : stable R time_time.
Proof. intro w. apply frame_refl. Qed.

Lemma stable_get_DEBUG_MODE : stable R get_DEBUG_MODE.
Proof. intro w. apply frame_refl. Qed.

Lemma stable_bind {A B} (m : M A) (k : A -> M B) :
  stable R m -> (forall a, stable R (k a)) -> stable R (bind m k).
Proof.
  intros Hm Hk w. unfold bind. specialize (Hm w).
  destruct (m w) as [[a|e|] w1]; simpl in *; trivial.
  eapply frame_trans; [exact Hm | apply Hk].
Qed.

Lemma stable_try_except {A} (body on_interrupt : M A) on_exception :
  stable R body -> stable R on_interrupt -> (forall k, stable R (on_exception k)) ->
  stable R (try_except body on_interrupt on_exception).
Proof.
  intros Hb Hi He w. unfold try_except. specialize (Hb w).
  destruct (body w) as [[a|[|c|k]|] w1]; simpl in *; trivial;
    (eapply frame_trans; [exact Hb |]); [apply Hi | apply He].
Qed.

Lemma stable_try_finally {A} (body : M A) (final : M unit) :
  stable R body -> stable R final -> stable R (try_finally body final).
Proof.
  intros Hb Hf w. unfold try_finally. specialize (Hb w).
  destruct (body w) as [[a|e|] w1]; simpl in *; trivial;
    specialize (Hf w1); destruct (final w1) as [[u|e'|] w2]; simpl in *;
    eapply frame_trans; eauto.
Qed.

End Stable.

#[export] Instance silent_frame {A} (f : event -> option A) : Frame (silent_rel f).
Proof. split; unfold silent_rel; intros; congruence. Qed.

#[export] Instance later_frame : Frame later.
Proof. split; unfold later; intros; lia. Qed.

#[export] Instance extends_frame : Frame extends.
Proof.
  split; unfold extends.
  - intro w. exists []. reflexivity.
  - intros a b c [n1 H1] [n2 H2]. exists (n2 ++ n1)%list.
    rewrite H2, H1. now rewrite app_assoc.
Qed.

Create HintDb frame.

Section Frames.

Variable json_loads : string -> option json.
Variable env : Env.

(** *** Events that [f] does not select *)

Section Silent.

Context {A : Type} (f : event -> option A).

Lemma silent_emit e : f e = None -> stable (silent_rel f) (emit e).
Proof. intros He w. unfold silent_rel. simpl. rewrite He. reflexivity. Qed.

Lemma silent_blocking e ms : f e = None -> stable (silent_rel f) (blocking env e ms).
Proof.
  intros He w. unfold silent_rel, blocking.
  destruct (answer env (e :: trace w)); simpl; rewrite He; reflexivity.
Qed.

Lemma silent_sleep s : f (EvSleep s) = None -> stable (silent_rel f) (sleep env s).
Proof. intros He w. unfold silent_rel. simpl. rewrite He. reflexivity. Qed.

Lemma silent_set_DEBUG_MODE b : stable (silent_rel f) (set_DEBUG_MODE b).
Proof. intro w. reflexivity. Qed.

End Silent.

End Frames.

Ltac frame_hyp :=
  match goal with
  | H : context [stable] |- stable _ _ => first [ apply H; reflexivity | apply H ]
  end.

Ltac frame_step :=
  first
    [ assumption
    | solve [ auto with frame ]
    | frame_hyp
    | apply silent_emit; reflexivity
    | apply silent_blocking; reflexivity
    | apply silent_sleep; reflexivity
    | apply silent_set_DEBUG_MODE
    | apply stable_ret | apply stable_lift | apply stable_raise | apply stable_undef
    | apply stable_time_time | apply stable_get_DEBUG_MODE
    | apply stable_bind; [ | intro ]
    | apply stable_try_except; [ | | intro ]
    | apply stable_try_finally
    | match goal with
      | |- stable _ (if ?b then _ else _) => destruct b
      | |- stable _ (match ?x with _ => _ end) => destruct x
      end ].

Ltac frames := unfold say, say_err; repeat frame_step.

(** *** The functions that neither clean up nor report a timeout

    Whatever relation the plain events preserve, these functions preserve. *)

Section Plain.

Context {R : World -> World -> Prop} `{Frame R}.

Variable json_loads : string -> option json.
Variable env : Env.

Hypothesis R_emit : forall e,
  cleanup_of e = None -> timeout_report_of e = None -> stable R (emit e).
Hypothesis R_blocking : forall e,
  cleanup_of e = None -> timeout_report_of e = None -> stable R (blocking env e 0).
Hypothesis R_sleep : stable R (sleep env 2).

Lemma plain_print_debug_command cmd : stable R (print_debug_command cmd).
Proof. unfold print_debug_command. frames. Qed.
#[local] Hint Resolve plain_print_debug_command : frame.

Lemma plain_run_command cmd check use_bash : stable R (run_command env cmd check use_bash).
Proof. unfold run_command. frames. Qed.
#[local] Hint Resolve plain_run_command : frame.

Lemma plain_get_current_namespace : stable R (get_current_namespace env).
Proof. unfold get_current_namespace. frames. Qed.
#[local] Hint Resolve plain_get_current_namespace : frame.

Lemma plain_get_pod_by_name name namespace :
  stable R (get_pod_by_name json_loads env name namespace).
Proof. unfold get_pod_by_name. frames. Qed.
#[local] Hint Resolve plain_get_pod_by_name : frame.

Lemma plain_get_pods_by_controller t name namespace :
  stable R (get_pods_by_controller json_loads env t name namespace).
Proof. unfold get_pods_by_controller. frames. Qed.
#[local] Hint Resolve plain_get_pods_by_controller : frame.

Lemma plain_select_pod args : stable R (select_pod json_loads env args).
Proof. unfold select_pod. frames. Qed.
#[local] Hint Resolve plain_select_pod : frame.

Lemma plain_get_pod_containers name namespace :
  stable R (get_pod_containers json_loads env name namespace).
Proof. unfold get_pod_containers. frames. Qed.
#[local] Hint Resolve plain_get_pod_containers : frame.

Lemma plain_get_existing_ephemeral_containers name namespace :
  stable R (get_existing_ephemeral_containers json_loads env name namespace).
Proof. unfold get_existing_ephemeral_containers. frames. Qed.
#[local] Hint Resolve plain_get_existing_ephemeral_containers : frame.

Lemma plain_scan_statuses c statuses :
  forall last, stable R (scan_statuses c statuses last).
Proof.
  induction statuses as [|status rest IH]; intro last; simpl; frames.
Qed.
#[local] Hint Resolve plain_scan_statuses : frame.

Lemma plain_poll_once name namespace c last :
  stable R (poll_once json_loads env name namespace c last).
Proof. unfold poll_once. frames. Qed.
#[local] Hint Resolve plain_poll_once : frame.

Lemma plain_exec_interactive name namespace c cmd cd :
  stable R (exec_interactive env name namespace c cmd cd).
Proof. unfold exec_interactive. frames. Qed.

Lemma plain_create_backup name namespace c path compress :
  stable R (create_backup env name namespace c path compress).
Proof. unfold create_backup, backup_banner, today. frames. Qed.

End Plain.

(** *** Computations that stay inside the embedding *)

Lemma defined_ret {A} (a : A) : defined (ret a).
Proof. intro w. discriminate. Qed.

Lemma defined_raise {A} e : defined (@raise A e).
Proof. intro w. discriminate. Qed.

Lemma defined_emit e : defined (emit e).
Proof. intro w. discriminate. Qed.

Lemma defined_time_time : defined time_time.
Proof. intro w. discriminate. Qed.

Lemma defined_get_DEBUG_MODE : defined get_DEBUG_MODE.
Proof. intro w. discriminate. Qed.

Lemma defined_blocking env e ms : defined (blocking env e ms).
Proof. intro w. unfold blocking. destruct (answer env _); discriminate. Qed.

Lemma defined_sleep env s : defined (sleep env s).
Proof. intro w. discriminate. Qed.

Lemma defined_lift {A} (r : res A) : r <> Undef -> defined (lift r).
Proof. intros Hr w. exact Hr. Qed.

Lemma defined_bind {A B} (m : M A) (k : A -> M B) :
  defined m -> (forall a, defined (k a)) -> defined (bind m k).
Proof.
  intros Hm Hk w. unfold bind. specialize (Hm w).
  destruct (m w) as [[a|e|] w1]; simpl in *; try discriminate; [apply Hk | congruence].
Qed.

Lemma defined_try_except {A} (body on_interrupt : M A) on_exception :
  defined body -> defined on_interrupt -> (forall k, defined (on_exception k)) ->
  defined (try_except body on_interrupt on_exception).
Proof.
  intros Hb Hi He w. unfold try_except. specialize (Hb w).
  destruct (body w) as [[a|[|c|k]|] w1]; simpl in *; try discriminate;
    [apply Hi | apply He | congruence].
Qed.

Lemma get_defined d k default : Py.get d k default <> Undef.
Proof. destruct d; discriminate. Qed.

Lemma iter_defined x : Py.iter x <> Undef.
Proof. destruct x; discriminate. Qed.

Lemma contains_defined k x : Py.contains k x <> Undef.
Proof. destruct x; discriminate. Qed.

Lemma in_str_set_defined x S : Py.in_str_set x S <> Undef.
Proof. unfold Py.in_str_set. destruct (Py.hashable x); discriminate. Qed.

Lemma ephemeral_statuses_of_defined pod_data : ephemeral_statuses_of pod_data <> Undef.
Proof.
  unfold ephemeral_statuses_of, res_bind.
  destruct (Py.get pod_data _ _) as [status| |] eqn:E1;
    [|discriminate|now apply get_defined in E1].
  destruct (Py.get status _ _) as [l| |] eqn:E2;
    [|discriminate|now apply get_defined in E2].
  apply iter_defined.
Qed.

Ltac defs_step :=
  first
    [ assumption
    | solve [ auto with frame ]
    | apply defined_ret | apply defined_raise | apply defined_emit
    | apply defined_time_time | apply defined_get_DEBUG_MODE
    | apply defined_blocking | apply defined_sleep
    | apply defined_lift;
      first [ apply get_defined | apply iter_defined | apply contains_defined
            | apply in_str_set_defined | apply ephemeral_statuses_of_defined ]
    | apply defined_bind; [ | intro ]
    | apply defined_try_except; [ | | intro ]
    | match goal with
      | |- defined (if ?b then _ else _) => destruct b
      | |- defined (match ?x with _ => _ end) => destruct x
      end ].

Ltac defs := unfold say, say_err; repeat defs_step.

Section Defined.

Variable json_loads : string -> option json.
Variable env : Env.

Lemma defined_print_debug_command cmd : defined (print_debug_command cmd).
Proof. unfold print_debug_command. defs. Qed.
#[local] Hint Resolve defined_print_debug_command : frame.

Lemma defined_run_command cmd check use_bash : defined (run_command env cmd check use_bash).
Proof. unfold run_command. defs. Qed.
#[local] Hint Resolve defined_run_command : frame.

Lemma defined_scan_statuses c statuses :
  forall last, defined (scan_statuses c statuses last).
Proof. induction statuses as [|status rest IH]; intro last; simpl; defs. Qed.
#[local] Hint Resolve defined_scan_statuses : frame.

Lemma defined_poll_once name namespace c last :
  defined (poll_once json_loads env name namespace c last).
Proof. unfold poll_once. defs. Qed.

Lemma defined_exec_interactive name namespace c cmd cd :
  defined (exec_interactive env name namespace c cmd cd).
Proof. unfold exec_interactive. defs. Qed.

Lemma defined_create_backup name namespace c path compress :
  defined (create_backup env name namespace c path compress).
Proof.
  unfold create_backup, backup_banner, today. defs. intro w. discriminate.
Qed.

End Defined.

(** *** Nothing but [cleanup_debug_container] cleans up *)

Section Cleanup.

Variable json_loads : string -> option json.
Variable env : Env.

#[local] Abbreviation quiet := (stable (silent_rel cleanup_of)).

Lemma quiet_emit e :
  cleanup_of e = None -> timeout_report_of e = None -> quiet (emit e).
Proof. intros. now apply silent_emit. Qed.

Lemma quiet_blocking e :
  cleanup_of e = None -> timeout_report_of e = None -> quiet (blocking env e 0).
Proof. intros. now apply silent_blocking. Qed.

Lemma quiet_sleep : quiet (sleep env 2).
Proof. now apply silent_sleep. Qed.

#[local] Hint Resolve quiet_sleep : frame.

Lemma quiet_run_command cmd check use_bash : quiet (run_command env cmd check use_bash).
Proof. apply plain_run_command; [apply quiet_emit | apply quiet_blocking]. Qed.

#[local] Hint Resolve quiet_run_command : frame.

Lemma quiet_poll_once name namespace c last :
  quiet (poll_once json_loads env name namespace c last).
Proof.
  apply plain_poll_once; [apply quiet_emit | apply quiet_blocking | apply quiet_sleep].
Qed.
#[local] Hint Resolve quiet_poll_once : frame.

Lemma quiet_wait_loop name namespace c timeout start fuel :
  forall last, quiet (wait_loop json_loads env fuel name namespace c timeout start last).
Proof.
  induction fuel as [|fuel IH]; intro last; simpl; [apply stable_undef|].
  unfold report_timeout. frames.
Qed.
#[local] Hint Resolve quiet_wait_loop : frame.

Lemma quiet_get_existing_ephemeral_containers name namespace :
  quiet (get_existing_ephemeral_containers json_loads env name namespace).
Proof.
  apply plain_get_existing_ephemeral_containers; [apply quiet_emit | apply quiet_blocking].
Qed.
#[local] Hint Resolve quiet_get_existing_ephemeral_containers : frame.

Lemma quiet_launch_debug_container name namespace image target existing as_root :
  quiet (launch_debug_container json_loads env name namespace image target existing as_root).
Proof.
  unfold launch_debug_container, request_debug_container, await_debug_container,
    wait_for_container_running.
  frames.
Qed.
#[local] Hint Resolve quiet_launch_debug_container : frame.

Lemma quiet_select_pod args : quiet (select_pod json_loads env args).
Proof. apply plain_select_pod; [apply quiet_emit | apply quiet_blocking]. Qed.
#[local] Hint Resolve quiet_select_pod : frame.

Lemma quiet_get_pod_containers name namespace :
  quiet (get_pod_containers json_loads env name namespace).
Proof. apply plain_get_pod_containers; [apply quiet_emit | apply quiet_blocking]. Qed.
#[local] Hint Resolve quiet_get_pod_containers : frame.

Lemma quiet_main_provision args : quiet (main_provision json_loads env args).
Proof. unfold main_provision, parser_error, sys_exit. frames. Qed.

Lemma quiet_create_backup name namespace c path compress :
  quiet (create_backup env name namespace c path compress).
Proof. apply plain_create_backup; [apply quiet_emit | apply quiet_blocking]. Qed.
#[local] Hint Resolve quiet_create_backup : frame.

Lemma quiet_exec_interactive name namespace c cmd cd :
  quiet (exec_interactive env name namespace c cmd cd).
Proof. apply plain_exec_interactive; [apply quiet_emit | apply quiet_blocking]. Qed.
#[local] Hint Resolve quiet_exec_interactive : frame.

Lemma quiet_guarded_operation args name namespace d :
  quiet (guarded_operation env args name namespace d).
Proof. unfold guarded_operation. frames. Qed.

Lemma defined_guarded_operation args name namespace d :
  defined (guarded_operation env args name namespace d).
Proof.
  pose proof defined_create_backup. pose proof defined_exec_interactive.
  unfold guarded_operation. defs.
Qed.

Lemma cleanup_debug_container_calls name namespace d w :
  cleanup_calls (trace (snd (cleanup_debug_container env name namespace d w)))
  = (name, namespace, d) :: cleanup_calls (trace w).
Proof.
  unfold cleanup_debug_container.
  rewrite (bind_Ret _ _ w (a := tt)
             (w1 := mkWorld (now w) (DEBUG_MODE w) (EvCleanup name namespace d :: trace w)))
    by reflexivity.
  assert (Hq : quiet (say "\nCleaning up debug container..." [] ;;
                      run_command env (kill_command name namespace d) false false ;;
                      say "Debug container cleanup initiated" [] ;;
                      ret true)).
  { frames. }
  rewrite (Hq _). reflexivity.
Qed.

Lemma main_operate_calls args name namespace d w :
  cleanup_calls (trace (snd (main_operate env args name namespace d w)))
  = (name, namespace, d) :: cleanup_calls (trace w).
Proof.
  unfold main_operate.
  set (final := cleanup_debug_container env name namespace d ;; ret tt).
  assert (Hfinal : forall w0, cleanup_calls (trace (snd (final w0)))
                              = (name, namespace, d) :: cleanup_calls (trace w0)).
  { intro w0. unfold final, bind.
    pose proof (cleanup_debug_container_calls name namespace d w0) as Hc.
    destruct (cleanup_debug_container env name namespace d w0) as [[b|e|] w1];
      simpl in *; exact Hc. }
  pose proof (quiet_guarded_operation args name namespace d w) as Hq.
  pose proof (defined_guarded_operation args name namespace d w) as Hd.
  unfold silent_rel in Hq. unfold bind at 1. unfold try_finally.
  destruct (guarded_operation env args name namespace d w) as [[code|e|] w1];
    simpl in Hq, Hd; try congruence;
    specialize (Hfinal w1); destruct (final w1) as [[u|e'|] w2];
    simpl in *; unfold cleanup_calls in *; congruence.
Qed.

End Cleanup.

(** ** Cleanup (C4) *)

(** C4.  Whenever the provisioning part of [main] returns a debug container,
    the run of [main] enters [cleanup_debug_container] exactly once more
    than had been entered before, and for that container: whatever the
    operation does (a backup that succeeds or fails, an interactive session
    with any exit code, an exception, Ctrl-C), since the oracle is
    arbitrary. *)
Theorem cleanup_runs_exactly_once json_loads env args w name namespace d w1 :
  main_provision json_loads env args w = (Ret (name, namespace, d), w1) ->
  cleanup_calls (trace (after (main json_loads env args) w))
  = (name, namespace, d) :: cleanup_calls (trace w).
Proof.
  intros Hp. unfold after, main. rewrite (bind_Ret _ _ _ Hp).
  rewrite main_operate_calls. f_equal.
  pose proof (quiet_main_provision json_loads env args w) as Hq.
  rewrite Hp in Hq. exact Hq.
Qed.

Lemma cleanup_runs_exactly_once_witness :
  cleanup_calls
    (trace (after (main Demo.loads (Demo.cluster Demo.healthy) Demo.backup_args) Demo.boot))
  = [("web-0", "prod", "debugger-x7k2p")].
Proof.
  apply (cleanup_runs_exactly_once Demo.loads (Demo.cluster Demo.healthy)
           Demo.backup_args Demo.boot
           (w1 := snd (main_provision Demo.loads (Demo.cluster Demo.healthy)
                         Demo.backup_args Demo.boot))).
  vm_compute. reflexivity.
Defined.

(** The same on three outcomes of the operation: a backup that fails, an
    interactive session, and Ctrl-C during the operation. *)
Example cleanup_on_each_outcome :
  let run answer args := main Demo.loads (Demo.cluster answer) args Demo.boot in
  let seen r := (fst r, cleanup_calls (trace (snd r))) in
  seen (run Demo.healthy Demo.backup_args)
    = (Exc (SystemExit 1), [("web-0", "prod", "debugger-x7k2p")])
  /\ seen (run Demo.healthy Demo.shell_args)
    = (Exc (SystemExit 0), [("web-0", "prod", "debugger-x7k2p")])
  /\ seen (run Demo.interrupted Demo.backup_args)
    = (Exc (SystemExit 130), [("web-0", "prod", "debugger-x7k2p")]).
Proof. vm_compute. repeat split. Qed.

(** When provisioning does not return a container, nothing is cleaned up. *)
Lemma no_cleanup_without_container json_loads env args w :
  cleanup_calls (trace (after (main_provision json_loads env args) w))
  = cleanup_calls (trace w).
Proof. apply quiet_main_provision. Qed.

(** ** The namespace of the current context (C10) *)

Section Namespace.

Variable json_loads : string -> option json.
Variable env : Env.

Lemma matching_pods_namespace kind name namespace items :
  forall pods, matching_pods kind name namespace items = Ret pods ->
  Forall (fun p => Pod.namespace p = namespace) pods.
Proof.
  induction items as [|pod rest IH]; simpl; intros pods Hm.
  - injection Hm as <-. constructor.
  - unfold res_bind in Hm.
    repeat match type of Hm with
           | context [match ?x with _ => _ end] => destruct x eqn:?; try discriminate
           end;
      injection Hm as <-; try constructor; auto.
Qed.

Lemma get_pod_by_name_namespace name namespace w p w' :
  get_pod_by_name json_loads env name namespace w = (Ret (Some p), w') ->
  Pod.namespace p = namespace.
Proof.
  unfold get_pod_by_name, bind, say, say_err, emit, ret, lift. intros Hg.
  repeat match type of Hg with
         | context [match ?x with _ => _ end] => destruct x eqn:?; try discriminate
         end;
    injection Hg as <- _; reflexivity.
Qed.

Lemma get_pods_by_controller_namespace t name namespace w pods w' :
  get_pods_by_controller json_loads env t name namespace w = (Ret pods, w') ->
  Forall (fun p => Pod.namespace p = namespace) pods.
Proof.
  unfold get_pods_by_controller, bind, say, say_err, emit, ret, lift. intros Hg.
  repeat match type of Hg with
         | context [match ?x with _ => _ end] => destruct x eqn:?; try discriminate
         end;
    try (injection Hg as <- _; constructor).
  injection Hg as Hm _. eapply matching_pods_namespace; eassumption.
Qed.

Lemma select_pod_namespace args ns w p w' :
  PyStr.truthy ns = true ->
  select_pod json_loads env (with_namespace ns args) w = (Ret (Some p), w') ->
  Pod.namespace p = ns.
Proof.
  intros Hns. unfold select_pod. simpl. rewrite Hns.
  rewrite (bind_Ret _ _ w (a := ns) (w1 := w)) by reflexivity.
  destruct (PyStr.truthy_opt (arg_pod args)).
  { apply get_pod_by_name_namespace. }
  destruct (PyStr.truthy_opt (arg_controller args)).
  2: { unfold bind, say_err, emit, ret. simpl. discriminate. }
  destruct (negb (PyStr.truthy_opt (arg_controller_name args))).
  { unfold bind, say_err, emit, ret. simpl. discriminate. }
  unfold bind at 1.
  destruct (get_pods_by_controller _ _ _ _ _ _) as [[pods| |] w2] eqn:Hg;
    try discriminate.
  apply get_pods_by_controller_namespace in Hg.
  destruct pods as [|first more].
  { unfold bind, say_err, emit, ret. simpl. discriminate. }
  inversion Hg as [|? ? Hfirst _]; subst.
  unfold bind, say, emit, ret.
  destruct (1 <? _); simpl; intros Hs; injection Hs as <- _; reflexivity.
Qed.

End Namespace.

(** ** The namespace every command addresses (C10) *)

Lemma prefix_app a b c : String.prefix (a ++ b) (a ++ c) = String.prefix b c.
Proof.
  induction a as [|x a IH]; simpl; [reflexivity|].
  destruct (ascii_dec x x); [exact IH | congruence].
Qed.

Lemma contains_here hay needle :
  String.prefix needle hay = true -> PyStr.contains hay needle = true.
Proof. intros Hp. destruct hay; cbn [PyStr.contains]; rewrite Hp; reflexivity. Qed.

Lemma contains_cons c hay needle :
  PyStr.contains hay needle = true -> PyStr.contains (String c hay) needle = true.
Proof. intros Hc. cbn [PyStr.contains]. rewrite Hc. apply orb_true_r. Qed.

Lemma contains_skip pre hay needle :
  PyStr.contains hay needle = true -> PyStr.contains (pre ++ hay) needle = true.
Proof.
  intros Hc. induction pre as [|c pre IH]; [exact Hc|].
  cbn [append]. now apply contains_cons.
Qed.

Lemma append_assoc a b c : ((a ++ b) ++ c = a ++ (b ++ c))%string.
Proof. induction a as [|x a IH]; simpl; [reflexivity | now rewrite IH]. Qed.

Lemma adjacent_app a b pre post :
  adjacent a b (pre ++ a :: b :: post)%list = true.
Proof.
  induction pre as [|x pre IH].
  - cbn [app adjacent]. now rewrite !String.eqb_refl.
  - cbn [app]. cbn [adjacent]. rewrite IH. apply orb_true_r.
Qed.

(** The text of a command is laid out flat, then searched. *)
Ltac flat := repeat progress (cbn [append]; rewrite ?append_assoc).

Ltac found :=
  first
    [ solve [ apply contains_here; cbn [String.prefix];
              repeat (rewrite ?prefix_app; simpl); reflexivity ]
    | apply contains_cons; found
    | apply contains_skip; found ].

Ltac addressed :=
  cbn [in_namespace];
  unfold pod_query, pods_query, verify_command, parent_command, archive_command,
    copy_command, remove_command, kill_command, exec_prefix;
  flat; found.

#[export] Instance within_frame ns : Frame (within ns).
Proof.
  split; unfold within.
  - intro w. exists []. split; reflexivity.
  - intros a b c (n1 & H1 & F1) (n2 & H2 & F2). exists (n2 ++ n1)%list. split.
    + rewrite H2, H1. now rewrite app_assoc.
    + rewrite forallb_app, F1, F2. reflexivity.
Qed.

Lemma run_command_answered env cmd w rc out err :
  answer env (asking cmd w) = Completed rc out err ->
  run_command env cmd false false w = (Ret (Some (PyStr.strip out)), answered env cmd w).
Proof.
  intros Ha. unfold run_command, print_debug_command, get_DEBUG_MODE, answered, asking in *.
  destruct w as [t dbg tr]. cbn [DEBUG_MODE trace now] in *.
  destruct dbg; cbv beta iota delta [bind say emit ret blocking fst snd now DEBUG_MODE trace];
    cbn [app echo] in *; rewrite Ha; cbn [andb]; rewrite Z.add_0_r; reflexivity.
Qed.

Lemma run_command_raised env cmd check w ex :
  answer env (asking cmd w) = Raised ex ->
  fst (run_command env cmd check false w) = Exc ex.
Proof.
  intros Ha. unfold run_command, print_debug_command, get_DEBUG_MODE, asking in *.
  destruct w as [t dbg tr]. cbn [DEBUG_MODE trace now] in *.
  destruct dbg; cbv beta iota delta [bind say emit ret blocking fst snd now DEBUG_MODE trace];
    cbn [app echo] in *; rewrite Ha; reflexivity.
Qed.

Section InNamespace.

Variable json_loads : string -> option json.
Variable env : Env.
Variable ns : string.

#[local] Abbreviation inside := (stable (within ns)).

Lemma within_emit e : in_namespace ns e = true -> inside (emit e).
Proof.
  intros He w. exists [e]. split; [reflexivity|]. cbn [forallb]. now rewrite He.
Qed.

Lemma within_blocking e ms : in_namespace ns e = true -> inside (blocking env e ms).
Proof.
  intros He w. exists [e]. unfold blocking.
  destruct (answer env (e :: trace w)); (split; [reflexivity|]);
    cbn [forallb]; now rewrite He.
Qed.

Lemma within_sleep s : inside (sleep env s).
Proof. intro w. exists [EvSleep s]. split; reflexivity. Qed.

Lemma within_set_DEBUG_MODE b : inside (set_DEBUG_MODE b).
Proof. intro w. exists []. split; reflexivity. Qed.

Lemma within_today : inside (today env).
Proof. intro w. exists []. split; reflexivity. Qed.

Ltac inside_step :=
  first
    [ assumption
    | solve [ auto with frame ]
    | apply within_emit; reflexivity
    | apply within_sleep
    | apply within_set_DEBUG_MODE
    | apply within_today
    | frame_step ].

Ltac insides := unfold say, say_err; repeat inside_step.

Lemma within_print_debug_command cmd : inside (print_debug_command cmd).
Proof. unfold print_debug_command. insides. Qed.
#[local] Hint Resolve within_print_debug_command : frame.

Lemma within_run_command cmd check use_bash :
  in_namespace ns (EvRun use_bash cmd) = true ->
  inside (run_command env cmd check use_bash).
Proof.
  intros Hin. pose proof (@within_blocking (EvRun use_bash cmd) 0 Hin). unfold run_command. insides.
Qed.

Lemma within_pod_query name check : inside (run_command env (pod_query name ns) check false).
Proof. apply within_run_command. addressed. Qed.
#[local] Hint Resolve within_pod_query : frame.

Lemma within_get_pod_by_name name : inside (get_pod_by_name json_loads env name ns).
Proof. unfold get_pod_by_name. insides. Qed.
#[local] Hint Resolve within_get_pod_by_name : frame.

Lemma within_get_pods_by_controller t name :
  inside (get_pods_by_controller json_loads env t name ns).
Proof.
  assert (inside (run_command env (pods_query ns) false false))
    by (apply within_run_command; addressed).
  unfold get_pods_by_controller. insides.
Qed.
#[local] Hint Resolve within_get_pods_by_controller : frame.

Hypothesis ns_truthy : PyStr.truthy ns = true.

Lemma within_select_pod args : inside (select_pod json_loads env (with_namespace ns args)).
Proof.
  unfold select_pod.
  cbn [with_namespace arg_namespace arg_pod arg_controller arg_controller_name
       PyStr.truthy_opt text].
  rewrite ns_truthy.
  match goal with
  | |- inside (bind (ret ?a) ?k) => change (inside (k a)); cbv beta
  end.
  insides.
Qed.

Lemma within_get_pod_containers name : inside (get_pod_containers json_loads env name ns).
Proof. unfold get_pod_containers. insides. Qed.
#[local] Hint Resolve within_get_pod_containers : frame.

Lemma within_get_existing_ephemeral_containers name :
  inside (get_existing_ephemeral_containers json_loads env name ns).
Proof. unfold get_existing_ephemeral_containers. insides. Qed.
#[local] Hint Resolve within_get_existing_ephemeral_containers : frame.

Lemma within_scan_statuses c statuses :
  forall last, inside (scan_statuses c statuses last).
Proof. induction statuses as [|status rest IH]; intro last; simpl; insides. Qed.
#[local] Hint Resolve within_scan_statuses : frame.

Lemma within_wait_loop name c timeout start fuel :
  forall last, inside (wait_loop json_loads env fuel name ns c timeout start last).
Proof.
  induction fuel as [|fuel IH]; intro last; simpl; [apply stable_undef|].
  unfold poll_once, report_timeout. insides.
Qed.
#[local] Hint Resolve within_wait_loop : frame.

Lemma debug_command_addressed name image target as_root :
  in_namespace ns (EvRun true (debug_command name ns image target as_root)) = true.
Proof.
  cbn [in_namespace]. unfold debug_command.
  destruct (PyStr.truthy_opt target), as_root; cbn [app PyStr.join]; flat; found.
Qed.

Lemma within_launch_debug_container name image target existing as_root :
  inside (launch_debug_container json_loads env name ns image target existing as_root).
Proof.
  pose proof (@within_run_command _ false true
                (debug_command_addressed name image target as_root)).
  unfold launch_debug_container, request_debug_container, await_debug_container,
    wait_for_container_running.
  insides.
Qed.
#[local] Hint Resolve within_launch_debug_container : frame.

Lemma within_exec_interactive name c cmd cd :
  inside (exec_interactive env name ns c cmd cd).
Proof.
  assert (inside (blocking env (EvAttach (interactive_argv name ns c cmd cd)) 0)).
  { apply within_blocking. cbn [in_namespace]. unfold interactive_argv.
    apply (adjacent_app "-n" ns ["kubectl"; "exec"; "-it"; name]). }
  unfold exec_interactive. insides.
Qed.

Lemma within_create_backup name c path compress :
  inside (create_backup env name ns c path compress).
Proof.
  assert (forall p, inside (run_command env (verify_command name ns c p) false false))
    by (intro; apply within_run_command; addressed).
  assert (forall p, inside (run_command env (parent_command name ns c p) false false))
    by (intro; apply within_run_command; addressed).
  assert (forall p, inside (run_command env (archive_command name ns c p) false false))
    by (intro; apply within_run_command; addressed).
  assert (forall s l, inside (run_command env (copy_command ns c s l) false false))
    by (intros; apply within_run_command; addressed).
  assert (inside (run_command env (remove_command name ns c) false false))
    by (apply within_run_command; addressed).
  assert (forall p, inside (blocking env (EvMakedirs p) 0))
    by (intro; apply within_blocking; reflexivity).
  unfold create_backup, backup_banner. insides.
Qed.

Lemma within_cleanup_debug_container name d :
  inside (cleanup_debug_container env name ns d).
Proof.
  assert (inside (run_command env (kill_command name ns d) false false))
    by (apply within_run_command; addressed).
  unfold cleanup_debug_container. insides.
Qed.

Lemma within_main_operate args name d : inside (main_operate env args name ns d).
Proof.
  pose proof within_exec_interactive. pose proof within_create_backup.
  pose proof within_cleanup_debug_container.
  unfold main_operate, guarded_operation, sys_exit. insides.
Qed.

(** The session [main_provision] returns is in the namespace of the pod
    that [select_pod] returned. *)
Lemma main_provision_namespace args w pod_name namespace d w' :
  main_provision json_loads env (with_namespace ns args) w
  = (Ret (pod_name, namespace, d), w') ->
  namespace = ns.
Proof.
  unfold main_provision. unfold bind at 1. unfold set_DEBUG_MODE at 1. cbn [fst snd].
  unfold bind at 1.
  match goal with
  | |- context [(if ?b then parser_error _ else ret tt) ?w0] =>
      destruct ((if b then parser_error _ else ret tt) w0) as [[[]| |] w1]
  end; try discriminate.
  unfold bind at 1.
  match goal with
  | |- context [(if ?b then parser_error _ else ret tt) ?w0] =>
      destruct ((if b then parser_error _ else ret tt) w0) as [[[]| |] w2]
  end; try discriminate.
  unfold bind at 1.
  destruct (select_pod json_loads env (with_namespace ns args) w2)
    as [[[p|]| |] w3] eqn:Hsel; try discriminate.
  apply select_pod_namespace in Hsel; [|exact ns_truthy].
  intros Hm.
  repeat match type of Hm with
         | bind ?m ?k ?w0 = _ =>
             unfold bind at 1 in Hm;
             destruct (m w0) as [[?| |] ?]; try discriminate
         end.
  match type of Hm with
  | (if ?b then _ else _) _ = _ => destruct b
  end.
  - unfold ret in Hm. injection Hm as _ <- _ _. exact Hsel.
  - unfold bind, say_err, emit, sys_exit, raise in Hm. discriminate.
Qed.

Lemma within_bind_returned {A B} (m : M A) (k : A -> M B) (P : A -> Prop) :
  inside m -> (forall w a w', m w = (Ret a, w') -> P a) ->
  (forall a, P a -> inside (k a)) -> inside (bind m k).
Proof.
  intros Hm HP Hk w. unfold bind. specialize (Hm w). specialize (HP w).
  destruct (m w) as [[a|e|] w1]; cbn [snd] in *; trivial.
  eapply frame_trans; [exact Hm | apply Hk; eapply HP; reflexivity].
Qed.

Lemma within_main_provision args :
  inside (main_provision json_loads env (with_namespace ns args)).
Proof.
  unfold main_provision, parser_error, sys_exit.
  apply stable_bind; [apply within_set_DEBUG_MODE | intros _].
  apply stable_bind; [insides | intros _].
  apply stable_bind; [insides | intros _].
  apply within_bind_returned
    with (P := fun pod => match pod with
                          | Some p => Pod.namespace p = ns
                          | None => True
                          end).
  - apply within_select_pod.
  - intros w [p|] w' Hsel; [|exact I].
    eapply select_pod_namespace; [exact ns_truthy | exact Hsel].
  - intros [p|] Hp; [|insides]. cbv zeta. rewrite Hp. insides.
Qed.

Lemma within_main args : inside (main json_loads env (with_namespace ns args)).
Proof.
  unfold main.
  apply within_bind_returned with (P := fun session => snd (fst session) = ns).
  - apply within_main_provision.
  - intros w [[pod_name namespace] d] w' Hp. cbn [fst snd].
    eapply main_provision_namespace. exact Hp.
  - intros [[pod_name namespace] d] Hn. cbn [fst snd] in Hn. subst namespace.
    apply within_main_operate.
Qed.

End InNamespace.

(** C10.  With no namespace argument, when the query of the current context
    prints nothing but white space: [get_current_namespace] returns
    ["default"]; [select_pod] goes on exactly as under [--namespace default],
    so the pod it returns carries the namespace ["default"]; and every
    command that [select_pod], and then the whole of [main], runs after that
    query addresses the namespace ["default"]: the lookups and status
    queries with [-n default], the debug request with [--namespace=default],
    the session, the backup commands and the cleanup with [-n default]. *)
Theorem empty_context_means_default json_loads env args w rc out err :
  PyStr.truthy_opt (arg_namespace args) = false ->
  answer env
    (asking "kubectl config view --minify --output 'jsonpath={..namespace}'" w)
  = Completed rc out err ->
  PyStr.strip out = "" ->
  let w1 :=
    answered env "kubectl config view --minify --output 'jsonpath={..namespace}'" w in
  get_current_namespace env w = (Ret "default", w1)
  /\ select_pod json_loads env args w
     = select_pod json_loads env (with_namespace "default" args) w1
  /\ (forall p w', select_pod json_loads env args w = (Ret (Some p), w') ->
        Pod.namespace p = "default")
  /\ within "default" w1 (after (select_pod json_loads env args) w)
  /\ (forall w0, w = after (set_DEBUG_MODE (arg_debug args)) w0 ->
        valid_args args = true ->
        main json_loads env args w0
        = main json_loads env (with_namespace "default" args) w1
        /\ within "default" w1 (after (main json_loads env args) w0)).
Proof.
  intros Hns Hanswer Hout w1.
  assert (Hq : run_command env namespace_query false false w = (Ret (Some ""), w1)).
  { unfold namespace_query. rewrite (run_command_answered _ _ _ Hanswer), Hout.
    reflexivity. }
  assert (Hcur : get_current_namespace env w = (Ret "default", w1)).
  { unfold get_current_namespace. rewrite (bind_Ret _ _ _ Hq). reflexivity. }
  assert (Hsel : select_pod json_loads env args w
                 = select_pod json_loads env (with_namespace "default" args) w1).
  { unfold select_pod. rewrite Hns. rewrite (bind_Ret _ _ _ Hcur).
    simpl. rewrite (bind_Ret _ _ w1 (a := "default") (w1 := w1)) by reflexivity.
    reflexivity. }
  split; [exact Hcur|]. split; [exact Hsel|]. split; [|split].
  - intros p w' Hp. rewrite Hsel in Hp.
    eapply select_pod_namespace; [|exact Hp]. reflexivity.
  - unfold after. rewrite Hsel.
    apply (@within_select_pod json_loads env "default" eq_refl args w1).
  - intros w0 Hw Hvalid.
    assert (Hmain : main json_loads env args w0
                    = main json_loads env (with_namespace "default" args) w1).
    { subst w.
      assert (Hflag : DEBUG_MODE w1 = arg_debug args) by reflexivity.
      unfold valid_args in Hvalid.
      apply andb_true_iff in Hvalid as [Hv1 Hv2].
      unfold main, main_provision.
      rewrite !bind_assoc.
      rewrite (bind_Ret _ _ w0 (a := tt)
                 (w1 := after (set_DEBUG_MODE (arg_debug args)) w0)) by reflexivity.
      rewrite (bind_Ret _ _ w1 (a := tt) (w1 := w1)).
      2: { unfold set_DEBUG_MODE. simpl. reflexivity. }
      simpl.
      assert (H1 : negb (PyStr.truthy_opt (arg_pod args))
                   && negb (PyStr.truthy_opt (arg_controller args)) = false).
      { destruct (PyStr.truthy_opt (arg_pod args)),
                 (PyStr.truthy_opt (arg_controller args)); simpl in *; congruence. }
      assert (H2 : PyStr.truthy_opt (arg_controller args)
                   && negb (PyStr.truthy_opt (arg_controller_name args)) = false).
      { destruct (PyStr.truthy_opt (arg_controller args)),
                 (PyStr.truthy_opt (arg_controller_name args)); simpl in *; congruence. }
      rewrite H1, H2.
      cbv beta iota delta [bind ret].
      rewrite Hsel. reflexivity. }
    split; [exact Hmain|].
    unfold after. rewrite Hmain.
    apply (@within_main json_loads env "default" eq_refl args w1).
Qed.

Lemma empty_context_means_default_witness :
  let env := Demo.cluster Scene.no_context in
  fst (select_pod Demo.loads env Demo.bare_args Demo.boot)
  = Ret (Some (Pod.mk (JStr "web-0") "default"))
  /\ commands (trace (after (main Demo.loads env Demo.bare_args) Demo.boot))
     = [ "kubectl config view --minify --output 'jsonpath={..namespace}'";
         "kubectl get pod web-0 -n default -o json";
         "kubectl get pod web-0 -n default -o json";
         "nohup kubectl debug -i --tty web-0 --namespace=default --target=app --share-processes --profile=general --image=ghcr.io/jessegoodier/toolbox:latest -- sleep 300 > /dev/null 2>&1 &";
         "kubectl get pod web-0 -n default -o json";
         "kubectl get pod web-0 -n default -o json";
         "kubectl exec web-0 -n default -c debugger-x7k2p -- /bin/bash -c 'kill -9 1' 2>/dev/null || true" ]
  /\ pick attach_of (trace (after (main Demo.loads env Demo.bare_args) Demo.boot))
     = [ [ "kubectl"; "exec"; "-it"; "web-0"; "-n"; "default"; "-c"; "debugger-x7k2p";
           "--"; "bash" ] ]
  /\ within "default"
       (answered env "kubectl config view --minify --output 'jsonpath={..namespace}'"
          Demo.boot)
       (after (main Demo.loads env Demo.bare_args) Demo.boot).
Proof.
  cbv zeta.
  destruct (@empty_context_means_default Demo.loads (Demo.cluster Scene.no_context)
              Demo.bare_args Demo.boot 0 "" "")
    as (_ & _ & _ & _ & Hmain).
  - reflexivity.
  - vm_compute. reflexivity.
  - reflexivity.
  - destruct (Hmain Demo.boot) as [_ Hwithin].
    + reflexivity.
    + reflexivity.
    + repeat split; [vm_compute; reflexivity .. | exact Hwithin].
Defined.

(** ** One tick of the poll loop (C3, C9) *)

Section Tick.

Variable json_loads : string -> option json.
Variable env : Env.

Lemma in_failure_states reason :
  In reason failure_states -> existsb (Py.eq_str (JStr reason)) failure_states = true.
Proof.
  intros Hin. apply existsb_exists. exists reason. split; [exact Hin|].
  simpl. apply String.eqb_refl.
Qed.

Lemma scan_skips_other_containers c before rest last w :
  Forall (other_container c) before ->
  scan_statuses c (before ++ rest) last w = scan_statuses c rest last w.
Proof.
  induction 1 as [|status before (fields & n & -> & Hn & Hne) _ IH]; [reflexivity|].
  simpl app. cbn [scan_statuses].
  unfold bind at 1. unfold lift at 1. rewrite Hn. rewrite Hne. exact IH.
Qed.

Lemma scan_meets_terminal_waiting c fields state waiting reason rest last w :
  Py.assoc "name" fields = Some (JStr c) ->
  Py.assoc "state" fields = Some (JObj state) ->
  Py.assoc "running" state = None ->
  Py.assoc "waiting" state = Some (JObj waiting) ->
  Py.assoc "reason" waiting = Some (JStr reason) ->
  In reason failure_states ->
  scan_statuses c (JObj fields :: rest) last w
  = (Ret (Some false, last),
     printed (failure_report (JStr reason) (message_of waiting)) w).
Proof.
  intros Hname Hstate Hrun Hwait Hreason Hin.
  cbn [scan_statuses]. unfold bind, lift, Py.get, Py.contains, Py.in_str_set.
  rewrite Hname. cbn [Py.eq_str]. rewrite String.eqb_refl.
  rewrite Hstate, Hrun, Hwait, Hreason. cbn [Py.hashable].
  rewrite (in_failure_states Hin).
  unfold failure_report, message_of, printed, say_err, emit, ret.
  destruct (Py.truthy _); reflexivity.
Qed.

End Tick.

(** C3.  Suppose a tick's query returns a pod whose status entry for the
    watched container ([c], the first entry of that name) is waiting with a
    reason of the fixed failure set.  Then that pass of the loop body ends
    the function with [False] in the world the query left, plus the report
    of the failure: no sleep, no further query, no time spent; the loop,
    from any state that still polls, returns that failure; and so does the
    wait itself when this is its first tick. *)
Theorem terminal_waiting_fails_at_once
    json_loads env name namespace c last w out w1
    pod_data before fields rest state waiting reason :
  run_command env (pod_query name namespace) true false w = (Ret (Some out), w1) ->
  PyStr.is_empty out = false ->
  json_loads out = Some pod_data ->
  ephemeral_statuses_of pod_data = Ret (before ++ JObj fields :: rest)%list ->
  Forall (other_container c) before ->
  Py.assoc "name" fields = Some (JStr c) ->
  Py.assoc "state" fields = Some (JObj state) ->
  Py.assoc "running" state = None ->
  Py.assoc "waiting" state = Some (JObj waiting) ->
  Py.assoc "reason" waiting = Some (JStr reason) ->
  In reason failure_states ->
  let w2 := printed (failure_report (JStr reason) (message_of waiting)) w1 in
  poll_once json_loads env name namespace c last w = (Ret (Some false, last), w2)
  /\ (forall fuel timeout start, now w - start < 1000 * timeout ->
        wait_loop json_loads env (S fuel) name namespace c timeout start last w
        = (Ret false, w2))
  /\ (forall timeout w0, 0 < timeout -> last = JNull ->
        w = after (say "Waiting for container {} to be running..." [JStr c]) w0 ->
        wait_for_container_running json_loads env name namespace c timeout w0
        = (Ret false, w2))
  /\ now w2 = now w1
  /\ pick command_of (trace w2) = pick command_of (trace w1)
  /\ pick sleep_of (trace w2) = pick sleep_of (trace w1).
Proof.
  intros Hrun Hout Hload Hsts Hbefore Hname Hstate Hrunning Hwait Hreason Hin w2.
  assert (Hpoll : poll_once json_loads env name namespace c last w
                  = (Ret (Some false, last), w2)).
  { unfold poll_once. rewrite (bind_Ret _ _ _ Hrun).
    cbn [no_output text]. rewrite Hout, Hload.
    unfold bind at 1. unfold lift at 1. rewrite Hsts.
    unfold bind at 1. rewrite scan_skips_other_containers by exact Hbefore.
    rewrite (@scan_meets_terminal_waiting c fields state waiting reason rest last w1)
      by assumption.
    reflexivity. }
  assert (Hloop : forall fuel timeout start, now w - start < 1000 * timeout ->
            wait_loop json_loads env (S fuel) name namespace c timeout start last w
            = (Ret false, w2)).
  { intros fuel timeout start Hguard. cbn [wait_loop].
    unfold bind at 1. unfold time_time at 1.
    apply Z.ltb_lt in Hguard. rewrite Hguard.
    rewrite (bind_Ret _ _ _ Hpoll). reflexivity. }
  split; [exact Hpoll|]. split; [exact Hloop|]. split.
  { intros timeout w0 Hpos -> Hw. unfold wait_for_container_running.
    rewrite (bind_Ret _ _ w0 (a := tt) (w1 := w)) by (rewrite Hw; reflexivity).
    rewrite (bind_Ret _ _ w (a := now w) (w1 := w)) by reflexivity.
    apply Hloop. lia. }
  subst w2. unfold failure_report, printed.
  destruct (Py.truthy _); repeat split; reflexivity.
Qed.

Lemma terminal_waiting_fails_at_once_witness :
  let env := Demo.cluster Demo.backoff in
  let poll := poll_once Demo.loads env "web-0" "prod" "debugger-x7k2p" JNull Demo.boot in
  fst poll = Ret (Some false, JNull)
  /\ pick sleep_of (trace (snd poll)) = []
  /\ commands (trace (snd poll)) = [pod_query "web-0" "prod"]
  /\ wait_loop Demo.loads env 31 "web-0" "prod" "debugger-x7k2p" 60 0 JNull Demo.boot
     = (Ret false, snd poll)
  /\ fst (wait_for_container_running Demo.loads env "web-0" "prod" "debugger-x7k2p" 60
            Demo.boot)
     = Ret false.
Proof.
  cbv zeta.
  destruct (@terminal_waiting_fails_at_once Demo.loads (Demo.cluster Demo.backoff)
              "web-0" "prod" "debugger-x7k2p" JNull Demo.boot
              Demo.pod_backoff_text
              (after (run_command (Demo.cluster Demo.backoff)
                        (pod_query "web-0" "prod") true false) Demo.boot)
              Demo.pod_backoff []
              [ ("name", JStr "debugger-x7k2p");
                ("state",
                 JObj [ ("waiting",
                         JObj [ ("reason", JStr "ImagePullBackOff");
                                ("message", JStr "Back-off pulling image") ]) ]) ]
              []
              [ ("waiting",
                 JObj [ ("reason", JStr "ImagePullBackOff");
                        ("message", JStr "Back-off pulling image") ]) ]
              [ ("reason", JStr "ImagePullBackOff");
                ("message", JStr "Back-off pulling image") ]
              "ImagePullBackOff")
    as (Hpoll & Hloop & Hfirst & _).
  - vm_compute. reflexivity.
  - reflexivity.
  - vm_compute. reflexivity.
  - reflexivity.
  - constructor.
  - reflexivity.
  - reflexivity.
  - reflexivity.
  - reflexivity.
  - reflexivity.
  - simpl. tauto.
  - split; [rewrite Hpoll; reflexivity|].
    split; [rewrite Hpoll; reflexivity|].
    split; [rewrite Hpoll; reflexivity|].
    split; [rewrite (Hloop 30%nat 60 0) by (simpl; lia); rewrite Hpoll; reflexivity|].
    vm_compute. reflexivity.
Defined.

(** C9.  Suppose a tick's query returns text that [json.loads] rejects.
    Then that pass of the loop body prints the warning, sleeps its two
    seconds and ends without a return value and with [last_reason] as it
    was; the loop goes on to its next tick from there.  The tick raises
    nothing and returns nothing. *)
Theorem malformed_payload_skips_the_tick
    json_loads env name namespace c last w out w1 :
  run_command env (pod_query name namespace) true false w = (Ret (Some out), w1) ->
  PyStr.is_empty out = false ->
  json_loads out = None ->
  let w2 := after (sleep env 2)
              (printed [EvPrint true "Warning: Failed to parse pod JSON: {}" []] w1) in
  poll_once json_loads env name namespace c last w = (Ret (None, last), w2)
  /\ (forall fuel timeout start, now w - start < 1000 * timeout ->
        wait_loop json_loads env (S fuel) name namespace c timeout start last w
        = wait_loop json_loads env fuel name namespace c timeout start last w2).
Proof.
  intros Hrun Hout Hload w2.
  assert (Hpoll : poll_once json_loads env name namespace c last w = (Ret (None, last), w2)).
  { unfold poll_once. rewrite (bind_Ret _ _ _ Hrun).
    cbn [no_output text]. rewrite Hout, Hload. reflexivity. }
  split; [exact Hpoll|].
  intros fuel timeout start Hguard. cbn [wait_loop].
  unfold bind at 1. unfold time_time at 1.
  apply Z.ltb_lt in Hguard. rewrite Hguard.
  rewrite (bind_Ret _ _ _ Hpoll). reflexivity.
Qed.

Lemma malformed_payload_skips_the_tick_witness :
  let env := Demo.cluster Demo.garbled in
  let poll := poll_once Demo.loads env "web-0" "prod" "debugger-x7k2p" JNull Demo.boot in
  fst poll = Ret (None, JNull)
  /\ trace (snd poll)
     = [ EvSleep 2;
         EvPrint true "Warning: Failed to parse pod JSON: {}" [];
         EvRun false (pod_query "web-0" "prod") ]
  /\ wait_loop Demo.loads env 6 "web-0" "prod" "debugger-x7k2p" 5 0 JNull Demo.boot
     = wait_loop Demo.loads env 5 "web-0" "prod" "debugger-x7k2p" 5 0 JNull (snd poll).
Proof.
  cbv zeta.
  destruct (@malformed_payload_skips_the_tick Demo.loads (Demo.cluster Demo.garbled)
              "web-0" "prod" "debugger-x7k2p" JNull Demo.boot
              "<html>502 Bad Gateway</html>"
              (after (run_command (Demo.cluster Demo.garbled)
                        (pod_query "web-0" "prod") true false) Demo.boot))
    as (Hpoll & Hloop).
  - vm_compute. reflexivity.
  - reflexivity.
  - reflexivity.
  - split; [rewrite Hpoll; reflexivity|].
    split; [rewrite Hpoll; reflexivity|].
    rewrite (Hloop 5%nat 5 0) by (simpl; lia). rewrite Hpoll. reflexivity.
Defined.

(** ** The deadline of the poll loop (C8) *)

Section Deadline.

Variable json_loads : string -> option json.
Variable env : Env.

Lemma later_emit e : stable later (emit e).
Proof. intro w. unfold later. simpl. lia. Qed.

Lemma later_blocking e : stable later (blocking env e 0).
Proof. intro w. unfold later, blocking. destruct (answer env _); simpl; lia. Qed.

Lemma later_run_command cmd check use_bash : stable later (run_command env cmd check use_bash).
Proof. apply plain_run_command; intros; [apply later_emit | apply later_blocking]. Qed.

Lemma later_scan_statuses c statuses last : stable later (scan_statuses c statuses last).
Proof. apply plain_scan_statuses; intros; apply later_emit. Qed.

(** A pass of the loop body that does not return takes two seconds at
    least. *)
Lemma poll_once_takes_two_seconds name namespace c last w last' w' :
  poll_once json_loads env name namespace c last w = (Ret (None, last'), w') ->
  now w + 2000 <= now w'.
Proof.
  unfold poll_once. unfold bind at 1.
  pose proof (later_run_command (pod_query name namespace) true false w) as Hrun.
  destruct (run_command env _ true false w) as [[output| |] w1]; try discriminate.
  unfold later in Hrun. simpl in Hrun.
  destruct (no_output output).
  { intros Hp. injection Hp as _ <-. simpl. lia. }
  destruct (json_loads (text output)) as [pod_data|].
  2: { intros Hp. injection Hp as _ <-. simpl. lia. }
  unfold bind at 1. unfold lift at 1.
  destruct (ephemeral_statuses_of pod_data) as [statuses| |]; try discriminate.
  unfold bind at 1.
  pose proof (later_scan_statuses c statuses last w1) as Hscan.
  destruct (scan_statuses c statuses last w1) as [[[[b|] l]| |] w2]; try discriminate.
  unfold later in Hscan. simpl in Hscan. cbn [fst].
  intros Hp. injection Hp as _ <-. simpl. lia.
Qed.

Abbreviation reports t := (pick timeout_report_of t).

Lemma report_free_emit e : cleanup_of e = None -> timeout_report_of e = None ->
  stable (silent_rel timeout_report_of) (emit e).
Proof. intros. now apply silent_emit. Qed.

Lemma report_free_blocking e : cleanup_of e = None -> timeout_report_of e = None ->
  stable (silent_rel timeout_report_of) (blocking env e 0).
Proof. intros. now apply silent_blocking. Qed.

Lemma report_free_poll_once name namespace c last w :
  reports (trace (snd (poll_once json_loads env name namespace c last w)))
  = reports (trace w).
Proof.
  apply (plain_poll_once (R := silent_rel timeout_report_of));
    [apply report_free_emit | apply report_free_blocking | now apply silent_sleep].
Qed.

(** What the line after the loop leaves. *)
Lemma report_timeout_run timeout last w :
  exists w', report_timeout timeout last w = (Ret false, w')
             /\ now w' = now w
             /\ reports (trace w') = [JNum timeout] :: reports (trace w).
Proof.
  unfold report_timeout, bind, say_err, emit, ret.
  destruct (Py.truthy last); eexists; split; try reflexivity; split; reflexivity.
Qed.

(** Whenever the loop reports a timeout, it returns [False] and the clock
    is at or past the deadline. *)
Lemma wait_loop_reports_after_deadline name namespace c timeout start fuel :
  forall last w r w',
    wait_loop json_loads env fuel name namespace c timeout start last w = (r, w') ->
    reports (trace w') <> reports (trace w) ->
    r = Ret false /\ 1000 * timeout <= now w' - start.
Proof.
  induction fuel as [|fuel IH]; intros last w r w' Hrun Hrep.
  { injection Hrun as _ <-. congruence. }
  cbn [wait_loop] in Hrun. unfold bind at 1 in Hrun. unfold time_time at 1 in Hrun.
  destruct (now w - start <? 1000 * timeout) eqn:Hguard.
  - unfold bind at 1 in Hrun.
    pose proof (report_free_poll_once name namespace c last w) as Hfree.
    destruct (poll_once json_loads env name namespace c last w) as [[[[b|] l]| |] w1];
      simpl in Hfree; cbn [fst snd] in Hrun;
      try (injection Hrun as _ <-; congruence).
    apply (IH l w1 r w' Hrun). congruence.
  - apply Z.ltb_ge in Hguard.
    destruct (report_timeout_run timeout last w) as (w2 & Hr & Hnow & _).
    rewrite Hr in Hrun. injection Hrun as <- <-. split; [reflexivity | lia].
Qed.

(** With fuel for the time that is left, the loop ends inside the
    embedding. *)
Lemma wait_loop_defined name namespace c timeout start fuel :
  forall last w,
    1000 * timeout - (now w - start) <= 2000 * (Z.of_nat fuel - 1) ->
    (0 < fuel)%nat ->
    fst (wait_loop json_loads env fuel name namespace c timeout start last w) <> Undef.
Proof.
  induction fuel as [|fuel IH]; intros last w Hfuel Hpos; [lia|].
  cbn [wait_loop]. unfold bind at 1. unfold time_time at 1.
  destruct (now w - start <? 1000 * timeout) eqn:Hguard.
  - apply Z.ltb_lt in Hguard. unfold bind at 1.
    pose proof (defined_poll_once json_loads env name namespace c last w) as Hdef.
    destruct (poll_once json_loads env name namespace c last w)
      as [[[[b|] l]| |] w1] eqn:Hpoll; simpl in Hdef; cbn [fst snd];
      try discriminate; try congruence.
    apply poll_once_takes_two_seconds in Hpoll.
    apply IH; lia.
  - destruct (report_timeout_run timeout last w) as (w2 & Hr & _).
    rewrite Hr. discriminate.
Qed.

(** *** A fate that never settles *)

Lemma scan_pending c statuses :
  forallb (pending_status c) statuses = true ->
  forall last w, exists last' w',
    scan_statuses c statuses last w = (Ret (None, last'), w').
Proof.
  induction statuses as [|status rest IH]; intros Hall last w.
  { do 2 eexists. reflexivity. }
  cbn [forallb] in Hall. apply andb_true_iff in Hall as [Hst Hrest].
  specialize (IH Hrest). cbn [scan_statuses].
  destruct status as [| | | | |fields]; try discriminate.
  unfold bind at 1. unfold lift at 1. cbn [Py.get].
  cbn [pending_status] in Hst.
  destruct (Py.assoc "name" fields) as [n|]; [|apply IH].
  destruct (Py.eq_str n c); [|apply IH].
  unfold bind at 1. unfold lift at 1. cbn [Py.get].
  destruct (Py.assoc "state" fields) as [state|].
  - destruct state as [| | | | |kv]; try discriminate.
    cbn [pending_state] in Hst.
    unfold bind at 1. unfold lift at 1. cbn [Py.contains].
    destruct (Py.assoc "running" kv); [discriminate|].
    unfold bind at 1. unfold lift at 1. cbn [Py.contains].
    destruct (Py.assoc "terminated" kv) eqn:Hterm; [discriminate|].
    destruct (Py.assoc "waiting" kv) as [waiting|] eqn:Hwait.
    + destruct waiting as [| | | | |wkv]; try discriminate.
      unfold bind at 1. unfold lift at 1. cbn [Py.get]. rewrite Hwait.
      unfold bind at 1. unfold lift at 1. cbn [Py.get].
      unfold bind at 1. unfold lift at 1. cbn [Py.get].
      unfold transient_waiting in Hst.
      unfold bind at 1. unfold lift at 1. unfold Py.in_str_set.
      destruct (Py.assoc "reason" wkv) as [r|].
      * apply andb_true_iff in Hst as [Hhash Hnot]. rewrite Hhash.
        apply negb_true_iff in Hnot. rewrite Hnot.
        destruct (negb (Py.eq_atom r last)); [|apply IH].
        unfold bind at 1. unfold say, emit. apply IH.
      * cbn [Py.hashable]. change (existsb _ failure_states) with false.
        destruct (negb (Py.eq_atom (JStr "Unknown") last)); [|apply IH].
        unfold bind at 1. unfold say, emit. apply IH.
    + unfold bind at 1. unfold lift at 1.
      destruct (negb (Py.eq_atom last (JStr "NoState"))); [|apply IH].
      unfold bind at 1. unfold say, emit. apply IH.
  - unfold bind at 1. unfold lift at 1. cbn [Py.contains Py.assoc].
    unfold bind at 1. unfold lift at 1. cbn [Py.contains Py.assoc].
    unfold bind at 1. unfold lift at 1. cbn [Py.contains Py.assoc].
    destruct (negb (Py.eq_atom last (JStr "NoState"))); [|apply IH].
    unfold bind at 1. unfold say, emit. apply IH.
Qed.

End Deadline.

Section NeverSettles.

Variable json_loads : string -> option json.
Variable env : Env.
Variables name namespace c : string.

Hypothesis Hnever : never_settles json_loads env name namespace c.

Lemma print_debug_command_run cmd w :
  exists w', print_debug_command cmd w = (Ret tt, w').
Proof.
  unfold print_debug_command, bind, get_DEBUG_MODE.
  destruct (DEBUG_MODE w); eexists; reflexivity.
Qed.

(** While the fate of [c] is not settled, a pass of the loop body never
    returns and never raises. *)
Lemma poll_once_unsettled last w :
  exists last' w',
    poll_once json_loads env name namespace c last w = (Ret (None, last'), w').
Proof.
  unfold poll_once, run_command. rewrite !bind_assoc.
  destruct (print_debug_command_run (pod_query name namespace) w) as (wd & Hd).
  rewrite (bind_Ret _ _ _ Hd). rewrite bind_assoc.
  unfold bind at 1. unfold blocking at 1.
  pose proof (Hnever (trace wd)) as Hu.
  destruct (answer env (EvRun false (pod_query name namespace) :: trace wd))
    as [rc out err|e]; [|discriminate].
  cbn [unsettled] in Hu. cbn [andb].
  destruct (negb (rc =? 0)).
  { unfold bind, say_err, emit, ret, sleep. cbn [no_output].
    do 2 eexists. reflexivity. }
  cbn [orb] in Hu.
  unfold bind at 1. unfold ret at 1. cbn [no_output text].
  destruct (PyStr.is_empty (PyStr.strip out)).
  { unfold bind, ret, sleep. do 2 eexists. reflexivity. }
  cbn [orb] in Hu.
  destruct (json_loads (PyStr.strip out)) as [pod_data|].
  2: { unfold bind, say_err, emit, ret, sleep. do 2 eexists. reflexivity. }
  unfold pending_pod in Hu. unfold bind at 1. unfold lift at 1.
  destruct (ephemeral_statuses_of pod_data) as [statuses| |]; try discriminate.
  unfold bind at 1.
  match goal with
  | |- context [scan_statuses c statuses last ?w0] =>
      destruct (scan_pending c statuses Hu last w0) as (last' & w' & Hscan)
  end.
  rewrite Hscan. cbn [fst]. unfold bind, ret, sleep. do 2 eexists. reflexivity.
Qed.

(** While the fate of [c] is not settled, the loop ends by reporting the
    timeout, and not before the deadline. *)
Lemma wait_loop_times_out timeout start fuel :
  forall last w,
    1000 * timeout - (now w - start) <= 2000 * (Z.of_nat fuel - 1) ->
    (0 < fuel)%nat ->
    exists w',
      wait_loop json_loads env fuel name namespace c timeout start last w = (Ret false, w')
      /\ pick timeout_report_of (trace w')
         = [JNum timeout] :: pick timeout_report_of (trace w)
      /\ 1000 * timeout <= now w' - start.
Proof.
  induction fuel as [|fuel IH]; intros last w Hfuel Hpos; [lia|].
  cbn [wait_loop]. unfold bind at 1. unfold time_time at 1.
  destruct (now w - start <? 1000 * timeout) eqn:Hguard.
  - apply Z.ltb_lt in Hguard.
    destruct (poll_once_unsettled last w) as (last' & w1 & Hpoll).
    rewrite (bind_Ret _ _ _ Hpoll). cbn [fst snd].
    pose proof (poll_once_takes_two_seconds _ _ _ _ _ _ _ Hpoll) as Htwo.
    pose proof (report_free_poll_once json_loads env name namespace c last w) as Hfree.
    rewrite Hpoll in Hfree. simpl in Hfree.
    destruct (IH last' w1) as (w' & Hrun & Hrep & Hdead); [lia | lia |].
    exists w'. rewrite Hrun, Hrep, Hfree. auto.
  - apply Z.ltb_ge in Hguard.
    destruct (report_timeout_run timeout last w) as (w2 & Hr & Hnow & Hrep).
    exists w2. rewrite Hr. repeat split; [exact Hrep | lia].
Qed.

End NeverSettles.

(** C8.  The wait reports a timeout only when the clock stands at or past
    the deadline, [timeout] seconds after the wait began, and then it returns
    [False]: this on every run.  And when no status query ever shows the
    watched container running, waiting on a terminal reason or terminated,
    the wait does end that way: it returns [False], reports the timeout
    once, and at least [timeout] seconds have passed. *)
Theorem timed_out_only_after_the_deadline json_loads env name namespace c timeout w :
  (forall r w',
     wait_for_container_running json_loads env name namespace c timeout w = (r, w') ->
     pick timeout_report_of (trace w') <> pick timeout_report_of (trace w) ->
     r = Ret false /\ 1000 * timeout <= now w' - now w)
  /\ (never_settles json_loads env name namespace c ->
      exists w',
        wait_for_container_running json_loads env name namespace c timeout w
        = (Ret false, w')
        /\ pick timeout_report_of (trace w')
           = [JNum timeout] :: pick timeout_report_of (trace w)
        /\ 1000 * timeout <= now w' - now w).
Proof.
  unfold wait_for_container_running.
  set (w0 := mkWorld (now w) (DEBUG_MODE w)
               (EvPrint false "Waiting for container {} to be running..." [JStr c]
                :: trace w)).
  split.
  - intros r w' Hrun Hrep.
    rewrite (bind_Ret _ _ w (a := tt) (w1 := w0)) in Hrun by reflexivity.
    rewrite (bind_Ret _ _ w0 (a := now w) (w1 := w0)) in Hrun by reflexivity.
    eapply wait_loop_reports_after_deadline; [exact Hrun | exact Hrep].
  - intros Hnever.
    rewrite (bind_Ret _ _ w (a := tt) (w1 := w0)) by reflexivity.
    rewrite (bind_Ret _ _ w0 (a := now w) (w1 := w0)) by reflexivity.
    destruct (@wait_loop_times_out json_loads env name namespace c Hnever
                timeout (now w) (S (Z.to_nat timeout)) JNull w0)
      as (w' & Hrun & Hrep & Hdead).
    + simpl now. lia.
    + lia.
    + exists w'. repeat split; assumption.
Qed.

Lemma timed_out_only_after_the_deadline_witness :
  let run := wait_for_container_running Demo.loads (Demo.cluster Demo.silent)
               "web-0" "prod" "debugger-x7k2p" 5 Demo.boot in
  fst run = Ret false
  /\ pick timeout_report_of (trace (snd run)) = [[JNum 5]]
  /\ 5000 <= now (snd run).
Proof.
  cbv zeta.
  destruct (timed_out_only_after_the_deadline Demo.loads (Demo.cluster Demo.silent)
              "web-0" "prod" "debugger-x7k2p" 5 Demo.boot) as (_ & Hlive).
  destruct Hlive as (w' & Hrun & Hrep & Hdead).
  - intro h. reflexivity.
  - rewrite Hrun. repeat split; [exact Hrep | simpl in *; lia].
Defined.

(** The wait always ends inside the embedding: the fuel it starts with
    outlasts the deadline. *)
Lemma wait_for_container_running_defined json_loads env name namespace c timeout w :
  fst (wait_for_container_running json_loads env name namespace c timeout w) <> Undef.
Proof.
  unfold wait_for_container_running.
  rewrite (bind_Ret _ _ w (a := tt)
             (w1 := mkWorld (now w) (DEBUG_MODE w)
                      (EvPrint false "Waiting for container {} to be running..." [JStr c]
                       :: trace w))) by reflexivity.
  erewrite bind_Ret by reflexivity.
  apply wait_loop_defined; simpl now; lia.
Qed.

(** ** The backup flow (C6) *)

Section Backup.

Variable env : Env.

Lemma run_command_commands cmd check use_bash w :
  pick command_of (trace (snd (run_command env cmd check use_bash w)))
  = cmd :: pick command_of (trace w).
Proof.
  unfold run_command.
  destruct (print_debug_command_run cmd w) as (wd & Hd).
  assert (Hsame : pick command_of (trace wd) = pick command_of (trace w)).
  { revert Hd. unfold print_debug_command, bind, get_DEBUG_MODE, say, emit, ret.
    destruct (DEBUG_MODE w); intros Hd; injection Hd as <-; reflexivity. }
  rewrite (bind_Ret _ _ _ Hd). unfold bind at 1. unfold blocking at 1.
  destruct (answer env _) as [rc out err|e]; simpl; [|now rewrite Hsame].
  destruct (check && negb (rc =? 0)); simpl; now rewrite Hsame.
Qed.

Lemma extends_run_command cmd check use_bash :
  stable extends (run_command env cmd check use_bash).
Proof.
  apply plain_run_command; intros e _ _ w.
  - exists [e]. reflexivity.
  - unfold blocking. destruct (answer env _); exists [e]; reflexivity.
Qed.

Lemma commands_after_run_command cmd check use_bash w :
  commands (trace (snd (run_command env cmd check use_bash w)))
  = (commands (trace w) ++ [cmd])%list.
Proof. unfold commands. rewrite run_command_commands. reflexivity. Qed.

(** The probe of the parent directory and a copy are different commands. *)
Lemma parent_command_is_no_copy name namespace c dir namespace' c' source local :
  parent_command name namespace c dir <> copy_command namespace' c' source local.
Proof. unfold parent_command, exec_prefix, copy_command. simpl. discriminate. Qed.

End Backup.

(** C6.  Suppose the presence check of [create_backup] returns empty output.
    Then the backup reports that the path does not exist and returns
    [False].  When the parent directory of the path is neither empty nor
    ["/"], it first lists that directory in the container and, if the
    listing is not empty, prints it.  After the presence check the only
    command it may run is that listing: no copy is attempted.  (Should the
    listing itself raise, the exception leaves [create_backup], which then
    returns nothing.) *)
Theorem missing_path_fails_without_transfer env name namespace c path compress w w1 :
  run_command env (verify_command name namespace c path) false false
    (after (backup_banner name path compress) w) = (Ret (Some ""), w1) ->
  let parent := PyStr.dirname path in
  let probe := parent_command name namespace c parent in
  let w2 := printed [EvPrint true "Error: Path {} does not exist in container" [JStr path]] w1 in
  let w3 := printed [EvPrint false "Checking parent directory: {}" [JStr parent]] w2 in
  (probe_needed path = false ->
     create_backup env name namespace c path compress w = (Ret false, w2))
  /\ (probe_needed path = true ->
      forall listing w4,
        run_command env probe false false w3 = (Ret listing, w4) ->
        create_backup env name namespace c path compress w
        = (Ret false,
           if no_output listing then w4
           else printed [EvPrint false "Contents:\n{}" [JStr (text listing)]] w4))
  /\ (forall r w',
        create_backup env name namespace c path compress w = (r, w') ->
        r <> Ret true
        /\ In (EvPrint true "Error: Path {} does not exist in container" [JStr path])
             (trace w')
        /\ commands (trace w')
           = (commands (trace w1) ++ (if probe_needed path then [probe] else []))%list
        /\ forall namespace' c' source local,
             ~ In (copy_command namespace' c' source local)
                 (if probe_needed path then [probe] else [])).
Proof.
  intros Hverify parent probe w2 w3.
  assert (Hbanner : exists u, backup_banner name path compress w
                              = (Ret u, after (backup_banner name path compress) w)).
  { unfold after, backup_banner, bind, say, emit, ret.
    destruct compress; eexists; reflexivity. }
  destruct Hbanner as (u & Hbanner).
  assert (Hstart : create_backup env name namespace c path compress w
                   = ((if probe_needed path then
                         say "Checking parent directory: {}" [JStr parent] ;;
                         parent_result <- run_command env probe false false ;;
                         (if negb (no_output parent_result)
                          then say "Contents:\n{}" [JStr (text parent_result)]
                          else ret tt)
                       else ret tt) ;;
                      ret false) w2).
  { unfold create_backup. rewrite (bind_Ret _ _ _ Hbanner).
    rewrite (bind_Ret _ _ _ Hverify). cbn [no_output PyStr.is_empty orb].
    unfold bind at 1. unfold say_err at 1. unfold emit at 1. reflexivity. }
  assert (Hno : probe_needed path = false ->
                create_backup env name namespace c path compress w = (Ret false, w2)).
  { intros Hp. rewrite Hstart, Hp. reflexivity. }
  assert (Hyes : probe_needed path = true ->
                 forall r w4, run_command env probe false false w3 = (r, w4) ->
                 create_backup env name namespace c path compress w
                 = match r with
                   | Ret listing =>
                       (Ret false,
                        if no_output listing then w4
                        else printed [EvPrint false "Contents:\n{}" [JStr (text listing)]] w4)
                   | Exc e => (Exc e, w4)
                   | Undef => (Undef, w4)
                   end).
  { intros Hp r w4 Hprobe. rewrite Hstart, Hp.
    rewrite !bind_assoc.
    rewrite (bind_Ret _ _ w2 (a := tt) (w1 := w3)) by reflexivity.
    rewrite bind_assoc. unfold bind at 1. rewrite Hprobe.
    destruct r as [listing| |]; try reflexivity.
    destruct (no_output listing); reflexivity. }
  split; [exact Hno|]. split.
  { intros Hp listing w4 Hprobe. rewrite (Hyes Hp _ _ Hprobe). reflexivity. }
  intros r w' Hrun.
  destruct (probe_needed path) eqn:Hp.
  - pose proof (commands_after_run_command env probe false false w3) as Hcmds.
    pose proof (extends_run_command env probe false false w3) as [new Hnew].
    destruct (run_command env probe false false w3) as [rp w4] eqn:Hprobe.
    cbn [snd] in Hcmds, Hnew.
    rewrite (Hyes eq_refl _ _ eq_refl) in Hrun.
    assert (Hin : In (EvPrint true "Error: Path {} does not exist in container" [JStr path])
                    (trace w4)).
    { rewrite Hnew. apply in_or_app. right. simpl. tauto. }
    assert (Hcopy : forall namespace' c' source local,
               ~ In (copy_command namespace' c' source local) [probe]).
    { intros ns' c' s l [Heq|[]]. revert Heq. apply parent_command_is_no_copy. }
    destruct rp as [listing| |]; injection Hrun as <- <-;
      (split; [discriminate|]); (split; [|split; [|exact Hcopy]]).
    + destruct (no_output listing); [exact Hin | simpl; tauto].
    + destruct (no_output listing); exact Hcmds.
    + exact Hin.
    + exact Hcmds.
    + exact Hin.
    + exact Hcmds.
  - rewrite (Hno eq_refl) in Hrun. injection Hrun as <- <-.
    repeat split; try discriminate.
    + simpl. left. reflexivity.
    + simpl. now rewrite app_nil_r.
    + intros ns' c' s l [].
Qed.

Lemma missing_path_fails_without_transfer_witness :
  let run := create_backup (Demo.cluster Demo.healthy) "web-0" "prod" "debugger-x7k2p"
               "/var/configs" false Demo.boot in
  fst run = Ret false
  /\ commands (trace (snd run))
     = [ verify_command "web-0" "prod" "debugger-x7k2p" "/var/configs";
         parent_command "web-0" "prod" "debugger-x7k2p" "/var" ]
  /\ hd_error (trace (snd run))
     = Some (EvPrint false "Contents:\n{}" [JStr "total 12 drwxr-xr-x cache lib log"]).
Proof.
  cbv zeta.
  pose (env := Demo.cluster Demo.healthy).
  pose (w1 := after (run_command env
                       (verify_command "web-0" "prod" "debugger-x7k2p" "/var/configs")
                       false false)
                (after (backup_banner "web-0" "/var/configs" false) Demo.boot)).
  destruct (@missing_path_fails_without_transfer env "web-0" "prod" "debugger-x7k2p"
              "/var/configs" false Demo.boot w1) as (_ & Hprobe & Hall).
  - vm_compute. reflexivity.
  - specialize (Hprobe eq_refl (Some "total 12 drwxr-xr-x cache lib log")
                  (after (run_command env
                            (parent_command "web-0" "prod" "debugger-x7k2p" "/var")
                            false false)
                     (printed [EvPrint false "Checking parent directory: {}" [JStr "/var"];
                               EvPrint true "Error: Path {} does not exist in container"
                                 [JStr "/var/configs"]] w1))).
    fold env. rewrite Hprobe by (vm_compute; reflexivity).
    repeat split; vm_compute; reflexivity.
Defined.

(** ** Identifying the new container (C1) *)

Lemma mem_In n l : mem n l = true <-> In n l.
Proof.
  unfold mem. rewrite existsb_exists. split.
  - intros (x & Hx & Heq). apply String.eqb_eq in Heq. now subst.
  - intros Hin. exists n. split; [exact Hin | apply String.eqb_refl].
Qed.

Lemma mem_not_In n l : mem n l = false <-> ~ In n l.
Proof. rewrite <- mem_In. destruct (mem n l); split; congruence. Qed.

Lemma new_names_In x post pre : In x (new_names post pre) <-> In x post /\ ~ In x pre.
Proof.
  unfold new_names. rewrite filter_In, negb_true_iff, mem_not_In. reflexivity.
Qed.

Lemma new_names_none post pre :
  (forall n, In n post -> In n pre) -> new_names post pre = [].
Proof.
  intros Hall. destruct (new_names post pre) as [|x l] eqn:E; [reflexivity|].
  assert (Hx : In x (new_names post pre)) by (rewrite E; left; reflexivity).
  apply new_names_In in Hx as [Hpost Hpre]. elim Hpre. auto.
Qed.

Lemma new_names_first before n after pre :
  (forall x, In x before -> In x pre) -> ~ In n pre ->
  new_names (before ++ n :: after) pre = n :: new_names after pre.
Proof.
  intros Hbefore Hn. unfold new_names. rewrite filter_app.
  fold (new_names before pre). rewrite (@new_names_none before pre Hbefore).
  simpl. apply mem_not_In in Hn. now rewrite Hn.
Qed.

Lemma new_names_only post pre n :
  (forall x, In x post /\ ~ In x pre <-> x = n) ->
  exists more, new_names post pre = n :: more.
Proof.
  intros Honly. destruct (new_names post pre) as [|x more] eqn:E.
  - assert (Hn : In n (new_names post pre)) by (apply new_names_In, Honly; reflexivity).
    rewrite E in Hn. destruct Hn.
  - assert (Hx : In x (new_names post pre)) by (rewrite E; left; reflexivity).
    apply new_names_In, Honly in Hx. subst x. now exists more.
Qed.

(** C1, as the code has it.  Once the request is sent and the second
    snapshot [post] is taken: when every name of [post] was there before,
    the launch reports that it cannot identify the container and returns no
    session, without polling; otherwise it goes on with the first name of
    [post], in listing order, that was not there before, however many other
    new names follow it; in particular with the one new name when there is
    exactly one. *)
Theorem launch_takes_the_first_new_name
    json_loads env name namespace image target pre as_root w post w1 :
  request_debug_container json_loads env name namespace image target pre as_root w
  = (Ret post, w1) ->
  let launch := launch_debug_container json_loads env name namespace image target pre as_root in
  ((forall n, In n post -> In n pre) ->
     launch w
     = (Ret None,
        printed [EvPrint true "Error: Could not identify newly created debug container" []] w1))
  /\ (forall before n after,
        post = (before ++ n :: after)%list ->
        (forall x, In x before -> In x pre) -> ~ In n pre ->
        launch w = proceed_with json_loads env name namespace n w1)
  /\ (forall n, (forall x, In x post /\ ~ In x pre <-> x = n) ->
        launch w = proceed_with json_loads env name namespace n w1).
Proof.
  intros Hreq launch.
  assert (Hrun : launch w
                 = match new_names post pre with
                   | [] => (say_err "Error: Could not identify newly created debug container" [] ;;
                            ret None) w1
                   | d :: _ => proceed_with json_loads env name namespace d w1
                   end).
  { unfold launch, launch_debug_container. rewrite (bind_Ret _ _ _ Hreq).
    destruct (new_names post pre); reflexivity. }
  split; [|split].
  - intros Hall. rewrite Hrun, (@new_names_none post pre Hall). reflexivity.
  - intros before n after -> Hbefore Hn.
    rewrite Hrun, (@new_names_first before n after pre Hbefore Hn). reflexivity.
  - intros n Honly. destruct (@new_names_only post pre n Honly) as (more & Hnew).
    rewrite Hrun, Hnew. reflexivity.
Qed.

Lemma launch_takes_the_first_new_name_witness :
  let env := Demo.cluster Demo.healthy in
  launch_debug_container Demo.loads env "web-0" "prod" "toolbox" (Some "app") [] false Demo.boot
  = proceed_with Demo.loads env "web-0" "prod" "debugger-x7k2p"
      (after (request_debug_container Demo.loads env "web-0" "prod" "toolbox" (Some "app")
                [] false) Demo.boot)
  /\ fst (launch_debug_container Demo.loads env "web-0" "prod" "toolbox" (Some "app") []
            false Demo.boot)
     = Ret (Some "debugger-x7k2p").
Proof.
  cbv zeta.
  destruct (@launch_takes_the_first_new_name Demo.loads (Demo.cluster Demo.healthy)
              "web-0" "prod" "toolbox" (Some "app") [] false Demo.boot
              ["debugger-x7k2p"]
              (after (request_debug_container Demo.loads (Demo.cluster Demo.healthy)
                        "web-0" "prod" "toolbox" (Some "app") [] false) Demo.boot))
    as (_ & Hfirst & _).
  - vm_compute. reflexivity.
  - specialize (Hfirst [] "debugger-x7k2p" [] eq_refl).
    rewrite Hfirst; [split; [reflexivity | vm_compute; reflexivity] | | ].
    + intros x [].
    + intros [].
Defined.

(** C1 as stated fails: two names appeared, and the launch neither fails nor
    returns no session; it goes on with the first of them. *)
Lemma two_new_names_still_launch :
  let env := Demo.cluster Demo.crowded in
  fst (request_debug_container Demo.loads env "web-0" "prod" "toolbox" (Some "app") []
         false Demo.boot)
  = Ret ["debugger-aaaaa"; "debugger-bbbbb"]
  /\ new_names ["debugger-aaaaa"; "debugger-bbbbb"] []
     = ["debugger-aaaaa"; "debugger-bbbbb"]
  /\ fst (launch_debug_container Demo.loads env "web-0" "prod" "toolbox" (Some "app") []
            false Demo.boot)
     = Ret (Some "debugger-aaaaa").
Proof. vm_compute. repeat split. Qed.

(** ** Pods of a controller (C2) *)

Lemma direct_owner_spec kind name refs owners :
  Forall2 is_owner_ref refs owners ->
  direct_owner kind name refs
  = Ret (existsb (fun r => String.eqb (owner_kind r) kind && String.eqb (owner_name r) name)
           owners).
Proof.
  induction 1 as [|j r refs owners (fields & -> & Hk & Hn) _ IH]; [reflexivity|].
  cbn [direct_owner existsb]. unfold res_bind, Py.get. rewrite Hk, Hn.
  cbn [Py.eq_str].
  destruct (String.eqb (owner_kind r) kind); cbn [andb orb]; [|exact IH].
  destruct (String.eqb (owner_name r) name); cbn [orb]; [reflexivity | exact IH].
Qed.

Lemma replicaset_owner_spec name refs owners :
  Forall2 is_owner_ref refs owners ->
  replicaset_owner name refs
  = Ret (existsb (fun r => String.eqb (owner_kind r) "ReplicaSet"
                           && PyStr.startswith (owner_name r) (name ++ "-")) owners).
Proof.
  induction 1 as [|j r refs owners (fields & -> & Hk & Hn) _ IH]; [reflexivity|].
  cbn [replicaset_owner existsb]. unfold res_bind, Py.get. rewrite Hk, Hn.
  cbn [Py.eq_str py_startswith].
  destruct (String.eqb (owner_kind r) "ReplicaSet"); cbn [andb orb]; [|exact IH].
  destruct (PyStr.startswith (owner_name r) (name ++ "-")); cbn [orb];
    [reflexivity | exact IH].
Qed.

Lemma matching_pods_spec kind name namespace items pods :
  Forall2 is_pod items pods ->
  matching_pods kind name namespace items
  = Ret (map (pod_of namespace) (filter (owned_by kind name) pods)).
Proof.
  induction 1 as [|j p items pods Hp _ IH]; [reflexivity|].
  destruct Hp as (fields & metadata & refs & -> & Hmd & Hname & Hrefs & Howners).
  cbn [matching_pods filter]. unfold res_bind at 1. unfold Py.get at 1. rewrite Hmd.
  unfold res_bind at 1. unfold Py.get at 1. rewrite Hname.
  unfold res_bind at 1. unfold Py.get at 1. rewrite Hmd.
  assert (Hiter : (owner_refs <~ Py.get (JObj metadata) "ownerReferences" (JArr []) ;;
                   Py.iter owner_refs)%res = Ret refs).
  { unfold res_bind, Py.get.
    destruct Hrefs as [Hr | [Hr ->]]; rewrite Hr; reflexivity. }
  unfold res_bind at 1.
  unfold res_bind in Hiter.
  destruct (Py.get (JObj metadata) "ownerReferences" (JArr [])) as [owner_refs| |];
    try discriminate.
  unfold res_bind at 1. rewrite Hiter.
  unfold res_bind at 1. rewrite (direct_owner_spec kind name Howners).
  fold (owned_directly kind name p).
  assert (Hkeep : owned_by kind name p
                  = owned_directly kind name p
                    || String.eqb kind "Deployment" && owned_via_replicaset name p)
    by reflexivity.
  rewrite Hkeep. clear Hkeep.
  destruct (owned_directly kind name p) eqn:Hd.
  - rewrite andb_false_r. cbn [orb].
    unfold res_bind at 1. rewrite IH. reflexivity.
  - rewrite andb_true_r. cbn [orb].
    destruct (String.eqb kind "Deployment") eqn:Hkind; cbn [andb].
    + unfold res_bind at 1. rewrite (replicaset_owner_spec name Howners).
      fold (owned_via_replicaset name p).
      unfold res_bind at 1. rewrite IH.
      destruct (owned_via_replicaset name p); reflexivity.
    + unfold res_bind at 1. rewrite IH. reflexivity.
Qed.

(** C2, as the code has it.  For a controller type that names the kind
    [kind] and a pod list that the cluster returns, the resolver returns,
    in listing order, exactly the pods that have an owner reference of that
    kind and name, and, for a Deployment, also those that have an owner
    reference to a ReplicaSet named [<name>-...].  For a StatefulSet and a
    DaemonSet that is the rule as stated. *)
Theorem pods_of_the_controller
    json_loads env controller_type kind name namespace w out w1 pods_data items pods :
  alias_get (PyStr.lower controller_type) CONTROLLER_ALIASES = Some kind ->
  run_command env (pods_query namespace) false false
    (after (say "Searching for pods from {} {} in namespace {}..."
              [JStr kind; JStr name; JStr namespace]) w)
  = (Ret (Some out), w1) ->
  PyStr.is_empty out = false ->
  json_loads out = Some pods_data ->
  Py.get pods_data "items" (JArr []) = Ret (JArr items) ->
  Forall2 is_pod items pods ->
  get_pods_by_controller json_loads env controller_type name namespace w
  = (Ret (map (pod_of namespace) (filter (owned_by kind name) pods)), w1)
  /\ (kind <> "Deployment" ->
      filter (owned_by kind name) pods = filter (stated_rule kind name) pods).
Proof.
  intros Halias Hrun Hout Hload Hitems Hpods. split.
  - unfold get_pods_by_controller. rewrite Halias.
    rewrite (bind_Ret _ _ w (a := tt)
               (w1 := after (say "Searching for pods from {} {} in namespace {}..."
                               [JStr kind; JStr name; JStr namespace]) w)) by reflexivity.
    rewrite (bind_Ret _ _ _ Hrun). cbn [no_output text]. rewrite Hout, Hload.
    unfold bind at 1. unfold lift at 1. rewrite Hitems.
    unfold bind at 1. unfold lift at 1. cbn [Py.iter].
    unfold lift. rewrite (matching_pods_spec kind name namespace Hpods). reflexivity.
  - intros Hkind. apply String.eqb_neq in Hkind.
    apply filter_ext. intro p. unfold owned_by, stated_rule. rewrite Hkind.
    cbn [andb]. apply orb_false_r.
Qed.

Lemma demo_owner_is_ref kind name :
  is_owner_ref (Demo.owner kind name) (mkOwner kind name).
Proof. eexists. repeat split; reflexivity. Qed.

Lemma demo_item_is_pod name refs owners :
  Forall2 is_owner_ref refs owners ->
  is_pod (Demo.item name refs) (mkDescr name owners).
Proof.
  intros Hrefs. exists [ ("metadata", JObj [ ("name", JStr name);
                                             ("ownerReferences", JArr refs) ]) ],
                       [ ("name", JStr name); ("ownerReferences", JArr refs) ], refs.
  split; [reflexivity|]. split; [reflexivity|]. split; [reflexivity|].
  split; [left; reflexivity | exact Hrefs].
Qed.

Lemma pods_of_the_controller_witness :
  fst (get_pods_by_controller Demo.loads (Demo.cluster Demo.healthy)
         "sts" "web" "prod" Demo.boot)
  = Ret []
  /\ fst (get_pods_by_controller Demo.loads (Demo.cluster Demo.healthy)
            "deploy" "web" "prod" Demo.boot)
     = Ret [ Pod.mk (JStr "web-direct") "prod"; Pod.mk (JStr "web-5d9c-abcde") "prod" ].
Proof.
  pose (pods := [ mkDescr "web-direct" [ mkOwner "Deployment" "web" ];
                  mkDescr "web-5d9c-abcde" [ mkOwner "ReplicaSet" "web-5d9c" ];
                  mkDescr "api-77f-xyz12" [ mkOwner "ReplicaSet" "api-77f" ] ]).
  pose (items := [ Demo.item "web-direct" [ Demo.owner "Deployment" "web" ];
                   Demo.item "web-5d9c-abcde" [ Demo.owner "ReplicaSet" "web-5d9c" ];
                   Demo.item "api-77f-xyz12" [ Demo.owner "ReplicaSet" "api-77f" ] ]).
  assert (Hpods : Forall2 is_pod items pods).
  { repeat first [ apply Forall2_nil | apply Forall2_cons
                 | apply demo_item_is_pod | apply demo_owner_is_ref ]. }
  split.
  - destruct (@pods_of_the_controller Demo.loads (Demo.cluster Demo.healthy)
                "sts" "StatefulSet" "web" "prod" Demo.boot Demo.pods_text
                (after (get_pods_by_controller Demo.loads (Demo.cluster Demo.healthy)
                          "sts" "web" "prod") Demo.boot)
                Demo.pods items pods eq_refl) as [Hget _];
      [vm_compute; reflexivity | reflexivity | reflexivity | reflexivity | exact Hpods |].
    rewrite Hget. reflexivity.
  - destruct (@pods_of_the_controller Demo.loads (Demo.cluster Demo.healthy)
                "deploy" "Deployment" "web" "prod" Demo.boot Demo.pods_text
                (after (get_pods_by_controller Demo.loads (Demo.cluster Demo.healthy)
                          "deploy" "web" "prod") Demo.boot)
                Demo.pods items pods eq_refl) as [Hget _];
      [vm_compute; reflexivity | reflexivity | reflexivity | reflexivity | exact Hpods |].
    rewrite Hget. reflexivity.
Defined.

(** C2 as stated fails for a Deployment: the pod [web-direct], whose only
    owner reference is the Deployment [web] itself, does not match the stated
    rule (it has no ReplicaSet owner), and the resolver returns it. *)
Lemma deployment_pod_matched_directly :
  is_pod (Demo.item "web-direct" [ Demo.owner "Deployment" "web" ])
    (mkDescr "web-direct" [ mkOwner "Deployment" "web" ])
  /\ stated_rule "Deployment" "web" (mkDescr "web-direct" [ mkOwner "Deployment" "web" ])
     = false
  /\ fst (get_pods_by_controller Demo.loads (Demo.cluster Demo.healthy)
            "deployment" "web" "prod" Demo.boot)
     = Ret [ Pod.mk (JStr "web-direct") "prod"; Pod.mk (JStr "web-5d9c-abcde") "prod" ].
Proof.
  split; [|split; vm_compute; reflexivity].
  repeat first [ apply Forall2_nil | apply Forall2_cons
               | apply demo_item_is_pod | apply demo_owner_is_ref ].
Qed.

(** ** Where the backup runs (C5) and what a failed step does (C7) *)

(** C5 fails on the code.  [main] is asked to back up [/var/configs] of the
    target container [app]; it hands [create_backup] the debug container, so
    the presence check and the listing run with [-c debugger-x7k2p] on the
    path as given, in the debug container's own file system, where the path
    is absent: the backup fails. *)
Theorem backup_runs_in_the_debug_container :
  let run := main Demo.loads (Demo.cluster Demo.healthy) Demo.backup_args Demo.boot in
  arg_container Demo.backup_args = Some "app"
  /\ arg_backup Demo.backup_args = Some "/var/configs"
  /\ commands (trace (snd run))
     = [ pod_query "web-0" "prod";
         pod_query "web-0" "prod";
         debug_command "web-0" "prod" "ghcr.io/jessegoodier/toolbox:latest" (Some "app") false;
         pod_query "web-0" "prod";
         pod_query "web-0" "prod";
         "kubectl exec web-0 -n prod -c debugger-x7k2p -- ls -d /var/configs 2>/dev/null";
         "kubectl exec web-0 -n prod -c debugger-x7k2p -- ls -la /var 2>/dev/null | head -20";
         kill_command "web-0" "prod" "debugger-x7k2p" ]
  /\ fst run = Exc (SystemExit 1).
Proof. vm_compute. repeat split. Qed.

(** Under [check=False], [run_command] never returns [None]. *)
Lemma unchecked_run_is_never_none env cmd use_bash w o w' :
  run_command env cmd false use_bash w = (Ret o, w') -> o <> None.
Proof.
  unfold run_command.
  destruct (print_debug_command_run cmd w) as (wd & Hd).
  rewrite (bind_Ret _ _ _ Hd). unfold bind, blocking.
  destruct (answer env _) as [rc out err|e]; [|discriminate].
  cbn [andb]. unfold ret. intros Hr. injection Hr as <- _. discriminate.
Qed.

Lemma unchecked_run_returns env cmd use_bash w :
  completes env ->
  exists s w', run_command env cmd false use_bash w = (Ret (Some s), w').
Proof.
  intros Hc. unfold run_command.
  destruct (print_debug_command_run cmd w) as (wd & Hd).
  rewrite (bind_Ret _ _ _ Hd). unfold bind, blocking.
  destruct (Hc (EvRun use_bash cmd :: trace wd)) as (rc & out & err & ->).
  cbn [andb]. unfold ret. do 2 eexists. reflexivity.
Qed.

(** Once the path is found, and as long as no call raises, a compressed
    backup returns [True] whatever the return codes of the archive and of
    the copy are: the two tests [result is None] never hold. *)
Lemma return_codes_never_fail_the_backup env name namespace c path w s w1 :
  completes env ->
  run_command env (verify_command name namespace c path) false false
    (after (backup_banner name path true) w) = (Ret (Some s), w1) ->
  no_output (Some s) || PyStr.is_empty (PyStr.strip s) = false ->
  fst (create_backup env name namespace c path true w) = Ret true.
Proof.
  intros Hc Hverify Hfound.
  assert (Hbanner : exists u, backup_banner name path true w
                              = (Ret u, after (backup_banner name path true) w)).
  { eexists. reflexivity. }
  destruct Hbanner as (u & Hbanner).
  unfold create_backup. rewrite (bind_Ret _ _ _ Hbanner).
  rewrite (bind_Ret _ _ _ Hverify). cbn [text]. rewrite Hfound.
  unfold bind at 1. unfold say at 1. unfold emit at 1.
  unfold bind at 1. unfold blocking at 1.
  match goal with
  | |- context [answer env ?h] => destruct (Hc h) as (rc & out & err & ->)
  end.
  unfold bind at 1. unfold today at 1.
  unfold bind at 1. unfold say at 1. unfold emit at 1.
  unfold bind at 1.
  match goal with
  | |- context [run_command env ?cmd false false ?w0] =>
      destruct (@unchecked_run_returns env cmd false w0 Hc) as (s1 & w2 & ->)
  end.
  unfold bind at 1. unfold say at 1. unfold emit at 1.
  unfold bind at 1. unfold say at 1. unfold emit at 1.
  unfold bind at 1.
  match goal with
  | |- context [run_command env ?cmd false false ?w0] =>
      destruct (@unchecked_run_returns env cmd false w0 Hc) as (s2 & w3 & ->)
  end.
  unfold bind at 1. unfold say at 1. unfold emit at 1.
  unfold bind at 1.
  match goal with
  | |- context [run_command env ?cmd false false ?w0] =>
      destruct (@unchecked_run_returns env cmd false w0 Hc) as (s3 & w4 & ->)
  end.
  reflexivity.
Qed.

(** C7 fails on the code.  The path exists and the archive is made, but
    [kubectl cp] ends with return code 1: [create_backup] prints that the
    backup was saved, removes the remote archive and returns [True].  The
    three steps do run in the order archive, transfer, remote cleanup. *)
Theorem failed_copy_is_reported_as_success :
  let env := Demo.cluster Demo.copy_fails in
  let run := create_backup env "web-0" "prod" "debugger-x7k2p"
               "/proc/1/root/var/configs" true Demo.boot in
  let copy := copy_command "prod" "debugger-x7k2p" "web-0:/tmp/kdebug-backup.tar.gz"
                "./backups/prod/2024-05-01_12-00-00_web-0.tar.gz" in
  (forall h, answer env (EvRun false copy :: h) = Completed 1 "" "error: unexpected EOF")
  /\ fst run = Ret true
  /\ commands (trace (snd run))
     = [ verify_command "web-0" "prod" "debugger-x7k2p" "/proc/1/root/var/configs";
         archive_command "web-0" "prod" "debugger-x7k2p" "/proc/1/root/var/configs";
         copy;
         remove_command "web-0" "prod" "debugger-x7k2p" ]
  /\ In (EvPrint false "Backup saved to: {}"
           [JStr "./backups/prod/2024-05-01_12-00-00_web-0.tar.gz"])
        (trace (snd run)).
Proof.
  cbv zeta. split; [intro h; reflexivity|].
  vm_compute. repeat split. tauto.
Qed.

(** * Further properties of the lifecycle *)

(** ** What [run_command] returns *)

Lemma lstrip_head s :
  match PyStr.lstrip s with
  | EmptyString => True
  | String c _ => PyStr.is_space c = false
  end.
Proof.
  induction s as [|c r IH]; simpl; [exact I|].
  destruct (PyStr.is_space c) eqn:Hc; [exact IH | exact Hc].
Qed.

Lemma lstrip_lstrip s : PyStr.lstrip (PyStr.lstrip s) = PyStr.lstrip s.
Proof.
  induction s as [|c r IH]; [reflexivity|].
  simpl. destruct (PyStr.is_space c) eqn:Hc; [exact IH|].
  simpl. now rewrite Hc.
Qed.

Lemma rstrip_rstrip s : PyStr.rstrip (PyStr.rstrip s) = PyStr.rstrip s.
Proof.
  induction s as [|c r IH]; [reflexivity|].
  cbn [PyStr.rstrip].
  destruct (PyStr.is_empty (PyStr.rstrip r) && PyStr.is_space c) eqn:Hc; [reflexivity|].
  cbn [PyStr.rstrip]. rewrite IH, Hc. reflexivity.
Qed.

(** Stripping the right end leaves a clean left end clean. *)
Lemma lstrip_rstrip s :
  PyStr.lstrip s = s -> PyStr.lstrip (PyStr.rstrip s) = PyStr.rstrip s.
Proof.
  destruct s as [|c r]; [reflexivity|].
  intros Hs. pose proof (lstrip_head (String c r)) as Hh. rewrite Hs in Hh.
  cbn [PyStr.rstrip]. rewrite Hh, andb_false_r. simpl. now rewrite Hh.
Qed.

Lemma strip_is_stripped s :
  PyStr.lstrip (PyStr.strip s) = PyStr.strip s
  /\ PyStr.rstrip (PyStr.strip s) = PyStr.strip s.
Proof.
  unfold PyStr.strip. split.
  - apply lstrip_rstrip, lstrip_lstrip.
  - apply rstrip_rstrip.
Qed.

Lemma strip_strip s : PyStr.strip (PyStr.strip s) = PyStr.strip s.
Proof.
  destruct (strip_is_stripped s) as [Hl Hr].
  unfold PyStr.strip at 1. rewrite Hl. exact Hr.
Qed.

(** The text [run_command] returns is the stripped output of the command. *)
Lemma run_command_returns_stripped env cmd check use_bash w s w' :
  run_command env cmd check use_bash w = (Ret (Some s), w') ->
  exists out, s = PyStr.strip out.
Proof.
  unfold run_command.
  destruct (print_debug_command_run cmd w) as (wd & Hd).
  rewrite (bind_Ret _ _ _ Hd). unfold bind, blocking.
  destruct (answer env _) as [rc out err|e]; [|discriminate].
  destruct (check && negb (rc =? 0)); unfold say_err, emit, ret; intros Hr;
    [discriminate|].
  injection Hr as <- _. now exists out.
Qed.

Lemma run_command_stripped env cmd check use_bash w s w' :
  run_command env cmd check use_bash w = (Ret (Some s), w') -> PyStr.strip s = s.
Proof.
  intros Hrun. apply run_command_returns_stripped in Hrun as [out ->].
  apply strip_strip.
Qed.

(** X1.  Whatever text [run_command] returns, under either value of [check]
    and of [use_bash], has no white space at its left end and none at its
    right end: stripping it again, on either side or on both, changes
    nothing.  So the test [result.strip() == ""] that [create_backup] adds
    to [not result] never decides anything. *)
Theorem run_command_output_is_stripped env cmd check use_bash w s w' :
  run_command env cmd check use_bash w = (Ret (Some s), w') ->
  PyStr.lstrip s = s
  /\ PyStr.rstrip s = s
  /\ PyStr.strip s = s
  /\ no_output (Some s) || PyStr.is_empty (PyStr.strip (text (Some s))) = no_output (Some s).
Proof.
  intros Hrun. pose proof (run_command_stripped _ _ _ _ _ Hrun) as Hs.
  apply run_command_returns_stripped in Hrun as [out ->].
  destruct (strip_is_stripped out) as [Hl Hr].
  repeat split; try assumption.
  cbn [no_output text]. rewrite Hs. apply orb_diag.
Qed.

Lemma run_command_output_is_stripped_witness :
  fst (run_command (Demo.cluster Scene.padded) namespace_query false false Demo.boot)
  = Ret (Some "web-0")
  /\ PyStr.lstrip "web-0" = "web-0"
  /\ PyStr.rstrip "web-0" = "web-0".
Proof.
  split; [vm_compute; reflexivity|].
  destruct (@run_command_output_is_stripped (Demo.cluster Scene.padded) namespace_query
              false false Demo.boot "web-0"
              (after (run_command (Demo.cluster Scene.padded) namespace_query false false)
                 Demo.boot))
    as (Hl & Hr & _).
  - vm_compute. reflexivity.
  - split; [exact Hl | exact Hr].
Defined.

(** ** The namespace of the selected pod *)

Section Resolve.

Variable json_loads : string -> option json.
Variable env : Env.

Lemma get_current_namespace_truthy w ns w' :
  get_current_namespace env w = (Ret ns, w') -> PyStr.truthy ns = true.
Proof.
  unfold get_current_namespace. unfold bind at 1.
  destruct (run_command env namespace_query false false w) as [[[s|]| |] w1];
    try discriminate; unfold ret; intros Hg; injection Hg as <- _; [|reflexivity].
  destruct (PyStr.truthy s) eqn:Hs; [exact Hs | reflexivity].
Qed.

(** [select_pod] goes on as under [--namespace ns], where [ns] is the
    namespace given or, without one, that of the current context. *)
Lemma select_pod_resolves_namespace args w :
  exists r w1,
    (if PyStr.truthy_opt (arg_namespace args)
     then ret (text (arg_namespace args))
     else get_current_namespace env) w = (r, w1)
    /\ match r with
       | Ret ns =>
           PyStr.truthy ns = true
           /\ select_pod json_loads env args w
              = select_pod json_loads env (with_namespace ns args) w1
       | Exc e => select_pod json_loads env args w = (Exc e, w1)
       | Undef => select_pod json_loads env args w = (Undef, w1)
       end.
Proof.
  destruct ((if PyStr.truthy_opt (arg_namespace args)
             then ret (text (arg_namespace args))
             else get_current_namespace env) w) as [r w1] eqn:Hr.
  exists r, w1. split; [reflexivity|].
  destruct r as [ns| |].
  - assert (Hns : PyStr.truthy ns = true).
    { destruct (arg_namespace args) as [s|]; simpl in Hr.
      - destruct (PyStr.truthy s) eqn:Hs.
        + injection Hr as <- _. exact Hs.
        + eapply get_current_namespace_truthy; exact Hr.
      - eapply get_current_namespace_truthy; exact Hr. }
    split; [exact Hns|].
    unfold select_pod at 2. cbn [with_namespace arg_namespace PyStr.truthy_opt text].
    rewrite Hns. rewrite (bind_Ret _ _ w1 (a := ns) (w1 := w1)) by reflexivity.
    unfold select_pod. rewrite (bind_Ret _ _ _ Hr). reflexivity.
  - unfold select_pod. unfold bind at 1. rewrite Hr. reflexivity.
  - unfold select_pod. unfold bind at 1. rewrite Hr. reflexivity.
Qed.

End Resolve.

(** X2.  Every pod [select_pod] returns, by name or through a controller,
    carries a namespace that is not empty: the one given with [--namespace]
    when one is given; otherwise the query of the current context was
    answered, and the namespace is what it printed, stripped of white space,
    or ["default"] when that is empty. *)
Theorem selected_pod_has_a_namespace json_loads env args w p w' :
  select_pod json_loads env args w = (Ret (Some p), w') ->
  PyStr.truthy (Pod.namespace p) = true
  /\ (PyStr.truthy_opt (arg_namespace args) = true ->
      Pod.namespace p = text (arg_namespace args))
  /\ (PyStr.truthy_opt (arg_namespace args) = false ->
      exists rc out err,
        answer env
          (asking "kubectl config view --minify --output 'jsonpath={..namespace}'" w)
        = Completed rc out err
        /\ Pod.namespace p
           = (if PyStr.truthy (PyStr.strip out) then PyStr.strip out else "default")).
Proof.
  intros Hsel.
  destruct (select_pod_resolves_namespace json_loads env args w) as (r & w1 & Hr & Hrest).
  destruct r as [ns| |]; [|rewrite Hrest in Hsel; discriminate..].
  destruct Hrest as [Hns Heq]. rewrite Heq in Hsel.
  apply select_pod_namespace in Hsel; [|exact Hns].
  split; [|split].
  - rewrite Hsel. exact Hns.
  - intros Hgiven. rewrite Hgiven in Hr. injection Hr as <- _. exact Hsel.
  - intros Hnone. rewrite Hnone in Hr.
    unfold get_current_namespace, namespace_query in Hr.
    destruct (answer env
                (asking "kubectl config view --minify --output 'jsonpath={..namespace}'" w))
      as [rc out err|ex] eqn:Hanswer.
    + exists rc, out, err. split; [reflexivity|].
      rewrite (bind_Ret _ _ _ (run_command_answered _ _ _ Hanswer)) in Hr.
      unfold ret in Hr. injection Hr as <- _. exact Hsel.
    + apply run_command_raised with (check := false) in Hanswer.
      unfold bind in Hr.
      destruct (run_command env _ false false w) as [[o| |] w2];
        cbn [fst] in Hanswer; discriminate.
Qed.

Lemma selected_pod_has_a_namespace_witness :
  let env := Demo.cluster Scene.staging_context in
  fst (select_pod Demo.loads env Demo.bare_args Demo.boot)
  = Ret (Some (Pod.mk (JStr "web-0") "staging"))
  /\ exists rc out err,
       answer env
         (asking "kubectl config view --minify --output 'jsonpath={..namespace}'" Demo.boot)
       = Completed rc out err
       /\ Pod.namespace (Pod.mk (JStr "web-0") "staging")
          = (if PyStr.truthy (PyStr.strip out) then PyStr.strip out else "default").
Proof.
  cbv zeta. split; [vm_compute; reflexivity|].
  destruct (@selected_pod_has_a_namespace Demo.loads (Demo.cluster Scene.staging_context)
              Demo.bare_args Demo.boot (Pod.mk (JStr "web-0") "staging")
              (after (select_pod Demo.loads (Demo.cluster Scene.staging_context)
                        Demo.bare_args) Demo.boot))
    as (_ & _ & Hcontext).
  - vm_compute. reflexivity.
  - apply Hcontext. reflexivity.
Defined.

(** ** Selection through a controller *)

Lemma get_pods_by_controller_typed
    json_loads env controller_type kind name namespace w out w1 pods_data items pods :
  alias_get (PyStr.lower controller_type) CONTROLLER_ALIASES = Some kind ->
  run_command env (pods_query namespace) false false
    (after (say "Searching for pods from {} {} in namespace {}..."
              [JStr kind; JStr name; JStr namespace]) w)
  = (Ret (Some out), w1) ->
  PyStr.is_empty out = false ->
  json_loads out = Some pods_data ->
  Py.get pods_data "items" (JArr []) = Ret (JArr items) ->
  Forall2 is_pod items pods ->
  get_pods_by_controller json_loads env controller_type name namespace w
  = (Ret (map (pod_of namespace) (filter (owned_by kind name) pods)), w1).
Proof.
  intros Halias Hrun Hout Hload Hitems Hpods.
  unfold get_pods_by_controller. rewrite Halias.
  rewrite (bind_Ret _ _ w (a := tt)
             (w1 := after (say "Searching for pods from {} {} in namespace {}..."
                             [JStr kind; JStr name; JStr namespace]) w)) by reflexivity.
  rewrite (bind_Ret _ _ _ Hrun). cbn [no_output text]. rewrite Hout, Hload.
  unfold bind at 1. unfold lift at 1. rewrite Hitems.
  unfold bind at 1. unfold lift at 1. cbn [Py.iter].
  unfold lift. rewrite (matching_pods_spec kind name namespace Hpods). reflexivity.
Qed.

(** X3.  With [--controller] and [--controller-name], no [--pod] and a
    namespace, on a pod list that the cluster returns: [select_pod] returns
    the first pod, in listing order, that the controller owns.  It says so
    when it had to choose among several, and it returns none, with an error,
    when the controller owns no pod.  The list is queried once and nothing
    else is run. *)
Theorem controller_selection_takes_the_first_owned
    json_loads env args t kind name ns w out w1 pods_data items pods :
  PyStr.truthy_opt (arg_pod args) = false ->
  arg_controller args = Some t -> PyStr.truthy t = true ->
  arg_controller_name args = Some name -> PyStr.truthy name = true ->
  arg_namespace args = Some ns -> PyStr.truthy ns = true ->
  alias_get (PyStr.lower t) CONTROLLER_ALIASES = Some kind ->
  run_command env (pods_query ns) false false
    (after (say "Searching for pods from {} {} in namespace {}..."
              [JStr kind; JStr name; JStr ns]) w)
  = (Ret (Some out), w1) ->
  PyStr.is_empty out = false ->
  json_loads out = Some pods_data ->
  Py.get pods_data "items" (JArr []) = Ret (JArr items) ->
  Forall2 is_pod items pods ->
  select_pod json_loads env args w
  = match filter (owned_by kind name) pods with
    | [] =>
        (Ret None, printed [EvPrint true "No pods found for {} '{}'" [JStr t; JStr name]] w1)
    | [p] => (Ret (Some (pod_of ns p)), w1)
    | p :: more =>
        (Ret (Some (pod_of ns p)),
         printed [EvPrint false "Found {} pods, selecting first one: {}"
                    [JNum (Z.of_nat (S (List.length more))); JStr (descr_name p)]] w1)
    end.
Proof.
  intros Hpod Hc Ht Hcn Hname Hns Hnst Halias Hrun Hout Hload Hitems Hpods.
  pose proof (@get_pods_by_controller_typed json_loads env t kind name ns w out w1
                pods_data items pods Halias Hrun Hout Hload Hitems Hpods) as Hget.
  unfold select_pod. rewrite Hns, Hpod, Hc, Hcn. cbn [PyStr.truthy_opt text].
  rewrite Hnst, Ht, Hname. cbn [negb].
  rewrite (bind_Ret _ _ w (a := ns) (w1 := w)) by reflexivity.
  rewrite (bind_Ret _ _ _ Hget).
  destruct (filter (owned_by kind name) pods) as [|p [|q more]]; try reflexivity.
  cbn [map List.length]. rewrite length_map.
  assert (Hmany : (1 <? Z.of_nat (S (S (List.length more)))) = true)
    by (apply Z.ltb_lt; lia).
  rewrite Hmany. reflexivity.
Qed.

Lemma controller_selection_takes_the_first_owned_witness :
  let env := Demo.cluster Demo.healthy in
  let run := select_pod Demo.loads env Scene.controller_args Demo.boot in
  fst run = Ret (Some (Pod.mk (JStr "web-direct") "prod"))
  /\ hd_error (trace (snd run))
     = Some (EvPrint false "Found {} pods, selecting first one: {}"
               [JNum 2; JStr "web-direct"])
  /\ commands (trace (snd run)) = [pods_query "prod"].
Proof.
  cbv zeta.
  pose (pods := [ mkDescr "web-direct" [ mkOwner "Deployment" "web" ];
                  mkDescr "web-5d9c-abcde" [ mkOwner "ReplicaSet" "web-5d9c" ];
                  mkDescr "api-77f-xyz12" [ mkOwner "ReplicaSet" "api-77f" ] ]).
  pose (items := [ Demo.item "web-direct" [ Demo.owner "Deployment" "web" ];
                   Demo.item "web-5d9c-abcde" [ Demo.owner "ReplicaSet" "web-5d9c" ];
                   Demo.item "api-77f-xyz12" [ Demo.owner "ReplicaSet" "api-77f" ] ]).
  assert (Hpods : Forall2 is_pod items pods).
  { repeat first [ apply Forall2_nil | apply Forall2_cons
                 | apply demo_item_is_pod | apply demo_owner_is_ref ]. }
  rewrite (@controller_selection_takes_the_first_owned Demo.loads (Demo.cluster Demo.healthy)
             Scene.controller_args "deploy" "Deployment" "web" "prod" Demo.boot
             Demo.pods_text
             (after (get_pods_by_controller Demo.loads (Demo.cluster Demo.healthy)
                       "deploy" "web" "prod") Demo.boot)
             Demo.pods items pods);
    [ | reflexivity | reflexivity | reflexivity | reflexivity | reflexivity | reflexivity
      | reflexivity | reflexivity | vm_compute; reflexivity | reflexivity | reflexivity
      | reflexivity | exact Hpods ].
  vm_compute. repeat split.
Defined.

(** ** The container inventory *)

Lemma container_names_spec entries l :
  Forall2 is_container entries l -> container_names entries = Ret (named l).
Proof.
  induction 1 as [|j n entries l (fields & -> & Hn) _ IH]; [reflexivity|].
  cbn [container_names named]. unfold res_bind, Py.get.
  destruct n as [s|].
  - rewrite Hn. cbn [Py.truthy as_str].
    destruct (PyStr.truthy s); [rewrite IH; reflexivity | exact IH].
  - destruct Hn as [-> | ->]; exact IH.
Qed.

Lemma section_names_spec spec key l :
  section_lists spec key l -> section_names (JObj spec) key = Ret (named l).
Proof.
  intros (entries & Hkey & Hentries).
  unfold section_names, res_bind, Py.get.
  destruct Hkey as [-> | [-> ->]]; cbn [Py.iter];
    apply container_names_spec; exact Hentries.
Qed.

(** X4.  On a pod that the cluster returns, [get_pod_containers] lists the
    containers, the init containers and the ephemeral containers of the pod
    spec apart, each list in the order of the spec, and leaves out every
    entry that has no name or an empty one; a section the spec does not
    have gives the empty list.  [get_existing_ephemeral_containers] is the
    third of these lists. *)
Theorem inventory_keeps_the_named_containers
    json_loads env name namespace w out w1 pod_data spec cs ics ecs :
  run_command env (pod_query name namespace) true false w = (Ret (Some out), w1) ->
  PyStr.is_empty out = false ->
  json_loads out = Some pod_data ->
  Py.get pod_data "spec" (JObj []) = Ret (JObj spec) ->
  section_lists spec "containers" cs ->
  section_lists spec "initContainers" ics ->
  section_lists spec "ephemeralContainers" ecs ->
  get_pod_containers json_loads env name namespace w
  = (Ret (mkInfo (named cs) (named ics) (named ecs)), w1)
  /\ get_existing_ephemeral_containers json_loads env name namespace w
     = (Ret (named ecs), w1).
Proof.
  intros Hrun Hout Hload Hspec Hcs Hics Hecs.
  assert (Hget : get_pod_containers json_loads env name namespace w
                 = (Ret (mkInfo (named cs) (named ics) (named ecs)), w1)).
  { unfold get_pod_containers. rewrite (bind_Ret _ _ _ Hrun).
    cbn [no_output text]. rewrite Hout, Hload.
    unfold bind, lift. rewrite Hspec.
    rewrite (section_names_spec Hcs), (section_names_spec Hics), (section_names_spec Hecs).
    reflexivity. }
  split; [exact Hget|].
  unfold get_existing_ephemeral_containers. rewrite (bind_Ret _ _ _ Hget). reflexivity.
Qed.

Lemma inventory_keeps_the_named_containers_witness :
  let env := Demo.cluster Demo.healthy in
  fst (get_pod_containers Demo.loads env "web-0" "prod" Scene.requested)
  = Ret (mkInfo ["app"] [] ["debugger-x7k2p"])
  /\ fst (get_existing_ephemeral_containers Demo.loads env "web-0" "prod" Scene.requested)
     = Ret ["debugger-x7k2p"].
Proof.
  cbv zeta.
  destruct (@inventory_keeps_the_named_containers Demo.loads (Demo.cluster Demo.healthy)
              "web-0" "prod" Scene.requested Demo.pod_after_text
              (after (run_command (Demo.cluster Demo.healthy) (pod_query "web-0" "prod")
                        true false) Scene.requested)
              Demo.pod_after
              [ ("containers", JArr [ JObj [ ("name", JStr "app") ] ]);
                ("ephemeralContainers", JArr [ JObj [ ("name", JStr "debugger-x7k2p") ] ]) ]
              [Some "app"] [] [Some "debugger-x7k2p"])
    as [Hget Hex].
  - vm_compute. reflexivity.
  - reflexivity.
  - reflexivity.
  - reflexivity.
  - eexists. split; [left; reflexivity|].
    repeat constructor. eexists. split; reflexivity.
  - exists []. split; [right; split; reflexivity | constructor].
  - eexists. split; [left; reflexivity|].
    repeat constructor. eexists. split; reflexivity.
  - rewrite Hget, Hex. split; reflexivity.
Defined.

(** X5.  When the pod query ends with a return code other than 0, or prints
    nothing but white space, or prints text that is not JSON, the inventory
    is three empty lists and no exception leaves [get_pod_containers]; the
    list of existing ephemeral containers is then empty as well. *)
Theorem failed_inventory_is_empty json_loads env name namespace w rc out err :
  let query := pod_query name namespace in
  answer env (EvRun false query :: trace (after (print_debug_command query) w))
  = Completed rc out err ->
  rc <> 0 \/ PyStr.strip out = "" \/ json_loads (PyStr.strip out) = None ->
  fst (get_pod_containers json_loads env name namespace w) = Ret (mkInfo [] [] [])
  /\ fst (get_existing_ephemeral_containers json_loads env name namespace w) = Ret [].
Proof.
  intros query Ha Hfail.
  assert (Hget : fst (get_pod_containers json_loads env name namespace w)
                 = Ret (mkInfo [] [] [])).
  { unfold get_pod_containers, run_command. fold query.
    destruct (print_debug_command_run query w) as (wd & Hd).
    unfold after in Ha. rewrite Hd in Ha. cbn [snd] in Ha.
    rewrite bind_assoc. rewrite (bind_Ret _ _ _ Hd). rewrite bind_assoc.
    unfold bind at 1. unfold blocking at 1. rewrite Ha. cbn [andb].
    destruct (rc =? 0) eqn:Hrc; cbn [negb].
    - apply Z.eqb_eq in Hrc.
      unfold bind at 1. unfold ret at 1. cbn [no_output text].
      destruct Hfail as [Hne | [Hempty | Hbad]]; [contradiction | |].
      + rewrite Hempty. reflexivity.
      + destruct (PyStr.is_empty (PyStr.strip out)); [reflexivity|].
        rewrite Hbad. reflexivity.
    - reflexivity. }
  split; [exact Hget|].
  unfold get_existing_ephemeral_containers, bind.
  destruct (get_pod_containers json_loads env name namespace w) as [[info| |] w1];
    cbn [fst] in *; try discriminate.
  injection Hget as ->. reflexivity.
Qed.

Lemma failed_inventory_is_empty_witness :
  fst (get_pod_containers Demo.loads (Demo.cluster Demo.garbled) "web-0" "prod" Demo.boot)
  = Ret (mkInfo [] [] [])
  /\ fst (get_existing_ephemeral_containers Demo.loads (Demo.cluster Demo.garbled)
            "web-0" "prod" Demo.boot)
     = Ret [].
Proof.
  apply (@failed_inventory_is_empty Demo.loads (Demo.cluster Demo.garbled) "web-0" "prod"
           Demo.boot 0 "<html>502 Bad Gateway</html>" "").
  - reflexivity.
  - right. right. reflexivity.
Defined.

(** ** The poll loop: a container that runs, one that has exited *)

Lemma scan_meets_running c fields state r rest last w :
  Py.assoc "name" fields = Some (JStr c) ->
  Py.assoc "state" fields = Some (JObj state) ->
  Py.assoc "running" state = Some r ->
  scan_statuses c (JObj fields :: rest) last w
  = (Ret (Some true, last),
     printed [EvPrint false "Container {} is running" [JStr c]] w).
Proof.
  intros Hname Hstate Hrun.
  cbn [scan_statuses]. unfold bind, lift, Py.get, Py.contains.
  rewrite Hname. cbn [Py.eq_str]. rewrite String.eqb_refl.
  rewrite Hstate, Hrun. reflexivity.
Qed.

Lemma scan_meets_terminated c fields state info rest last w :
  Py.assoc "name" fields = Some (JStr c) ->
  Py.assoc "state" fields = Some (JObj state) ->
  Py.assoc "running" state = None ->
  Py.assoc "waiting" state = None ->
  Py.assoc "terminated" state = Some (JObj info) ->
  scan_statuses c (JObj fields :: rest) last w
  = (Ret (Some false, last), printed (terminated_report info) w).
Proof.
  intros Hname Hstate Hrun Hwait Hterm.
  cbn [scan_statuses]. unfold bind, lift, Py.get, Py.contains.
  rewrite Hname. cbn [Py.eq_str]. rewrite String.eqb_refl.
  rewrite Hstate, Hrun, Hwait, Hterm.
  unfold terminated_report, printed, say_err, emit, ret.
  destruct (Py.truthy _); reflexivity.
Qed.

(** A pass of the loop body whose scan ends the function ends it where the
    scan left off, and so do the loop and the wait. *)
Lemma settled_tick json_loads env name namespace c last w out w1 pod_data statuses b w2 :
  run_command env (pod_query name namespace) true false w = (Ret (Some out), w1) ->
  PyStr.is_empty out = false ->
  json_loads out = Some pod_data ->
  ephemeral_statuses_of pod_data = Ret statuses ->
  scan_statuses c statuses last w1 = (Ret (Some b, last), w2) ->
  poll_once json_loads env name namespace c last w = (Ret (Some b, last), w2)
  /\ (forall fuel timeout start, now w - start < 1000 * timeout ->
        wait_loop json_loads env (S fuel) name namespace c timeout start last w
        = (Ret b, w2))
  /\ (forall timeout w0, 0 < timeout -> last = JNull ->
        w = after (say "Waiting for container {} to be running..." [JStr c]) w0 ->
        wait_for_container_running json_loads env name namespace c timeout w0
        = (Ret b, w2)).
Proof.
  intros Hrun Hout Hload Hsts Hscan.
  assert (Hpoll : poll_once json_loads env name namespace c last w
                  = (Ret (Some b, last), w2)).
  { unfold poll_once. rewrite (bind_Ret _ _ _ Hrun).
    cbn [no_output text]. rewrite Hout, Hload.
    unfold bind at 1. unfold lift at 1. rewrite Hsts.
    unfold bind at 1. rewrite Hscan. reflexivity. }
  assert (Hloop : forall fuel timeout start, now w - start < 1000 * timeout ->
            wait_loop json_loads env (S fuel) name namespace c timeout start last w
            = (Ret b, w2)).
  { intros fuel timeout start Hguard. cbn [wait_loop].
    unfold bind at 1. unfold time_time at 1.
    apply Z.ltb_lt in Hguard. rewrite Hguard.
    rewrite (bind_Ret _ _ _ Hpoll). reflexivity. }
  split; [exact Hpoll|]. split; [exact Hloop|].
  intros timeout w0 Hpos -> Hw. unfold wait_for_container_running.
  rewrite (bind_Ret _ _ w0 (a := tt) (w1 := w)) by (rewrite Hw; reflexivity).
  rewrite (bind_Ret _ _ w (a := now w) (w1 := w)) by reflexivity.
  apply Hloop. lia.
Qed.

(** X6.  Suppose a tick's query returns a pod whose status entry for the
    watched container ([c], the first entry of that name) has the key
    [running] in its state.  Then that pass of the loop body prints that
    the container is running and ends the function with [True], in the
    world the query left: no sleep, no time spent; the loop, from any state
    that still polls, returns [True]; and so does the wait itself when this
    is its first tick. *)
Theorem running_container_ends_the_wait
    json_loads env name namespace c last w out w1 pod_data before fields rest state r :
  run_command env (pod_query name namespace) true false w = (Ret (Some out), w1) ->
  PyStr.is_empty out = false ->
  json_loads out = Some pod_data ->
  ephemeral_statuses_of pod_data = Ret (before ++ JObj fields :: rest)%list ->
  Forall (other_container c) before ->
  Py.assoc "name" fields = Some (JStr c) ->
  Py.assoc "state" fields = Some (JObj state) ->
  Py.assoc "running" state = Some r ->
  let w2 := printed [EvPrint false "Container {} is running" [JStr c]] w1 in
  poll_once json_loads env name namespace c last w = (Ret (Some true, last), w2)
  /\ (forall fuel timeout start, now w - start < 1000 * timeout ->
        wait_loop json_loads env (S fuel) name namespace c timeout start last w
        = (Ret true, w2))
  /\ (forall timeout w0, 0 < timeout -> last = JNull ->
        w = after (say "Waiting for container {} to be running..." [JStr c]) w0 ->
        wait_for_container_running json_loads env name namespace c timeout w0
        = (Ret true, w2))
  /\ now w2 = now w1
  /\ pick sleep_of (trace w2) = pick sleep_of (trace w1).
Proof.
  intros Hrun Hout Hload Hsts Hbefore Hname Hstate Hrunning w2.
  assert (Hscan : scan_statuses c (before ++ JObj fields :: rest) last w1
                  = (Ret (Some true, last), w2)).
  { rewrite scan_skips_other_containers by exact Hbefore.
    exact (@scan_meets_running c fields state r rest last w1 Hname Hstate Hrunning). }
  destruct (@settled_tick json_loads env name namespace c last w out w1 pod_data _ true w2
              Hrun Hout Hload Hsts Hscan) as (Hpoll & Hloop & Hwait).
  repeat split; assumption || reflexivity.
Qed.

Lemma running_container_ends_the_wait_witness :
  let env := Demo.cluster Demo.healthy in
  let poll := poll_once Demo.loads env "web-0" "prod" "debugger-x7k2p" JNull
                Scene.requested in
  fst poll = Ret (Some true, JNull)
  /\ hd_error (trace (snd poll))
     = Some (EvPrint false "Container {} is running" [JStr "debugger-x7k2p"])
  /\ pick sleep_of (trace (snd poll)) = [].
Proof.
  cbv zeta.
  destruct (@running_container_ends_the_wait Demo.loads (Demo.cluster Demo.healthy)
              "web-0" "prod" "debugger-x7k2p" JNull Scene.requested
              Demo.pod_after_text
              (after (run_command (Demo.cluster Demo.healthy)
                        (pod_query "web-0" "prod") true false) Scene.requested)
              Demo.pod_after []
              [ ("name", JStr "debugger-x7k2p");
                ("state", JObj [ ("running", JObj []) ]) ]
              []
              [ ("running", JObj []) ]
              (JObj []))
    as (Hpoll & _).
  - vm_compute. reflexivity.
  - reflexivity.
  - reflexivity.
  - reflexivity.
  - constructor.
  - reflexivity.
  - reflexivity.
  - reflexivity.
  - rewrite Hpoll. repeat split.
Defined.

(** X7.  Suppose a tick's query returns a pod whose status entry for the
    watched container ([c], the first entry of that name) is neither
    running nor waiting and has the key [terminated] in its state.  Then
    that pass of the loop body reports the reason and the exit code
    (["Unknown"] and ["N/A"] when they are absent), the message if there is
    one, and ends the function with [False] at once: no sleep, no time
    spent, and no timeout reported; so do the loop and the wait. *)
Theorem terminated_container_fails_the_wait
    json_loads env name namespace c last w out w1 pod_data before fields rest state info :
  run_command env (pod_query name namespace) true false w = (Ret (Some out), w1) ->
  PyStr.is_empty out = false ->
  json_loads out = Some pod_data ->
  ephemeral_statuses_of pod_data = Ret (before ++ JObj fields :: rest)%list ->
  Forall (other_container c) before ->
  Py.assoc "name" fields = Some (JStr c) ->
  Py.assoc "state" fields = Some (JObj state) ->
  Py.assoc "running" state = None ->
  Py.assoc "waiting" state = None ->
  Py.assoc "terminated" state = Some (JObj info) ->
  let w2 := printed (terminated_report info) w1 in
  poll_once json_loads env name namespace c last w = (Ret (Some false, last), w2)
  /\ (forall fuel timeout start, now w - start < 1000 * timeout ->
        wait_loop json_loads env (S fuel) name namespace c timeout start last w
        = (Ret false, w2))
  /\ (forall timeout w0, 0 < timeout -> last = JNull ->
        w = after (say "Waiting for container {} to be running..." [JStr c]) w0 ->
        wait_for_container_running json_loads env name namespace c timeout w0
        = (Ret false, w2))
  /\ now w2 = now w1
  /\ pick sleep_of (trace w2) = pick sleep_of (trace w1)
  /\ pick timeout_report_of (trace w2) = pick timeout_report_of (trace w1).
Proof.
  intros Hrun Hout Hload Hsts Hbefore Hname Hstate Hrunning Hwaiting Hterm w2.
  assert (Hscan : scan_statuses c (before ++ JObj fields :: rest) last w1
                  = (Ret (Some false, last), w2)).
  { rewrite scan_skips_other_containers by exact Hbefore.
    exact (@scan_meets_terminated c fields state info rest last w1
             Hname Hstate Hrunning Hwaiting Hterm). }
  destruct (@settled_tick json_loads env name namespace c last w out w1 pod_data _ false w2
              Hrun Hout Hload Hsts Hscan) as (Hpoll & Hloop & Hwait).
  split; [exact Hpoll|]. split; [exact Hloop|]. split; [exact Hwait|].
  subst w2. unfold terminated_report, printed.
  destruct (Py.truthy _); repeat split; reflexivity.
Qed.

Lemma terminated_container_fails_the_wait_witness :
  let env := Demo.cluster Scene.exited in
  let poll := poll_once Scene.loads env "web-0" "prod" "debugger-x7k2p" JNull Demo.boot in
  fst poll = Ret (Some false, JNull)
  /\ hd_error (trace (snd poll))
     = Some (EvPrint true "Container terminated: {} (exit code: {})"
               [JStr "Error"; JNum 137])
  /\ pick sleep_of (trace (snd poll)) = [].
Proof.
  cbv zeta.
  destruct (@terminated_container_fails_the_wait Scene.loads (Demo.cluster Scene.exited)
              "web-0" "prod" "debugger-x7k2p" JNull Demo.boot
              Scene.pod_exited_text
              (after (run_command (Demo.cluster Scene.exited)
                        (pod_query "web-0" "prod") true false) Demo.boot)
              Scene.pod_exited []
              [ ("name", JStr "debugger-x7k2p");
                ("state",
                 JObj [ ("terminated",
                         JObj [ ("reason", JStr "Error"); ("exitCode", JNum 137) ]) ]) ]
              []
              [ ("terminated", JObj [ ("reason", JStr "Error"); ("exitCode", JNum 137) ]) ]
              [ ("reason", JStr "Error"); ("exitCode", JNum 137) ])
    as (Hpoll & _).
  - vm_compute. reflexivity.
  - reflexivity.
  - vm_compute. reflexivity.
  - reflexivity.
  - constructor.
  - reflexivity.
  - reflexivity.
  - reflexivity.
  - reflexivity.
  - reflexivity.
  - rewrite Hpoll. repeat split.
Defined.

(** ** The poll loop: a status is reported when it changes *)

Lemma eq_atom_refl x : Py.hashable x = true -> Py.eq_atom x x = true.
Proof.
  destruct x as [|b|n|s| |]; simpl; try discriminate; intros _;
    [reflexivity | destruct b; reflexivity | apply Z.eqb_refl | apply String.eqb_refl].
Qed.

Lemma in_str_set_hashable x S b : Py.in_str_set x S = Ret b -> Py.hashable x = true.
Proof. unfold Py.in_str_set. destruct (Py.hashable x); [reflexivity | discriminate]. Qed.

Lemma scan_others c rest last w :
  Forall (other_container c) rest ->
  scan_statuses c rest last w = (Ret (None, last), w).
Proof.
  intros Hrest. rewrite <- (app_nil_r rest).
  rewrite scan_skips_other_containers by exact Hrest. reflexivity.
Qed.

(** After a scan that went through an entry without ending the function,
    the reason it remembers makes the same scan silent. *)
Lemma scan_entry_settles_reason c entry rest last w last1 w1 :
  Forall (other_container c) rest ->
  scan_statuses c (entry :: rest) last w = (Ret (None, last1), w1) ->
  (exists l, trace w1 = (l ++ trace w)%list /\ (List.length l <= 1)%nat)
  /\ forall w', scan_statuses c (entry :: rest) last1 w' = (Ret (None, last1), w').
Proof.
  intros Hrest.
  cbn [scan_statuses]. unfold bind, lift, say, say_err, emit, ret.
  intros Hscan.
  repeat match type of Hscan with
         | context [match ?x with _ => _ end] => destruct x eqn:?; try discriminate
         end.
  all: rewrite (scan_others _ _ Hrest) in Hscan; injection Hscan as <- <-.
  all: split;
    [ first [ exists []; split; [reflexivity | simpl; lia]
            | eexists [_]; split; [reflexivity | simpl; lia] ] | intro w' ].
  all: try match goal with
           | H : Py.in_str_set ?r _ = Ret _ |- context [Py.eq_atom ?r ?r] =>
               rewrite (@eq_atom_refl r (@in_str_set_hashable _ _ _ H))
           end.
  all: try match goal with
           | H : negb _ = false |- _ => rewrite H
           end.
  all: cbn [Py.eq_atom]; try rewrite String.eqb_refl; cbn [negb];
    apply scan_others, Hrest.
Qed.

(** X8.  A scan of the statuses that does not end the function, on a pod
    with at most one status entry of the watched container, prints at most
    one status line; and with the reason it then remembers in [last_reason],
    the same statuses are scanned again without printing anything and
    without changing the remembered reason: a status that does not change
    is reported once, however many ticks see it. *)
Theorem unchanged_status_is_reported_once c before entry rest last w last1 w1 :
  Forall (other_container c) before ->
  Forall (other_container c) rest ->
  scan_statuses c (before ++ entry :: rest) last w = (Ret (None, last1), w1) ->
  (exists lines, trace w1 = (lines ++ trace w)%list /\ (List.length lines <= 1)%nat)
  /\ forall w', scan_statuses c (before ++ entry :: rest) last1 w' = (Ret (None, last1), w').
Proof.
  intros Hbefore Hrest Hscan.
  rewrite scan_skips_other_containers in Hscan by exact Hbefore.
  destruct (@scan_entry_settles_reason c entry rest last w last1 w1 Hrest Hscan)
    as [Hlines Hagain].
  split; [exact Hlines|]. intro w'.
  rewrite scan_skips_other_containers by exact Hbefore. apply Hagain.
Qed.

Lemma unchanged_status_is_reported_once_witness :
  let entry := JObj [ ("name", JStr "debugger-x7k2p");
                      ("state",
                       JObj [ ("waiting", JObj [ ("reason", JStr "ContainerCreating") ]) ]) ] in
  scan_statuses "debugger-x7k2p" [entry] JNull Demo.boot
  = (Ret (None, JStr "ContainerCreating"),
     printed [EvPrint false "Container status: {}" [JStr "ContainerCreating"]] Demo.boot)
  /\ scan_statuses "debugger-x7k2p" [entry] (JStr "ContainerCreating") Demo.boot
     = (Ret (None, JStr "ContainerCreating"), Demo.boot).
Proof.
  cbv zeta. split; [reflexivity|].
  refine (proj2 (@unchanged_status_is_reported_once "debugger-x7k2p" [] _ [] JNull Demo.boot
                   (JStr "ContainerCreating")
                   (printed [EvPrint false "Container status: {}" [JStr "ContainerCreating"]]
                      Demo.boot)
                   _ _ _) Demo.boot).
  - constructor.
  - constructor.
  - reflexivity.
Defined.

(** ** The poll loop: how often it asks *)

Section PollCount.

Variable json_loads : string -> option json.
Variable env : Env.

#[local] Abbreviation runs_nothing := (stable (silent_rel command_of)).

Lemma scan_statuses_runs_nothing c statuses :
  forall last, runs_nothing (scan_statuses c statuses last).
Proof. induction statuses as [|status rest IH]; intro last; simpl; frames. Qed.
#[local] Hint Resolve scan_statuses_runs_nothing : frame.

(** A pass of the loop body runs one command, the status query. *)
Lemma poll_once_commands name namespace c last w :
  pick command_of (trace (snd (poll_once json_loads env name namespace c last w)))
  = pod_query name namespace :: pick command_of (trace w).
Proof.
  unfold poll_once. unfold bind at 1.
  pose proof (run_command_commands env (pod_query name namespace) true false w) as Hrun.
  destruct (run_command env (pod_query name namespace) true false w) as [[output| |] w1];
    cbn [snd] in Hrun; try exact Hrun.
  rewrite <- Hrun.
  match goal with
  | |- pick command_of (trace (snd (?rest w1))) = _ =>
      assert (Hrest : runs_nothing rest) by frames
  end.
  apply Hrest.
Qed.

Lemma report_timeout_runs_nothing timeout last : runs_nothing (report_timeout timeout last).
Proof. unfold report_timeout. frames. Qed.

(** The [n]-th query of the loop is asked while less than [timeout] seconds
    have passed, and [2 (n - 1)] seconds at least have. *)
Lemma wait_loop_commands name namespace c timeout start fuel :
  forall last w,
  exists n,
    pick command_of
      (trace (snd (wait_loop json_loads env fuel name namespace c timeout start last w)))
    = (repeat (pod_query name namespace) n ++ pick command_of (trace w))%list
    /\ (n = 0%nat \/ 2000 * (Z.of_nat n - 1) < 1000 * timeout - (now w - start)).
Proof.
  induction fuel as [|fuel IH]; intros last w.
  { exists 0%nat. split; [reflexivity | left; reflexivity]. }
  cbn [wait_loop]. unfold bind at 1. unfold time_time at 1.
  destruct (now w - start <? 1000 * timeout) eqn:Hguard.
  - apply Z.ltb_lt in Hguard. unfold bind at 1.
    pose proof (poll_once_commands name namespace c last w) as Hcmd.
    destruct (poll_once json_loads env name namespace c last w)
      as [[[[b|] l]| |] w1] eqn:Hpoll; cbn [fst snd] in *;
      try (exists 1%nat; split; [exact Hcmd | right; change (Z.of_nat 1) with 1; lia]).
    apply poll_once_takes_two_seconds in Hpoll.
    destruct (IH l w1) as (n & Hn & Hbound).
    exists (S n). split.
    + rewrite Hn, Hcmd. cbn [repeat].
      change (pod_query name namespace :: pick command_of (trace w))
        with ([pod_query name namespace] ++ pick command_of (trace w))%list.
      rewrite app_assoc, <- repeat_cons. reflexivity.
    + right. destruct Hbound as [-> | Hb]; lia.
  - exists 0%nat. split; [|left; reflexivity].
    apply report_timeout_runs_nothing.
Qed.

End PollCount.

Lemma rev_repeat_same {A} (x : A) n : rev (repeat x n) = repeat x n.
Proof.
  induction n as [|n IH]; [reflexivity|].
  simpl. rewrite IH. symmetry. apply repeat_cons.
Qed.

(** X9.  On every run, whatever the cluster answers and however long its
    answers take, [wait_for_container_running] comes to an end, and the only
    commands it runs are status queries of the pod, [n] of them with
    [2 n <= timeout + 1]: at most 30 for the 60 seconds of a launch, and none
    at all when [timeout] is zero or negative. *)
Theorem wait_polls_a_bounded_number_of_times json_loads env name namespace c timeout w :
  let run := wait_for_container_running json_loads env name namespace c timeout w in
  fst run <> Undef
  /\ exists n,
       commands (trace (snd run))
       = (commands (trace w) ++ repeat (pod_query name namespace) n)%list
       /\ 2 * Z.of_nat n <= Z.max 0 (timeout + 1).
Proof.
  cbv zeta. split; [apply wait_for_container_running_defined|].
  unfold wait_for_container_running.
  rewrite (bind_Ret _ _ w (a := tt)
             (w1 := mkWorld (now w) (DEBUG_MODE w)
                      (EvPrint false "Waiting for container {} to be running..." [JStr c]
                       :: trace w))) by reflexivity.
  erewrite bind_Ret by reflexivity.
  match goal with
  | |- context [wait_loop _ _ ?fuel _ _ _ _ ?start ?last ?w0] =>
      destruct (wait_loop_commands json_loads env name namespace c timeout start fuel last w0)
        as (n & Hn & Hbound)
  end.
  exists n. unfold commands. rewrite Hn. cbn [trace pick command_of].
  rewrite rev_app_distr, rev_repeat_same. split; [reflexivity|].
  cbn [now] in Hbound. destruct Hbound as [-> | Hb]; lia.
Qed.

(** ** The poll loop: a container that is not there yet *)

Lemma scan_statuses_sleeps_nothing c statuses :
  forall last, stable (silent_rel sleep_of) (scan_statuses c statuses last).
Proof. induction statuses as [|status rest IH]; intro last; simpl; frames. Qed.

(** X23.  Suppose a tick's query returns a pod in which the watched
    container is pending: it has no status entry yet, or entries without a
    state, or waiting on a reason outside the failure set.  Then that pass
    of the loop body returns nothing: after the scan, which runs no command
    and does not sleep, it sleeps its two seconds, and the loop goes on to
    the next tick with the reason the scan remembered. *)
Theorem pending_container_keeps_the_loop_polling
    json_loads env name namespace c last w out w1 pod_data :
  run_command env (pod_query name namespace) true false w = (Ret (Some out), w1) ->
  PyStr.is_empty out = false ->
  json_loads out = Some pod_data ->
  pending_pod c pod_data = true ->
  exists last' w2,
    poll_once json_loads env name namespace c last w
    = (Ret (None, last'), after (sleep env 2) w2)
    /\ pick command_of (trace w2) = pick command_of (trace w1)
    /\ pick sleep_of (trace w2) = pick sleep_of (trace w1)
    /\ (forall fuel timeout start, now w - start < 1000 * timeout ->
          wait_loop json_loads env (S fuel) name namespace c timeout start last w
          = wait_loop json_loads env fuel name namespace c timeout start last'
              (after (sleep env 2) w2)).
Proof.
  intros Hrun Hout Hload Hpending.
  unfold pending_pod in Hpending.
  destruct (ephemeral_statuses_of pod_data) as [statuses| |] eqn:Hsts; try discriminate.
  destruct (scan_pending c statuses Hpending last w1) as (last' & w2 & Hscan).
  assert (Hpoll : poll_once json_loads env name namespace c last w
                  = (Ret (None, last'), after (sleep env 2) w2)).
  { unfold poll_once. rewrite (bind_Ret _ _ _ Hrun).
    cbn [no_output text]. rewrite Hout, Hload.
    unfold bind at 1. unfold lift at 1. rewrite Hsts.
    unfold bind at 1. rewrite Hscan. reflexivity. }
  exists last', w2. split; [exact Hpoll|].
  pose proof (scan_statuses_sleeps_nothing c statuses last w1) as Hsleep.
  pose proof (scan_statuses_runs_nothing c statuses last w1) as Hcmd.
  rewrite Hscan in Hsleep, Hcmd.
  split; [exact Hcmd|]. split; [exact Hsleep|].
  intros fuel timeout start Hguard. cbn [wait_loop].
  unfold bind at 1. unfold time_time at 1.
  apply Z.ltb_lt in Hguard. rewrite Hguard.
  rewrite (bind_Ret _ _ _ Hpoll). reflexivity.
Qed.

Lemma pending_container_keeps_the_loop_polling_witness :
  let poll := poll_once Scene.loads (Demo.cluster Scene.creating) "web-0" "prod"
                "debugger-x7k2p" JNull Demo.boot in
  fst poll = Ret (None, JStr "ContainerCreating")
  /\ pick sleep_of (trace (snd poll)) = [2]
  /\ commands (trace (snd poll)) = [pod_query "web-0" "prod"].
Proof.
  cbv zeta.
  destruct (@pending_container_keeps_the_loop_polling Scene.loads
              (Demo.cluster Scene.creating) "web-0" "prod" "debugger-x7k2p" JNull Demo.boot
              Scene.pod_creating_text
              (after (run_command (Demo.cluster Scene.creating)
                        (pod_query "web-0" "prod") true false) Demo.boot)
              Scene.pod_creating)
    as (last' & w2 & Hpoll & _).
  - vm_compute. reflexivity.
  - reflexivity.
  - vm_compute. reflexivity.
  - reflexivity.
  - vm_compute. repeat split.
Defined.

(** ** The poll loop: [True] means running *)

Section Sound.

Variable json_loads : string -> option json.
Variable env : Env.

Lemma extends_emit e : stable extends (emit e).
Proof. intro w. exists [e]. reflexivity. Qed.

Lemma extends_blocking e ms : stable extends (blocking env e ms).
Proof. intro w. unfold blocking. destruct (answer env _); exists [e]; reflexivity. Qed.

Lemma extends_sleep s : stable extends (sleep env s).
Proof. intro w. exists [EvSleep s]. reflexivity. Qed.

Lemma extends_print_debug_command cmd : stable extends (print_debug_command cmd).
Proof. apply plain_print_debug_command. intros; apply extends_emit. Qed.

Lemma extends_scan_statuses c statuses last : stable extends (scan_statuses c statuses last).
Proof. apply plain_scan_statuses; intros; apply extends_emit. Qed.

Lemma extends_poll_once name namespace c last :
  stable extends (poll_once json_loads env name namespace c last).
Proof.
  apply plain_poll_once; intros;
    [apply extends_emit | apply extends_blocking | apply extends_sleep].
Qed.

(** The scan returns [True] only at an entry of [c] whose state holds
    [running]. *)
Lemma scan_true_shows_running c statuses :
  forall last w l w',
    scan_statuses c statuses last w = (Ret (Some true, l), w') ->
    exists status n state,
      In status statuses
      /\ Py.get status "name" JNull = Ret n
      /\ Py.eq_str n c = true
      /\ Py.get status "state" (JObj []) = Ret state
      /\ Py.contains "running" state = Ret true.
Proof.
  induction statuses as [|status rest IH]; intros last w l w'.
  { discriminate. }
  cbn [scan_statuses]. unfold bind, lift, say, say_err, emit, ret.
  intros Hscan.
  repeat match type of Hscan with
         | context [match ?x with _ => _ end] => destruct x eqn:?; try discriminate
         end;
    try (apply IH in Hscan; destruct Hscan as (s & n & st & Hin & Hrest);
         exists s, n, st; split; [right; exact Hin | exact Hrest]).
  do 3 eexists. split; [left; reflexivity|]. repeat split; eassumption.
Qed.

(** A checked run returns text only when the command ended with return
    code 0. *)
Lemma checked_run_succeeded cmd use_bash w out w1 :
  run_command env cmd true use_bash w = (Ret (Some out), w1) ->
  exists h mid raw err,
    answer env (EvRun use_bash cmd :: h) = Completed 0 raw err
    /\ out = PyStr.strip raw
    /\ trace w1 = EvRun use_bash cmd :: h
    /\ h = (mid ++ trace w)%list.
Proof.
  unfold run_command.
  destruct (print_debug_command_run cmd w) as (wd & Hd).
  assert (Hext : extends w wd).
  { pose proof (extends_print_debug_command cmd w) as He.
    rewrite Hd in He. exact He. }
  rewrite (bind_Ret _ _ _ Hd). unfold bind, blocking.
  destruct (answer env (EvRun use_bash cmd :: trace wd)) as [rc raw err|e] eqn:Ha;
    [|discriminate].
  cbn [andb]. destruct (rc =? 0) eqn:Hrc; cbn [negb];
    unfold say_err, emit, ret; intros Hr; [|discriminate].
  injection Hr as <- <-. apply Z.eqb_eq in Hrc. subst rc.
  destruct Hext as [mid Hmid].
  exists (trace wd), mid, raw, err. repeat split; assumption.
Qed.

Lemma poll_true_shows_running name namespace c last w l w' :
  poll_once json_loads env name namespace c last w = (Ret (Some true, l), w') ->
  exists h newer mid raw err pod_data,
    answer env (EvRun false (pod_query name namespace) :: h) = Completed 0 raw err
    /\ json_loads (PyStr.strip raw) = Some pod_data
    /\ shows_running c pod_data
    /\ trace w' = (newer ++ EvRun false (pod_query name namespace) :: h)%list
    /\ h = (mid ++ trace w)%list.
Proof.
  unfold poll_once. unfold bind at 1.
  destruct (run_command env (pod_query name namespace) true false w)
    as [[[out|]| |] w1] eqn:Hrun; try discriminate.
  apply checked_run_succeeded in Hrun as (h & mid & raw & err & Ha & -> & Ht & Hh).
  cbn [no_output text].
  destruct (PyStr.is_empty (PyStr.strip raw)).
  { unfold bind, sleep, ret. discriminate. }
  destruct (json_loads (PyStr.strip raw)) as [pod_data|] eqn:Hload.
  2: { unfold bind, say_err, emit, sleep, ret. discriminate. }
  unfold bind at 1. unfold lift at 1.
  destruct (ephemeral_statuses_of pod_data) as [statuses| |] eqn:Hsts; try discriminate.
  unfold bind at 1.
  pose proof (extends_scan_statuses c statuses last w1) as [newer Hnewer].
  destruct (scan_statuses c statuses last w1) as [[[[b|] l1]| |] w2] eqn:Hscan;
    try discriminate; cbn [fst snd] in *.
  unfold ret. intros Hp. injection Hp as -> -> ->.
  apply scan_true_shows_running in Hscan as (status & n & state & Hin & Hn & Hc & Hs & Hr).
  exists h, newer, mid, raw, err, pod_data.
  split; [exact Ha|]. split; [exact Hload|]. split.
  { exists statuses, status, n, state. repeat split; assumption. }
  split; [|exact Hh]. rewrite Hnewer, Ht. reflexivity.
Qed.

Lemma wait_loop_true_shows_running name namespace c timeout start fuel :
  forall last w w',
    wait_loop json_loads env fuel name namespace c timeout start last w = (Ret true, w') ->
    exists h newer mid raw err pod_data,
      answer env (EvRun false (pod_query name namespace) :: h) = Completed 0 raw err
      /\ json_loads (PyStr.strip raw) = Some pod_data
      /\ shows_running c pod_data
      /\ trace w' = (newer ++ EvRun false (pod_query name namespace) :: h)%list
      /\ h = (mid ++ trace w)%list.
Proof.
  induction fuel as [|fuel IH]; intros last w w'; [discriminate|].
  cbn [wait_loop]. unfold bind at 1. unfold time_time at 1.
  destruct (now w - start <? 1000 * timeout).
  2: { destruct (report_timeout_run timeout last w) as (w2 & -> & _). discriminate. }
  unfold bind at 1.
  pose proof (extends_poll_once name namespace c last w) as [new Hnew].
  destruct (poll_once json_loads env name namespace c last w)
    as [[[[b|] l]| |] w1] eqn:Hpoll; try discriminate; cbn [fst snd] in *.
  - unfold ret. intros Hr. injection Hr as -> <-.
    apply poll_true_shows_running in Hpoll. exact Hpoll.
  - intros Hrun. apply IH in Hrun
      as (h & newer & mid & raw & err & pod_data & Ha & Hl & Hs & Ht & Hh).
    exists h, newer, (mid ++ new)%list, raw, err, pod_data.
    repeat split; try assumption. rewrite Hh, Hnew. now rewrite app_assoc.
Qed.

Lemma wait_true_shows_running name namespace c timeout w w' :
  wait_for_container_running json_loads env name namespace c timeout w = (Ret true, w') ->
  exists h newer mid raw err pod_data,
    answer env (EvRun false (pod_query name namespace) :: h) = Completed 0 raw err
    /\ json_loads (PyStr.strip raw) = Some pod_data
    /\ shows_running c pod_data
    /\ trace w' = (newer ++ EvRun false (pod_query name namespace) :: h)%list
    /\ h = (mid ++ trace w)%list.
Proof.
  unfold wait_for_container_running.
  rewrite (bind_Ret _ _ w (a := tt)
             (w1 := mkWorld (now w) (DEBUG_MODE w)
                      (EvPrint false "Waiting for container {} to be running..." [JStr c]
                       :: trace w))) by reflexivity.
  erewrite bind_Ret by reflexivity.
  intros Hrun. apply wait_loop_true_shows_running in Hrun
    as (h & newer & mid & raw & err & pod_data & Ha & Hl & Hs & Ht & Hh).
  exists h, newer, (mid ++ [EvPrint false "Waiting for container {} to be running..."
                              [JStr c]])%list, raw, err, pod_data.
  repeat split; try assumption. rewrite Hh. cbn [trace].
  rewrite <- app_assoc. reflexivity.
Qed.

End Sound.

(** X10.  [wait_for_container_running] returns [True] only when one of the
    status queries it ran itself, after it began, ended with return code 0
    and printed a pod that shows the watched container running: a timeout,
    a failed or empty query, undecodable text or any other state never
    count as success. *)
Theorem true_only_after_running_was_seen json_loads env name namespace c timeout w w' :
  wait_for_container_running json_loads env name namespace c timeout w = (Ret true, w') ->
  exists h newer mid raw err pod_data,
    answer env (EvRun false (pod_query name namespace) :: h) = Completed 0 raw err
    /\ json_loads (PyStr.strip raw) = Some pod_data
    /\ shows_running c pod_data
    /\ trace w' = (newer ++ EvRun false (pod_query name namespace) :: h)%list
    /\ h = (mid ++ trace w)%list.
Proof. apply wait_true_shows_running. Qed.

Lemma true_only_after_running_was_seen_witness :
  fst (wait_for_container_running Demo.loads (Demo.cluster Demo.healthy)
         "web-0" "prod" "debugger-x7k2p" 60 Scene.requested)
  = Ret true
  /\ exists h raw err pod_data,
       answer (Demo.cluster Demo.healthy) (EvRun false (pod_query "web-0" "prod") :: h)
       = Completed 0 raw err
       /\ Demo.loads (PyStr.strip raw) = Some pod_data
       /\ shows_running "debugger-x7k2p" pod_data.
Proof.
  split; [vm_compute; reflexivity|].
  destruct (@true_only_after_running_was_seen Demo.loads (Demo.cluster Demo.healthy)
              "web-0" "prod" "debugger-x7k2p" 60 Scene.requested
              (after (wait_for_container_running Demo.loads (Demo.cluster Demo.healthy)
                        "web-0" "prod" "debugger-x7k2p" 60) Scene.requested))
    as (h & newer & mid & raw & err & pod_data & Ha & Hl & Hs & _).
  - vm_compute. reflexivity.
  - exists h, raw, err, pod_data. repeat split; assumption.
Defined.

(** ** What a launch returns *)

Lemma new_names_nil post : new_names post [] = post.
Proof.
  unfold new_names, mem. induction post as [|x post IH]; simpl in *;
    [reflexivity | now rewrite IH].
Qed.

(** X11.  The name [launch_debug_container] returns is never one of the
    names in [existing_containers], the list its caller handed in; it is
    listed in the snapshot taken after the request; and a status query of
    the pod has shown that container running.  The guarantee reaches no
    further than the list handed in: when that list is empty, the name is
    the first of the snapshot. *)
Theorem launched_container_is_new_and_running
    json_loads env name namespace image target pre as_root w d w' :
  launch_debug_container json_loads env name namespace image target pre as_root w
  = (Ret (Some d), w') ->
  ~ In d pre
  /\ exists post w1,
       request_debug_container json_loads env name namespace image target pre as_root w
       = (Ret post, w1)
       /\ In d post
       /\ (pre = [] -> exists rest, post = d :: rest)
       /\ exists h raw err pod_data,
            answer env (EvRun false (pod_query name namespace) :: h) = Completed 0 raw err
            /\ json_loads (PyStr.strip raw) = Some pod_data
            /\ shows_running d pod_data.
Proof.
  unfold launch_debug_container. unfold bind at 1.
  destruct (request_debug_container json_loads env name namespace image target pre as_root w)
    as [[post| |] w1]; try discriminate.
  destruct (new_names post pre) as [|d' more] eqn:Hnew.
  { unfold bind, say_err, emit, ret. discriminate. }
  assert (Hd' : In d' (new_names post pre)) by (rewrite Hnew; left; reflexivity).
  apply new_names_In in Hd' as [Hpost Hpre].
  unfold bind at 1. unfold say at 1. unfold emit at 1.
  unfold await_debug_container. unfold bind at 1.
  match goal with
  | |- context [wait_for_container_running _ _ _ _ _ _ ?w0] =>
      destruct (wait_for_container_running json_loads env name namespace d' 60 w0)
        as [[[|]| |] w2] eqn:Hwait; try discriminate
  end.
  unfold ret. intros Hr. injection Hr as <- <-.
  split; [exact Hpre|]. exists post, w1. split; [reflexivity|]. split; [exact Hpost|].
  split.
  { intros ->. rewrite new_names_nil in Hnew. exists more. exact Hnew. }
  apply wait_true_shows_running in Hwait
    as (h & newer & mid & raw & err & pod_data & Ha & Hl & Hs & _).
  exists h, raw, err, pod_data. repeat split; assumption.
Qed.

Lemma launched_container_is_new_and_running_witness :
  let env := Demo.cluster Demo.healthy in
  fst (launch_debug_container Demo.loads env "web-0" "prod" "toolbox" (Some "app") []
         false Demo.boot)
  = Ret (Some "debugger-x7k2p")
  /\ exists post, In "debugger-x7k2p" post
       /\ fst (request_debug_container Demo.loads env "web-0" "prod" "toolbox" (Some "app")
                 [] false Demo.boot)
          = Ret post.
Proof.
  cbv zeta. split; [vm_compute; reflexivity|].
  destruct (@launched_container_is_new_and_running Demo.loads (Demo.cluster Demo.healthy)
              "web-0" "prod" "toolbox" (Some "app") [] false Demo.boot "debugger-x7k2p"
              (after (launch_debug_container Demo.loads (Demo.cluster Demo.healthy)
                        "web-0" "prod" "toolbox" (Some "app") [] false) Demo.boot))
    as (_ & post & w1 & Hreq & Hin & _).
  - vm_compute. reflexivity.
  - exists post. split; [exact Hin | rewrite Hreq; reflexivity].
Defined.

(** ** The interactive session *)

(** X12.  [exec_interactive] attaches exactly one session, with the argument
    vector [interactive_argv], and runs no captured command.  It returns the
    return code of the session; 130 when the session is interrupted from the
    keyboard; 1 when starting it raises any other exception: neither leaves
    the function. *)
Theorem session_ends_with_a_code env name namespace c cmd cd w :
  let argv := interactive_argv name namespace c cmd cd in
  let run := exec_interactive env name namespace c cmd cd w in
  exists h mid,
    fst run = session_code (answer env (EvAttach argv :: h))
    /\ h = (mid ++ trace w)%list
    /\ pick attach_of (trace (snd run)) = argv :: pick attach_of (trace w)
    /\ pick command_of (trace (snd run)) = pick command_of (trace w).
Proof.
  cbv zeta.
  unfold exec_interactive, print_debug_command, bind, say, say_err, emit, ret,
    get_DEBUG_MODE, try_except, blocking.
  cbn [DEBUG_MODE now trace fst snd].
  destruct (PyStr.truthy_opt cd); cbn [DEBUG_MODE now trace fst snd];
    destruct (DEBUG_MODE w); cbn [DEBUG_MODE now trace fst snd];
    match goal with
    | |- context [answer env (_ :: ?h)] =>
        assert (Hmid : exists mid, h = (mid ++ trace w)%list)
          by (first [ exists (firstn 5 h); reflexivity
                    | exists (firstn 6 h); reflexivity
                    | exists (firstn 10 h); reflexivity
                    | exists (firstn 11 h); reflexivity ]);
        destruct Hmid as [mid Hmid]; exists h, mid;
        destruct (answer env (_ :: h)) as [rc out err|[|code|k]]
    end;
    cbn [fst snd trace session_code pick attach_of command_of];
    (split; [reflexivity|]; split; [exact Hmid|]; split; reflexivity).
Qed.

(** X13.  With [--cd-into dir] the command of the session is always handed
    to [sh -c], and what [sh] runs changes into [/proc/1/root] followed by
    [dir], the directory as the target container sees it, before anything
    else: through [sh] for the command [sh] and through [bash] for every
    other command, which replaces the shell for [bash] and [sh] and is run
    as given otherwise. *)
Theorem cd_into_enters_the_target_root name namespace c cmd dir :
  PyStr.truthy dir = true ->
  let shell := if String.eqb cmd "sh" then "sh" else "bash" in
  let action :=
    if String.eqb cmd "bash" then "exec bash"
    else if String.eqb cmd "sh" then "exec sh" else cmd in
  interactive_argv name namespace c cmd (Some dir)
  = [ "kubectl"; "exec"; "-it"; name; "-n"; namespace; "-c"; c; "--";
      "sh"; "-c"; shell ++ " -c 'cd /proc/1/root" ++ dir ++ " && " ++ action ++ "'" ].
Proof.
  intros Hdir. cbv zeta. unfold interactive_argv. cbn [PyStr.truthy_opt text].
  rewrite Hdir.
  destruct (String.eqb cmd "bash") eqn:Hbash.
  - apply String.eqb_eq in Hbash. subst cmd. reflexivity.
  - destruct (String.eqb cmd "sh"); reflexivity.
Qed.

Lemma cd_into_enters_the_target_root_witness :
  interactive_argv "web-0" "prod" "debugger-x7k2p" "ls -la" (Some "/var/configs")
  = [ "kubectl"; "exec"; "-it"; "web-0"; "-n"; "prod"; "-c"; "debugger-x7k2p"; "--";
      "sh"; "-c"; "bash -c 'cd /proc/1/root/var/configs && ls -la'" ].
Proof.
  apply (@cd_into_enters_the_target_root "web-0" "prod" "debugger-x7k2p" "ls -la"
           "/var/configs").
  reflexivity.
Defined.

(** ** A backup whose path is found *)

Lemma pick_app {A} (f : event -> option A) l1 l2 :
  pick f (l1 ++ l2)%list = (pick f l1 ++ pick f l2)%list.
Proof.
  induction l1 as [|e l1 IH]; [reflexivity|].
  simpl. destruct (f e); simpl; now rewrite IH.
Qed.

(** An unchecked run whose call does not raise returns text and adds one
    command to the trace. *)
Lemma unchecked_run_step env cmd use_bash w :
  completes env ->
  exists s w' new,
    run_command env cmd false use_bash w = (Ret (Some s), w')
    /\ trace w' = (new ++ trace w)%list
    /\ pick command_of new = [cmd]
    /\ pick makedirs_of new = [].
Proof.
  intros Hc. unfold run_command, print_debug_command, bind, get_DEBUG_MODE, blocking.
  destruct (DEBUG_MODE w); unfold say, emit, ret; cbn [trace now DEBUG_MODE];
    match goal with
    | |- context [answer env ?h] => destruct (Hc h) as (rc & out & err & ->)
    end;
    cbn [andb]; do 2 eexists;
    [ exists [EvRun use_bash cmd;
              EvPrint false "{}\n" [JStr rule]; EvPrint false "{}" [JStr cmd];
              EvPrint false "{}" [JStr rule]; EvPrint false "DEBUG: Executing command:" [];
              EvPrint false "\n{}" [JStr rule]]
    | exists [EvRun use_bash cmd] ];
    repeat split; reflexivity.
Qed.

Lemma backup_banner_run name path compress w :
  exists u, backup_banner name path compress w
            = (Ret u, after (backup_banner name path compress) w).
Proof.
  unfold after, backup_banner, bind, say, emit, ret.
  destruct compress; eexists; reflexivity.
Qed.

(** X14.  Suppose the presence check of [create_backup] prints the path and
    no call raises.  Then the backup creates the directory
    [./backups/<namespace>] and only then transfers: without [--compress]
    with one copy of [<pod>:<path>] and nothing else, no archive and no
    removal; with [--compress] with the archive, the copy of the archive
    and its removal in the container, in that order.  The local file is
    [./backups/<namespace>/<date>_<pod>], with [.tar.gz] added when
    compressed, where [<date>] is the time read after the directory was
    made; the backup reports that file as saved and returns [True],
    whatever the return codes of the commands are. *)
Theorem found_path_is_copied env name namespace c path compress w s w1 :
  completes env ->
  run_command env (verify_command name namespace c path) false false
    (after (backup_banner name path compress) w) = (Ret (Some s), w1) ->
  PyStr.is_empty s = false ->
  let dir := "./backups/" ++ namespace in
  let made := EvMakedirs dir :: EvPrint false "Path exists: {}" [JStr s] :: trace w1 in
  let date := date_string env made in
  let file :=
    if compress then dir ++ "/" ++ date ++ "_" ++ name ++ ".tar.gz"
    else dir ++ "/" ++ date ++ "_" ++ name in
  let run := create_backup env name namespace c path compress w in
  fst run = Ret true
  /\ exists newer,
       trace (snd run) = (newer ++ made)%list
       /\ commands newer
          = (if compress then
               [ archive_command name namespace c path;
                 copy_command namespace c (name ++ ":/tmp/kdebug-backup.tar.gz") file;
                 remove_command name namespace c ]
             else [ copy_command namespace c (name ++ ":" ++ path) file ])
       /\ pick makedirs_of newer = []
       /\ In (EvPrint false "Backup saved to: {}" [JStr file]) newer.
Proof.
  intros Hc Hverify Hfound dir made date file run.
  enough (Hrun : exists wf newer,
             run = (Ret true, wf)
             /\ trace wf = (newer ++ made)%list
             /\ commands newer
                = (if compress then
                     [ archive_command name namespace c path;
                       copy_command namespace c (name ++ ":/tmp/kdebug-backup.tar.gz") file;
                       remove_command name namespace c ]
                   else [ copy_command namespace c (name ++ ":" ++ path) file ])
             /\ pick makedirs_of newer = []
             /\ In (EvPrint false "Backup saved to: {}" [JStr file]) newer).
  { destruct Hrun as (wf & newer & -> & Hrest). split; [reflexivity|].
    exists newer. exact Hrest. }
  destruct (backup_banner_run name path compress w) as (u & Hbanner).
  subst run. unfold create_backup. rewrite (bind_Ret _ _ _ Hbanner).
  rewrite (bind_Ret _ _ _ Hverify). cbn [no_output text].
  rewrite (run_command_stripped _ _ _ _ _ Hverify), Hfound. cbn [orb].
  unfold bind at 1. unfold say at 1. unfold emit at 1.
  unfold bind at 1. unfold blocking at 1. cbn [trace now DEBUG_MODE].
  fold dir. fold made.
  destruct (Hc made) as (rc & out & err & ->).
  unfold bind at 1. unfold today at 1. cbn [trace]. fold date.
  destruct compress.
  - unfold bind at 1. unfold say at 1. unfold emit at 1.
    unfold bind at 1.
    match goal with
    | |- context [run_command env ?cmd false false ?w0] =>
        destruct (@unchecked_run_step env cmd false w0 Hc)
          as (s1 & w2 & new1 & -> & Ht1 & Hc1 & Hm1)
    end.
    unfold bind at 1. unfold say at 1. unfold emit at 1.
    unfold bind at 1. unfold say at 1. unfold emit at 1.
    unfold bind at 1.
    match goal with
    | |- context [run_command env ?cmd false false ?w0] =>
        destruct (@unchecked_run_step env cmd false w0 Hc)
          as (s2 & w3 & new2 & -> & Ht2 & Hc2 & Hm2)
    end.
    unfold bind at 1. unfold say at 1. unfold emit at 1.
    unfold bind at 1.
    match goal with
    | |- context [run_command env ?cmd false false ?w0] =>
        destruct (@unchecked_run_step env cmd false w0 Hc)
          as (s3 & w4 & new3 & -> & Ht3 & Hc3 & Hm3)
    end.
    cbn [trace] in Ht1, Ht2, Ht3.
    exists w4,
      (new3 ++ EvPrint false "Backup saved to: {}" [JStr file]
       :: new2 ++ EvPrint false "Copying backup to local machine..." []
       :: EvPrint false "Backup archive created" []
       :: new1 ++ [EvPrint false "Creating tar.gz archive..." []])%list.
    split; [reflexivity|]. split.
    { rewrite Ht3, Ht2, Ht1. subst file.
      repeat (rewrite <- ?app_assoc; cbn [app]). reflexivity. }
    split.
    { unfold commands.
      repeat (rewrite ?pick_app; cbn [pick command_of]).
      rewrite Hc1, Hc2, Hc3. reflexivity. }
    split.
    { repeat (rewrite ?pick_app; cbn [pick makedirs_of]).
      rewrite Hm1, Hm2, Hm3. reflexivity. }
    apply in_or_app. right. left. reflexivity.
  - unfold bind at 1. unfold say at 1. unfold emit at 1.
    unfold bind at 1.
    match goal with
    | |- context [run_command env ?cmd false false ?w0] =>
        destruct (@unchecked_run_step env cmd false w0 Hc)
          as (s1 & w2 & new1 & -> & Ht1 & Hc1 & Hm1)
    end.
    cbn [trace] in Ht1.
    exists (printed [EvPrint false "Backup saved to: {}" [JStr file]] w2),
      (EvPrint false "Backup saved to: {}" [JStr file]
       :: new1 ++ [EvPrint false "Copying files directly (uncompressed)..." []])%list.
    split; [reflexivity|]. split.
    { cbn [printed trace app]. rewrite Ht1.
      repeat (rewrite <- ?app_assoc; cbn [app]). reflexivity. }
    split.
    { unfold commands. cbn [pick command_of].
      repeat (rewrite ?pick_app; cbn [pick command_of]).
      rewrite Hc1. reflexivity. }
    split.
    { cbn [pick makedirs_of]. repeat (rewrite ?pick_app; cbn [pick makedirs_of]).
      rewrite Hm1. reflexivity. }
    left. reflexivity.
Qed.

Lemma copy_fails_completes : completes (Demo.cluster Demo.copy_fails).
Proof.
  intro h. unfold Demo.cluster, Demo.copy_fails, Demo.ok. cbn [answer].
  destruct (Demo.starts _ h); [do 3 eexists; reflexivity|].
  destruct (Demo.starts _ h); do 3 eexists; reflexivity.
Qed.

Lemma found_path_is_copied_witness :
  let run := create_backup (Demo.cluster Demo.copy_fails) "web-0" "prod" "debugger-x7k2p"
               "/proc/1/root/var/configs" false Demo.boot in
  fst run = Ret true
  /\ commands (trace (snd run))
     = [ verify_command "web-0" "prod" "debugger-x7k2p" "/proc/1/root/var/configs";
         copy_command "prod" "debugger-x7k2p" "web-0:/proc/1/root/var/configs"
           "./backups/prod/2024-05-01_12-00-00_web-0" ]
  /\ pick makedirs_of (trace (snd run)) = ["./backups/prod"].
Proof.
  cbv zeta.
  destruct (@found_path_is_copied (Demo.cluster Demo.copy_fails) "web-0" "prod"
              "debugger-x7k2p" "/proc/1/root/var/configs" false Demo.boot
              "/proc/1/root/var/configs"
              (after (run_command (Demo.cluster Demo.copy_fails)
                        (verify_command "web-0" "prod" "debugger-x7k2p"
                           "/proc/1/root/var/configs") false false)
                 (after (backup_banner "web-0" "/proc/1/root/var/configs" false) Demo.boot)))
    as (Hret & _).
  - exact copy_fails_completes.
  - vm_compute. reflexivity.
  - reflexivity.
  - split; [exact Hret|]. vm_compute. split; reflexivity.
Defined.

(** X15.  Suppose the presence check prints the path and the local directory
    [./backups/<namespace>] cannot be created.  Then the exception leaves
    [create_backup] as it is, nothing is printed after the attempt, and no
    archive, copy or removal is run: the presence check stays the last
    command. *)
Theorem unwritable_backup_directory_aborts env name namespace c path compress w s w1 e :
  run_command env (verify_command name namespace c path) false false
    (after (backup_banner name path compress) w) = (Ret (Some s), w1) ->
  PyStr.is_empty s = false ->
  let made := EvMakedirs ("./backups/" ++ namespace)
              :: EvPrint false "Path exists: {}" [JStr s] :: trace w1 in
  answer env made = Raised e ->
  let run := create_backup env name namespace c path compress w in
  fst run = Exc e
  /\ trace (snd run) = made
  /\ commands (trace (snd run)) = commands (trace w1).
Proof.
  intros Hverify Hfound made Hraise run.
  destruct (backup_banner_run name path compress w) as (u & Hbanner).
  assert (Hrun : exists wf, run = (Exc e, wf) /\ trace wf = made).
  { subst run. unfold create_backup. rewrite (bind_Ret _ _ _ Hbanner).
    rewrite (bind_Ret _ _ _ Hverify). cbn [no_output text].
    rewrite (run_command_stripped _ _ _ _ _ Hverify), Hfound. cbn [orb].
    unfold bind at 1. unfold say at 1. unfold emit at 1.
    unfold bind at 1. unfold blocking at 1. cbn [trace now DEBUG_MODE].
    fold made. rewrite Hraise. eexists. split; reflexivity. }
  destruct Hrun as (wf & -> & Ht). cbn [fst snd]. rewrite Ht.
  repeat split; reflexivity.
Qed.

Lemma unwritable_backup_directory_aborts_witness :
  let run := create_backup (Demo.cluster Scene.read_only) "web-0" "prod" "debugger-x7k2p"
               "/proc/1/root/var/configs" true Demo.boot in
  fst run = Exc (Exception "PermissionError")
  /\ commands (trace (snd run))
     = [ verify_command "web-0" "prod" "debugger-x7k2p" "/proc/1/root/var/configs" ].
Proof.
  cbv zeta.
  destruct (@unwritable_backup_directory_aborts (Demo.cluster Scene.read_only) "web-0" "prod"
              "debugger-x7k2p" "/proc/1/root/var/configs" true Demo.boot
              "/proc/1/root/var/configs"
              (after (run_command (Demo.cluster Scene.read_only)
                        (verify_command "web-0" "prod" "debugger-x7k2p"
                           "/proc/1/root/var/configs") false false)
                 (after (backup_banner "web-0" "/proc/1/root/var/configs" true) Demo.boot))
              (Exception "PermissionError"))
    as (Hret & _ & Hcmds).
  - vm_compute. reflexivity.
  - reflexivity.
  - reflexivity.
  - split; [exact Hret|]. rewrite Hcmds. vm_compute. reflexivity.
Defined.

(** ** Cleanup and the exit status *)

(** X16.  [cleanup_debug_container] runs one command, the kill of process 1
    in the debug container, and returns [True] whatever return code that
    command ends with; only an exception raised by the call itself leaves
    the function. *)
Theorem cleanup_ignores_the_return_code env name namespace d w :
  let run := cleanup_debug_container env name namespace d w in
  exists h mid,
    h = (mid ++ trace w)%list
    /\ fst run
       = match answer env (EvRun false (kill_command name namespace d) :: h) with
         | Completed _ _ _ => Ret true
         | Raised e => Exc e
         end
    /\ commands (trace (snd run))
       = (commands (trace w) ++ [kill_command name namespace d])%list.
Proof.
  cbv zeta.
  unfold cleanup_debug_container, run_command, print_debug_command, bind, say, say_err,
    emit, ret, get_DEBUG_MODE, blocking.
  cbn [DEBUG_MODE now trace fst snd].
  destruct (DEBUG_MODE w); cbn [DEBUG_MODE now trace fst snd];
    match goal with
    | |- context [answer env (_ :: ?h)] =>
        assert (Hmid : exists mid, h = (mid ++ trace w)%list)
          by (first [ exists (firstn 2 h); reflexivity
                    | exists (firstn 7 h); reflexivity ]);
        destruct Hmid as [mid Hmid]; exists h, mid;
        destruct (answer env (_ :: h)) as [rc out err|e]
    end;
    cbn [fst snd trace andb];
    (split; [exact Hmid|]; split; reflexivity).
Qed.

(** X17.  When the cleanup that follows the operation returns, [main] ends
    with [sys.exit] of: 0 after a backup that returned [True] and 1 after
    one that returned [False]; the value [exec_interactive] returned after
    an interactive session; 130 when the operation was interrupted from the
    keyboard; 1 when it raised any other exception.  When the cleanup
    itself raises, that exception leaves [main] instead. *)
Theorem exit_status_of_the_operation env args name namespace d w :
  let w1 := after (guarded_operation env args name namespace d) w in
  fst (main_operate env args name namespace d w)
  = match fst (cleanup_debug_container env name namespace d w1) with
    | Ret _ => Exc (SystemExit (exit_code (fst (operation env args name namespace d w))))
    | Exc e => Exc e
    | Undef => Undef
    end.
Proof.
  cbv zeta. unfold after, main_operate.
  assert (Hop : defined (operation env args name namespace d)).
  { pose proof defined_create_backup. pose proof defined_exec_interactive.
    unfold operation. defs. }
  specialize (Hop w).
  change (guarded_operation env args name namespace d)
    with (try_except (operation env args name namespace d)
            (say "\nInterrupted by user" [] ;; ret 130)
            (fun e => say_err "Error: {}" [JStr e] ;; ret 1)).
  unfold bind at 1. unfold try_finally, try_except.
  destruct (operation env args name namespace d w) as [[code|[|code|k]|] w0];
    cbn [fst snd] in *; try congruence;
    cbv beta iota delta [bind say say_err emit ret]; cbn [fst snd];
    match goal with
    | |- context [cleanup_debug_container env name namespace d ?w2] =>
        destruct (cleanup_debug_container env name namespace d w2) as [[b|e|] w3]
    end; reflexivity.
Qed.

(** ** Arguments that [main] rejects *)

(** X18.  Without [--pod] and without [--controller], or with [--controller]
    and without [--controller-name], [main] reports the argument error on
    stderr and exits with status 2, having set [DEBUG_MODE] and done
    nothing else: no command is run and nothing else is printed. *)
Theorem invalid_arguments_exit_2 json_loads env args w :
  valid_args args = false ->
  exists message,
    main json_loads env args w
    = (Exc (SystemExit 2),
       mkWorld (now w) (arg_debug args)
         (EvPrint true "error: {}" [JStr message] :: trace w))
    /\ message
       = if PyStr.truthy_opt (arg_controller args)
         then "--controller-name is required when using --controller"
         else "Either --pod or --controller must be specified".
Proof.
  unfold valid_args, main, main_provision, parser_error, sys_exit, set_DEBUG_MODE,
    bind, say_err, emit, raise, ret.
  destruct (PyStr.truthy_opt (arg_pod args)),
           (PyStr.truthy_opt (arg_controller args)),
           (PyStr.truthy_opt (arg_controller_name args));
    cbn; intros Hv; try discriminate; eexists; split; reflexivity.
Qed.

Lemma invalid_arguments_exit_2_witness :
  main Demo.loads (Demo.cluster Demo.healthy) Scene.no_args Demo.boot
  = (Exc (SystemExit 2),
     mkWorld 0 false
       [EvPrint true "error: {}" [JStr "Either --pod or --controller must be specified"]]).
Proof.
  destruct (@invalid_arguments_exit_2 Demo.loads (Demo.cluster Demo.healthy) Scene.no_args
              Demo.boot) as (message & Hrun & ->).
  - reflexivity.
  - exact Hrun.
Defined.

(** ** What the whole program keeps

    A relation kept by every line printed outside an echo, by every captured
    run with its echo, by the session with its echo, by the making of a
    directory and by the sleeps is kept by every function; the debug
    request, the one run through [bash], is taken apart. *)

Section Keeps.

Context {R : World -> World -> Prop} `{Frame R}.

Variable json_loads : string -> option json.
Variable env : Env.

Hypothesis R_emit : forall e,
  echo_of e = None -> command_of e = None -> attach_of e = None -> stable R (emit e).
Hypothesis R_run : forall cmd check, stable R (run_command env cmd check false).
Hypothesis R_session : forall name namespace c cmd cd,
  stable R (exec_interactive env name namespace c cmd cd).
Hypothesis R_makedirs : forall path, stable R (blocking env (EvMakedirs path) 0).
Hypothesis R_sleep : stable R (sleep env 2).

Lemma keeps_select_pod args : stable R (select_pod json_loads env args).
Proof.
  unfold select_pod, get_current_namespace, get_pod_by_name, get_pods_by_controller.
  frames.
Qed.

Lemma keeps_get_pod_containers name namespace :
  stable R (get_pod_containers json_loads env name namespace).
Proof. unfold get_pod_containers. frames. Qed.
#[local] Hint Resolve keeps_get_pod_containers : frame.

Lemma keeps_get_existing_ephemeral_containers name namespace :
  stable R (get_existing_ephemeral_containers json_loads env name namespace).
Proof. unfold get_existing_ephemeral_containers. frames. Qed.

Lemma keeps_scan_statuses c statuses :
  forall last, stable R (scan_statuses c statuses last).
Proof. induction statuses as [|status rest IH]; intro last; simpl; frames. Qed.
#[local] Hint Resolve keeps_scan_statuses : frame.

Lemma keeps_wait_loop name namespace c timeout start fuel :
  forall last, stable R (wait_loop json_loads env fuel name namespace c timeout start last).
Proof.
  induction fuel as [|fuel IH]; intro last; simpl; [apply stable_undef|].
  unfold poll_once, report_timeout. frames.
Qed.
#[local] Hint Resolve keeps_wait_loop : frame.

Lemma keeps_await_debug_container name namespace d :
  stable R (await_debug_container json_loads env name namespace d).
Proof. unfold await_debug_container, wait_for_container_running. frames. Qed.

Lemma keeps_main_operate args name namespace d :
  stable R (main_operate env args name namespace d).
Proof.
  unfold main_operate, guarded_operation, create_backup, backup_banner, today,
    cleanup_debug_container, sys_exit.
  frames.
Qed.

Hypothesis R_request : forall cmd check, stable R (run_command env cmd check true).

Lemma keeps_launch_debug_container name namespace image target existing as_root :
  stable R
    (launch_debug_container json_loads env name namespace image target existing as_root).
Proof.
  pose proof keeps_get_existing_ephemeral_containers.
  pose proof keeps_await_debug_container.
  unfold launch_debug_container, request_debug_container.
  frames.
Qed.

Lemma keeps_main args :
  stable R (set_DEBUG_MODE (arg_debug args)) -> stable R (main json_loads env args).
Proof.
  intros Hflag.
  pose proof keeps_select_pod. pose proof keeps_get_existing_ephemeral_containers.
  pose proof keeps_launch_debug_container. pose proof keeps_main_operate.
  unfold main, main_provision, parser_error, sys_exit.
  frames.
Qed.

End Keeps.

(** ** The debug request *)

(** The names of an inventory are not empty. *)
Lemma container_names_truthy l :
  forall names, container_names l = Ret names ->
  Forall (fun s => PyStr.truthy s = true) names.
Proof.
  induction l as [|c rest IH]; intros names; cbn [container_names].
  { intros Hn. injection Hn as <-. constructor. }
  unfold res_bind.
  destruct (Py.get c "name" JNull) as [guard| |]; try discriminate.
  destruct (Py.truthy guard) eqn:Hguard; [|apply IH].
  destruct guard as [| | |s| |]; cbn [as_str]; try discriminate.
  destruct (container_names rest) as [others| |]; try discriminate.
  intros Hn. injection Hn as <-. constructor; [exact Hguard | now apply IH].
Qed.

Lemma get_pod_containers_truthy json_loads env name namespace w info w' :
  get_pod_containers json_loads env name namespace w = (Ret info, w') ->
  Forall (fun s => PyStr.truthy s = true) (containers info).
Proof.
  unfold get_pod_containers. unfold bind at 1.
  destruct (run_command env _ true false w) as [[output| |] w1]; try discriminate.
  destruct (no_output output).
  { intros Hg. injection Hg as <- _. constructor. }
  destruct (json_loads (text output)) as [pod_data|].
  2: { unfold bind, say_err, emit, ret. intros Hg. injection Hg as <- _. constructor. }
  unfold bind, lift, ret.
  destruct (Py.get pod_data "spec" (JObj [])) as [spec| |]; try discriminate.
  destruct (section_names spec "containers") as [cs| |] eqn:Hcs; try discriminate.
  destruct (section_names spec "initContainers") as [ics| |]; try discriminate.
  destruct (section_names spec "ephemeralContainers") as [ecs| |]; try discriminate.
  intros Hg. injection Hg as <- _. cbn [containers].
  unfold section_names, res_bind in Hcs.
  destruct (Py.get spec "containers" (JArr [])) as [section| |]; try discriminate.
  destruct (Py.iter section) as [l| |]; try discriminate.
  eapply container_names_truthy. exact Hcs.
Qed.

Section OneRequest.

Variable json_loads : string -> option json.
Variable env : Env.

#[local] Abbreviation no_request := (stable (silent_rel request_of)).

Lemma no_request_emit e :
  echo_of e = None -> command_of e = None -> attach_of e = None -> no_request (emit e).
Proof.
  intros _ He _. apply silent_emit. destruct e; try reflexivity; discriminate.
Qed.

Lemma no_request_run cmd check : no_request (run_command env cmd check false).
Proof. unfold run_command, print_debug_command. frames. Qed.

Lemma no_request_session name namespace c cmd cd :
  no_request (exec_interactive env name namespace c cmd cd).
Proof. unfold exec_interactive, print_debug_command. frames. Qed.

Lemma no_request_makedirs path : no_request (blocking env (EvMakedirs path) 0).
Proof. now apply silent_blocking. Qed.

Lemma no_request_sleep : no_request (sleep env 2).
Proof. now apply silent_sleep. Qed.

Lemma no_request_select_pod args : no_request (select_pod json_loads env args).
Proof. apply keeps_select_pod; [apply no_request_emit | apply no_request_run]. Qed.

Lemma no_request_get_pod_containers name namespace :
  no_request (get_pod_containers json_loads env name namespace).
Proof. apply keeps_get_pod_containers; [apply no_request_emit | apply no_request_run]. Qed.

Lemma no_request_get_existing_ephemeral_containers name namespace :
  no_request (get_existing_ephemeral_containers json_loads env name namespace).
Proof.
  apply keeps_get_existing_ephemeral_containers;
    [apply no_request_emit | apply no_request_run].
Qed.

Lemma no_request_await_debug_container name namespace d :
  no_request (await_debug_container json_loads env name namespace d).
Proof.
  apply keeps_await_debug_container;
    [apply no_request_emit | apply no_request_run | apply no_request_sleep].
Qed.

Lemma no_request_main_operate args name namespace d :
  no_request (main_operate env args name namespace d).
Proof.
  apply keeps_main_operate;
    [ apply no_request_emit | apply no_request_run | apply no_request_session
    | apply no_request_makedirs ].
Qed.

(** What the launch adds to the requests: its own, once. *)
Lemma launch_sends_the_request name namespace image target existing as_root w :
  pick request_of
    (trace (after (launch_debug_container json_loads env name namespace image target
                     existing as_root) w))
  = debug_command name namespace image target as_root :: pick request_of (trace w).
Proof.
  unfold after, launch_debug_container, request_debug_container.
  rewrite !bind_assoc.
  set (cmd := debug_command name namespace image target as_root).
  unfold bind at 1. unfold say at 1. unfold emit at 1.
  rewrite bind_assoc.
  match goal with
  | |- context [bind ?m _ ?w0] =>
      assert (Hm : exists w1, m w0 = (Ret tt, w1)
                              /\ pick request_of (trace w1) = pick request_of (trace w))
  end.
  { destruct existing; eexists; split; reflexivity. }
  destruct Hm as (w1 & Hm & Hw1). rewrite (bind_Ret _ _ _ Hm).
  rewrite bind_assoc. unfold bind at 1.
  assert (Hrun : pick request_of (trace (snd (run_command env cmd false true w1)))
                 = cmd :: pick request_of (trace w)).
  { rewrite <- Hw1.
    unfold run_command, print_debug_command, bind, get_DEBUG_MODE, say, say_err, emit, ret,
      blocking.
    destruct (DEBUG_MODE w1); cbn [trace now DEBUG_MODE];
      destruct (answer env _) as [rc out err|e]; reflexivity. }
  destruct (run_command env cmd false true w1) as [[o|e|] w2]; cbn [snd] in *;
    try exact Hrun.
  rewrite <- Hrun.
  match goal with
  | |- pick request_of (trace (snd (?rest w2))) = _ =>
      assert (Hrest : no_request rest)
  end.
  { pose proof no_request_get_existing_ephemeral_containers.
    pose proof no_request_await_debug_container. pose proof no_request_sleep.
    frames. }
  apply Hrest.
Qed.

Variable allowed : string -> Prop.

Lemma sends_nothing {A} n (m : M A) : no_request m -> sends n allowed m.
Proof.
  intros Hm w. exists []. split; [exact (Hm w)|]. split; [simpl; lia | constructor].
Qed.

Lemma sends_bind {A B} a b (m : M A) (k : A -> M B) :
  sends a allowed m -> (forall x, sends b allowed (k x)) ->
  sends (a + b) allowed (bind m k).
Proof.
  intros Hm Hk w. unfold bind. destruct (Hm w) as (l1 & H1 & Hn1 & Ha1).
  destruct (m w) as [[x|e|] w1]; cbn [snd] in *;
    try (exists l1; split; [exact H1 | split; [lia | exact Ha1]]).
  destruct (Hk x w1) as (l2 & H2 & Hn2 & Ha2).
  exists (l2 ++ l1)%list. split; [|split].
  - rewrite H2, H1. now rewrite app_assoc.
  - rewrite length_app. lia.
  - apply Forall_app. split; assumption.
Qed.

Lemma sends_assoc {A B C} n (m : M A) (k : A -> M B) (k' : B -> M C) :
  sends n allowed (bind m (fun a => bind (k a) k')) ->
  sends n allowed (bind (bind m k) k').
Proof. intros Hs w. rewrite bind_assoc. apply Hs. Qed.

(** The same when the rest is only known for the values [m] returns. *)
Lemma sends_bind_returned {A B} a b (P : A -> Prop) (m : M A) (k : A -> M B) :
  sends a allowed m ->
  (forall w x w', m w = (Ret x, w') -> P x) ->
  (forall x, P x -> sends b allowed (k x)) ->
  sends (a + b) allowed (bind m k).
Proof.
  intros Hm HP Hk w. unfold bind. destruct (Hm w) as (l1 & H1 & Hn1 & Ha1).
  destruct (m w) as [[x|e|] w1] eqn:Hmw; cbn [snd] in *;
    try (exists l1; split; [exact H1 | split; [lia | exact Ha1]]).
  destruct (Hk x (HP _ _ _ Hmw) w1) as (l2 & H2 & Hn2 & Ha2).
  exists (l2 ++ l1)%list. split; [|split].
  - rewrite H2, H1. now rewrite app_assoc.
  - rewrite length_app. lia.
  - apply Forall_app. split; assumption.
Qed.

Lemma sends_launch_debug_container name namespace image target existing as_root :
  allowed (debug_command name namespace image target as_root) ->
  sends 1 allowed
    (launch_debug_container json_loads env name namespace image target existing as_root).
Proof.
  intros Hcmd w. exists [debug_command name namespace image target as_root].
  split; [apply launch_sends_the_request|]. split; [reflexivity | now constructor].
Qed.

Lemma sends_main_provision args :
  (forall name namespace target, PyStr.truthy target = true ->
     allowed (debug_command name namespace (arg_debug_image args) (Some target)
                (arg_as_root args))) ->
  sends 1 allowed (main_provision json_loads env args).
Proof.
  intros Hcmd.
  pose proof no_request_select_pod as Hsel.
  pose proof no_request_get_pod_containers as Hinv.
  pose proof no_request_get_existing_ephemeral_containers as Hex.
  unfold main_provision, parser_error, sys_exit.
  apply (sends_bind (a := 0%nat) (b := 1%nat)); [apply sends_nothing; frames | intros _].
  apply (sends_bind (a := 0%nat) (b := 1%nat)); [apply sends_nothing; frames | intros _].
  apply (sends_bind (a := 0%nat) (b := 1%nat)); [apply sends_nothing; frames | intros _].
  apply (sends_bind (a := 0%nat) (b := 1%nat)); [apply sends_nothing; frames | intros [pod|]].
  2: { apply sends_nothing. frames. }
  apply (sends_bind (a := 0%nat) (b := 1%nat)); [apply sends_nothing; frames | intros name].
  apply (@sends_bind_returned _ _ 0%nat 1%nat (fun target => PyStr.truthy target = true));
    [apply sends_nothing; frames | | intros target Htarget].
  { intros w target w'.
    destruct (PyStr.truthy_opt (arg_container args)) eqn:Hc.
    - unfold ret. intros Hr. injection Hr as <- _.
      destruct (arg_container args); [exact Hc | discriminate].
    - unfold bind at 1.
      destruct (get_pod_containers json_loads env name (Pod.namespace pod) w)
        as [[info| |] w1] eqn:Hget; try discriminate.
      apply get_pod_containers_truthy in Hget.
      destruct (containers info) as [|first more].
      + unfold bind, say_err, emit, raise. discriminate.
      + unfold bind, say, emit, ret. intros Hr. injection Hr as <- _.
        now inversion Hget. }
  do 8 (apply (sends_bind (a := 0%nat) (b := 1%nat)); [apply sends_nothing; frames | intro]).
  apply (sends_bind (a := 1%nat) (b := 0%nat));
    [apply sends_launch_debug_container, Hcmd, Htarget | intro d].
  apply sends_nothing. frames.
Qed.

Lemma sends_main args :
  (forall name namespace target, PyStr.truthy target = true ->
     allowed (debug_command name namespace (arg_debug_image args) (Some target)
                (arg_as_root args))) ->
  sends 1 allowed (main json_loads env args).
Proof.
  intros Hcmd. unfold main.
  apply (sends_bind (a := 1%nat) (b := 0%nat));
    [apply sends_main_provision, Hcmd | intros [[name namespace] d]].
  apply sends_nothing. apply no_request_main_operate.
Qed.

End OneRequest.

(** X19.  On every run, whatever the cluster answers, [main] sends at most
    one debug request ([kubectl debug], the only command run through
    [bash]); the one it sends asks for the image and the root option of the
    command line and names a target container that is not empty.  Nothing
    after the launch, neither the operation nor the cleanup, sends
    another. *)
Theorem at_most_one_debug_request json_loads env args w :
  exists l,
    pick request_of (trace (after (main json_loads env args) w))
    = (l ++ pick request_of (trace w))%list
    /\ (l = []
        \/ exists name namespace target,
             PyStr.truthy target = true
             /\ l = [debug_command name namespace (arg_debug_image args) (Some target)
                       (arg_as_root args)]).
Proof.
  destruct (@sends_main json_loads env
              (fun cmd => exists name namespace target,
                 PyStr.truthy target = true
                 /\ cmd = debug_command name namespace (arg_debug_image args) (Some target)
                            (arg_as_root args))
              args) with (w := w) as (l & Hl & Hn & Ha).
  { intros name namespace target Ht. exists name, namespace, target. split; trivial. }
  exists l. split; [exact Hl|].
  destruct l as [|cmd [|cmd' l]]; [left; reflexivity | right | simpl in Hn; lia].
  inversion Ha as [|? ? Hcmd _]. destruct Hcmd as (name & namespace & target & Ht & ->).
  exists name, namespace, target. split; trivial.
Qed.

(** ** With and without [--debug] *)

#[export] Instance undebugged_frame : Frame undebugged.
Proof.
  split; unfold undebugged.
  - intros w Hw. split; [exact Hw | reflexivity].
  - intros a b c Hab Hbc Ha. destruct (Hab Ha) as [Hb Hab'].
    destruct (Hbc Hb) as [Hc Hbc']. split; [exact Hc | congruence].
Qed.

#[export] Instance debugged_frame : Frame debugged.
Proof.
  split; unfold debugged.
  - intros w Hw. split; [exact Hw|]. exists []. split; [reflexivity | trivial].
  - intros a b c Hab Hbc Ha. destruct (Hab Ha) as (Hb & n1 & H1 & He1).
    destruct (Hbc Hb) as (Hc & n2 & H2 & He2). split; [exact Hc|].
    exists (n2 ++ n1)%list. split.
    + rewrite H2, H1. now rewrite app_assoc.
    + intros t Ht. rewrite <- app_assoc. apply He2, He1, Ht.
Qed.

(** [main] begins by writing the flag: what the flag was does not matter. *)
Lemma main_resets_the_flag json_loads env args w :
  main json_loads env args w
  = main json_loads env args (mkWorld (now w) (arg_debug args) (trace w)).
Proof. reflexivity. Qed.

Section Undebugged.

Variable env : Env.

Lemma undebugged_emit e : echo_of e = None -> stable undebugged (emit e).
Proof.
  intros He w Hw. split; [exact Hw|]. cbn [emit snd trace pick]. now rewrite He.
Qed.

Lemma undebugged_echo cmd : stable undebugged (print_debug_command cmd).
Proof.
  intros w Hw. unfold print_debug_command, bind, get_DEBUG_MODE. rewrite Hw.
  split; [exact Hw | reflexivity].
Qed.

Lemma undebugged_call e ms : echo_of e = None -> stable undebugged (blocking env e ms).
Proof.
  intros He w Hw. unfold blocking.
  destruct (answer env _); cbn [snd DEBUG_MODE trace pick]; rewrite He;
    (split; [exact Hw | reflexivity]).
Qed.

Lemma undebugged_sleep s : stable undebugged (sleep env s).
Proof. intros w Hw. split; [exact Hw | reflexivity]. Qed.

Lemma undebugged_flag : stable undebugged (set_DEBUG_MODE false).
Proof. intros w Hw. split; reflexivity. Qed.

Lemma undebugged_run cmd check use_bash :
  stable undebugged (run_command env cmd check use_bash).
Proof.
  pose proof undebugged_emit. pose proof undebugged_echo. pose proof undebugged_call.
  unfold run_command. frames.
Qed.

Lemma undebugged_session name namespace c cmd cd :
  stable undebugged (exec_interactive env name namespace c cmd cd).
Proof.
  pose proof undebugged_emit. pose proof undebugged_echo. pose proof undebugged_call.
  unfold exec_interactive. frames.
Qed.

End Undebugged.

(** X20.  Without [--debug], a run of [main] echoes no command: the heading
    [DEBUG: Executing command:] is never printed, and [DEBUG_MODE], which
    [main] writes once at its start and nothing writes again, is off when
    the run ends. *)
Theorem no_command_echo_without_debug json_loads env args w :
  arg_debug args = false ->
  let w' := after (main json_loads env args) w in
  DEBUG_MODE w' = false
  /\ pick echo_of (trace w') = pick echo_of (trace w).
Proof.
  intros Hdebug. cbv zeta. unfold after. rewrite main_resets_the_flag.
  assert (Hkeeps : stable undebugged (main json_loads env args)).
  { apply keeps_main.
    - intros e He _ _. now apply undebugged_emit.
    - intros. apply undebugged_run.
    - apply undebugged_session.
    - intro path. now apply undebugged_call.
    - apply undebugged_sleep.
    - intros. apply undebugged_run.
    - rewrite Hdebug. apply undebugged_flag. }
  apply (Hkeeps (mkWorld (now w) (arg_debug args) (trace w))). exact Hdebug.
Qed.

Lemma no_command_echo_without_debug_witness :
  let w' := after (main Demo.loads (Demo.cluster Demo.healthy) Demo.shell_args)
              (mkWorld 0 true []) in
  DEBUG_MODE w' = false /\ pick echo_of (trace w') = [].
Proof.
  apply (@no_command_echo_without_debug Demo.loads (Demo.cluster Demo.healthy)
           Demo.shell_args (mkWorld 0 true [])).
  reflexivity.
Defined.

Lemma cons_cut {A} (e : A) l new t : l = (new ++ t)%list -> e :: l = ((e :: new) ++ t)%list.
Proof. intros ->. reflexivity. Qed.

Lemma nil_cut {A} (t : list A) : t = ([] ++ t)%list.
Proof. reflexivity. Qed.

Ltac cut_trace := repeat eapply cons_cut; apply nil_cut.

Ltac echoes Ht :=
  repeat first [ apply echoed_run | apply echoed_attach
               | apply echoed_other; [reflexivity | reflexivity |] ];
  exact Ht.

Section Debugged.

Variable env : Env.

Lemma debugged_emit e :
  command_of e = None -> attach_of e = None -> stable debugged (emit e).
Proof.
  intros Hc Ha w Hw. split; [exact Hw|]. exists [e]. split; [reflexivity|].
  intros t Ht. now apply echoed_other.
Qed.

Lemma debugged_makedirs path : stable debugged (blocking env (EvMakedirs path) 0).
Proof.
  intros w Hw. unfold blocking.
  destruct (answer env _); cbn [snd DEBUG_MODE trace];
    (split; [exact Hw|]); exists [EvMakedirs path];
    (split; [reflexivity|]); intros t Ht; now apply echoed_other.
Qed.

Lemma debugged_sleep s : stable debugged (sleep env s).
Proof.
  intros w Hw. split; [exact Hw|]. exists [EvSleep s]. split; [reflexivity|].
  intros t Ht. now apply echoed_other.
Qed.

Lemma debugged_flag : stable debugged (set_DEBUG_MODE true).
Proof.
  intros w Hw. split; [reflexivity|]. exists []. split; [reflexivity | trivial].
Qed.

(** With the flag on, a run comes right after the echo of its command. *)
Lemma debugged_run cmd check use_bash :
  stable debugged (run_command env cmd check use_bash).
Proof.
  intros w Hw.
  unfold run_command, print_debug_command, bind, get_DEBUG_MODE, say, say_err, emit, ret,
    blocking.
  rewrite Hw. cbn [trace now DEBUG_MODE].
  destruct (answer env _) as [rc out err|e]; [destruct (check && negb (rc =? 0))|];
    cbn [snd trace DEBUG_MODE]; (split; [first [exact Hw | reflexivity]|]);
    eexists; (split; [cut_trace|]); intros t Ht; cbn [app]; echoes Ht.
Qed.

(** With the flag on, the session comes right after the echo of its argument
    vector. *)
Lemma debugged_session name namespace c cmd cd :
  stable debugged (exec_interactive env name namespace c cmd cd).
Proof.
  intros w Hw.
  unfold exec_interactive, print_debug_command, bind, get_DEBUG_MODE, say, say_err, emit,
    ret, try_except, blocking.
  cbn [trace now DEBUG_MODE fst snd].
  destruct (PyStr.truthy_opt cd); cbn [trace now DEBUG_MODE fst snd];
    rewrite Hw; cbn [trace now DEBUG_MODE fst snd];
    destruct (answer env _) as [rc out err|[|code|k]];
    cbn [snd trace DEBUG_MODE]; (split; [first [exact Hw | reflexivity]|]);
    eexists; (split; [cut_trace|]); intros t Ht; cbn [app]; echoes Ht.
Qed.

End Debugged.

(** X21.  With [--debug], on every run of [main] that starts from an echoed
    trace: every command that is run, captured or through [bash], and the
    interactive session come right after the five lines of the echo of
    their own text, the session with its argument vector joined by spaces;
    and [DEBUG_MODE] is on when the run ends. *)
Theorem every_command_is_echoed_under_debug json_loads env args w :
  arg_debug args = true ->
  echoed (trace w) ->
  let w' := after (main json_loads env args) w in
  DEBUG_MODE w' = true /\ echoed (trace w').
Proof.
  intros Hdebug Hw. cbv zeta. unfold after. rewrite main_resets_the_flag.
  assert (Hkeeps : stable debugged (main json_loads env args)).
  { apply keeps_main.
    - intros e _ Hc Ha. now apply debugged_emit.
    - intros. apply debugged_run.
    - apply debugged_session.
    - apply debugged_makedirs.
    - apply debugged_sleep.
    - intros. apply debugged_run.
    - rewrite Hdebug. apply debugged_flag. }
  destruct (Hkeeps (mkWorld (now w) (arg_debug args) (trace w)) Hdebug)
    as (Hflag & new & Hnew & Hecho).
  split; [exact Hflag|]. rewrite Hnew. apply Hecho. exact Hw.
Qed.

Lemma every_command_is_echoed_under_debug_witness :
  let w' := after (main Demo.loads (Demo.cluster Demo.healthy) Scene.debug_args) Demo.boot in
  DEBUG_MODE w' = true /\ echoed (trace w').
Proof.
  apply (@every_command_is_echoed_under_debug Demo.loads (Demo.cluster Demo.healthy)
           Scene.debug_args Demo.boot).
  - reflexivity.
  - exact echoed_nil.
Defined.

(** ** The target of the debug request *)

Section Target.

Variable json_loads : string -> option json.
Variable env : Env.

(** X22.  Without [--container], once the pod is selected and its inventory
    taken: when the pod has no regular container, [main] reports it and
    exits with status 1, at once; otherwise the only debug request [main]
    can send is the one that targets the first regular container of the
    inventory, in the namespace and under the name of the selected pod. *)
Theorem request_targets_the_first_container args w pod_name ns w1 info w2 :
  valid_args args = true ->
  select_pod json_loads env args (after (set_DEBUG_MODE (arg_debug args)) w)
  = (Ret (Some (Pod.mk (JStr pod_name) ns)), w1) ->
  PyStr.truthy_opt (arg_container args) = false ->
  get_pod_containers json_loads env pod_name ns w1 = (Ret info, w2) ->
  match containers info with
  | [] =>
      main json_loads env args w
      = (Exc (SystemExit 1),
         printed [EvPrint true "Error: No regular containers found in pod" []] w2)
  | first :: _ =>
      exists l,
        pick request_of (trace (after (main json_loads env args) w))
        = (l ++ pick request_of (trace w))%list
        /\ (l = []
            \/ l = [debug_command pod_name ns (arg_debug_image args) (Some first)
                      (arg_as_root args)])
  end.
Proof.
  intros Hvalid Hsel Hc Hinv.
  unfold valid_args in Hvalid. apply andb_true_iff in Hvalid as [Hv1 Hv2].
  assert (H1 : negb (PyStr.truthy_opt (arg_pod args))
               && negb (PyStr.truthy_opt (arg_controller args)) = false).
  { destruct (PyStr.truthy_opt (arg_pod args)),
             (PyStr.truthy_opt (arg_controller args)); simpl in *; congruence. }
  assert (H2 : PyStr.truthy_opt (arg_controller args)
               && negb (PyStr.truthy_opt (arg_controller_name args)) = false).
  { destruct (PyStr.truthy_opt (arg_controller args)),
             (PyStr.truthy_opt (arg_controller_name args)); simpl in *; congruence. }
  pose proof (no_request_select_pod json_loads env args
                (after (set_DEBUG_MODE (arg_debug args)) w)) as Hq1.
  rewrite Hsel in Hq1.
  pose proof (no_request_get_pod_containers json_loads env pod_name ns w1) as Hq2.
  rewrite Hinv in Hq2. unfold silent_rel in Hq1, Hq2. cbn [snd trace after set_DEBUG_MODE] in *.
  unfold after, main, main_provision.
  rewrite ?bind_assoc.
  rewrite (bind_Ret _ _ w (a := tt)
             (w1 := after (set_DEBUG_MODE (arg_debug args)) w)) by reflexivity.
  rewrite H1, H2.
  rewrite ?bind_assoc. erewrite bind_Ret by reflexivity.
  rewrite ?bind_assoc. erewrite bind_Ret by reflexivity.
  rewrite ?bind_assoc. rewrite (bind_Ret _ _ _ Hsel).
  rewrite ?bind_assoc. erewrite bind_Ret by reflexivity.
  rewrite Hc. rewrite ?bind_assoc. cbn [Pod.namespace]. rewrite (bind_Ret _ _ _ Hinv).
  destruct (containers info) as [|first rest]; [reflexivity|].
  rewrite ?bind_assoc. erewrite bind_Ret by reflexivity.
  rewrite ?bind_assoc. erewrite bind_Ret by reflexivity.
  set (cmd := debug_command pod_name ns (arg_debug_image args) (Some first)
                (arg_as_root args)).
  match goal with
  | |- context [snd (?m ?w3)] =>
      assert (Hs : sends 1 (eq cmd) m);
      [|destruct (Hs w3) as (l & Hl & Hn & Ha)]
  end.
  { pose proof (no_request_get_existing_ephemeral_containers json_loads env) as Hex.
    do 8 (repeat match goal with
                 | |- sends _ _ (bind (bind _ _) _) => apply sends_assoc
                 end;
          apply (sends_bind (a := 0%nat) (b := 1%nat));
          [apply sends_nothing; frames | intro]).
    repeat match goal with
           | |- sends _ _ (bind (bind _ _) _) => apply sends_assoc
           end.
    apply (sends_bind (a := 1%nat) (b := 0%nat));
      [apply sends_launch_debug_container; reflexivity | intro d].
    apply (sends_bind (a := 0%nat) (b := 0%nat)); [apply sends_nothing; frames |].
    intros [[name0 namespace0] d0]. apply sends_nothing. apply no_request_main_operate. }
  exists l. split.
  { rewrite Hl. cbn [trace printed app]. cbn [pick request_of]. rewrite Hq2, Hq1.
    reflexivity. }
  destruct l as [|c0 [|c1 l]]; [left; reflexivity | right | simpl in Hn; lia].
  inversion Ha as [|? ? Hc0 _]. now subst c0.
Qed.

End Target.

Lemma request_targets_the_first_container_witness :
  let env := Demo.cluster Demo.healthy in
  let request := debug_command "web-0" "prod" "ghcr.io/jessegoodier/toolbox:latest"
                   (Some "app") false in
  pick request_of (trace (after (main Demo.loads env Scene.bare_pod_args) Demo.boot))
  = [request]
  /\ exists l,
       pick request_of (trace (after (main Demo.loads env Scene.bare_pod_args) Demo.boot))
       = (l ++ [])%list
       /\ (l = [] \/ l = [request]).
Proof.
  cbv zeta. split; [vm_compute; reflexivity|].
  pose (env := Demo.cluster Demo.healthy).
  pose (w1 := after (select_pod Demo.loads env Scene.bare_pod_args) Demo.boot).
  apply (@request_targets_the_first_container Demo.loads env Scene.bare_pod_args Demo.boot
           "web-0" "prod" w1 (mkInfo ["app"] [] [])
           (after (get_pod_containers Demo.loads env "web-0" "prod") w1)).
  - reflexivity.
  - vm_compute. reflexivity.
  - reflexivity.
  - vm_compute. reflexivity.
Defined.

(** ** A pod that is not there *)

(** X24.  With [--pod] and [--namespace] on a command line that [main]
    accepts, when the lookup of the pod prints nothing but white space,
    whatever its return code, or prints text that is not JSON: [main]
    reports that the pod was not found, or that its JSON could not be
    parsed, and exits with status 1.  The lookup is the only command of the
    run: no inventory, no debug request, no cleanup. *)
Theorem missing_pod_exits_1 json_loads env args pod ns w rc out err :
  arg_pod args = Some pod -> PyStr.truthy pod = true ->
  arg_namespace args = Some ns -> PyStr.truthy ns = true ->
  valid_args args = true ->
  let query := pod_query pod ns in
  let asked := printed [EvPrint false "Looking up pod {} in namespace {}..."
                          [JStr pod; JStr ns]]
                 (after (set_DEBUG_MODE (arg_debug args)) w) in
  answer env (EvRun false query :: trace (after (print_debug_command query) asked))
  = Completed rc out err ->
  PyStr.strip out = "" \/ json_loads (PyStr.strip out) = None ->
  let run := main json_loads env args w in
  fst run = Exc (SystemExit 1)
  /\ commands (trace (snd run)) = (commands (trace w) ++ [query])%list
  /\ hd_error (trace (snd run))
     = Some (if PyStr.is_empty (PyStr.strip out)
             then EvPrint true "Error: Pod '{}' not found in namespace '{}'"
                    [JStr pod; JStr ns]
             else EvPrint true "Error parsing pod JSON: {}" []).
Proof.
  intros Hpod Hp Hns Hn Hvalid query asked Ha Hfail run.
  assert (H2 : PyStr.truthy_opt (arg_controller args)
               && negb (PyStr.truthy_opt (arg_controller_name args)) = false).
  { unfold valid_args in Hvalid. apply andb_true_iff in Hvalid as [_ Hv].
    destruct (PyStr.truthy_opt (arg_controller args)),
             (PyStr.truthy_opt (arg_controller_name args)); simpl in *; congruence. }
  assert (Hrun : run_command env query false false asked
                 = (Ret (Some (PyStr.strip out)),
                    after (run_command env query false false) asked)).
  { unfold after, run_command.
    destruct (print_debug_command_run query asked) as (wd & Hd).
    unfold after in Ha. rewrite Hd in Ha. cbn [snd] in Ha.
    rewrite (bind_Ret _ _ _ Hd). unfold bind, blocking. rewrite Ha. reflexivity. }
  pose proof (commands_after_run_command env query false false asked) as Hcmds.
  set (w1 := after (run_command env query false false) asked) in *.
  assert (Hmain : run
                  = (Exc (SystemExit 1),
                     printed [if PyStr.is_empty (PyStr.strip out)
                              then EvPrint true "Error: Pod '{}' not found in namespace '{}'"
                                     [JStr pod; JStr ns]
                              else EvPrint true "Error parsing pod JSON: {}" []] w1)).
  { subst run. unfold main, main_provision.
    rewrite ?bind_assoc.
    rewrite (bind_Ret _ _ w (a := tt)
               (w1 := after (set_DEBUG_MODE (arg_debug args)) w)) by reflexivity.
    rewrite H2, Hpod. cbn [PyStr.truthy_opt]. rewrite Hp. cbn [negb andb].
    rewrite ?bind_assoc. erewrite bind_Ret by reflexivity.
    rewrite ?bind_assoc. erewrite bind_Ret by reflexivity.
    unfold select_pod. rewrite Hns, Hpod. cbn [PyStr.truthy_opt text]. rewrite Hn, Hp.
    rewrite ?bind_assoc. erewrite bind_Ret by reflexivity.
    unfold get_pod_by_name.
    rewrite ?bind_assoc.
    rewrite (bind_Ret _ _ _ (a := tt) (w1 := asked)) by reflexivity.
    rewrite ?bind_assoc. rewrite (bind_Ret _ _ _ Hrun).
    cbn [no_output text].
    destruct (PyStr.is_empty (PyStr.strip out)) eqn:Hempty.
    - reflexivity.
    - destruct Hfail as [Hs | Hbad]; [rewrite Hs in Hempty; discriminate|].
      rewrite Hbad. reflexivity. }
  rewrite Hmain. cbn [fst snd]. split; [reflexivity|]. split; [|reflexivity].
  change (snd (run_command env query false false asked)) with w1 in Hcmds.
  unfold commands in *. cbn [printed trace app].
  destruct (PyStr.is_empty (PyStr.strip out)); cbn [pick command_of]; rewrite Hcmds;
    reflexivity.
Qed.

Lemma missing_pod_exits_1_witness :
  let run := main Demo.loads (Demo.cluster Demo.silent) Demo.shell_args Demo.boot in
  fst run = Exc (SystemExit 1)
  /\ commands (trace (snd run)) = [pod_query "web-0" "prod"]
  /\ hd_error (trace (snd run))
     = Some (EvPrint true "Error: Pod '{}' not found in namespace '{}'"
               [JStr "web-0"; JStr "prod"]).
Proof.
  apply (@missing_pod_exits_1 Demo.loads (Demo.cluster Demo.silent) Demo.shell_args
           "web-0" "prod" Demo.boot 0 "" "").
  - reflexivity.
  - reflexivity.
  - reflexivity.
  - reflexivity.
  - reflexivity.
  - reflexivity.
  - left. reflexivity.
Defined.

(** ** Before and after the operation *)

(** X25.  Whatever ends [main] before its [try] block, an exit or an
    exception raised while the pod is selected, the inventory taken or the
    debug container launched, Ctrl-C included, ends it as it is: it is not
    turned into an exit status by the handlers of the operation, and no
    cleanup is entered, even when the debug request was already sent. *)
Theorem provisioning_failures_skip_the_cleanup json_loads env args w e :
  fst (main_provision json_loads env args w) = Exc e ->
  main json_loads env args w = (Exc e, after (main_provision json_loads env args) w)
  /\ cleanup_calls (trace (after (main json_loads env args) w)) = cleanup_calls (trace w).
Proof.
  intros Hp.
  assert (Hmain : main json_loads env args w
                  = (Exc e, after (main_provision json_loads env args) w)).
  { unfold main, after, bind.
    destruct (main_provision json_loads env args w) as [[s|e'|] w1]; cbn [fst snd] in *;
      try discriminate.
    injection Hp as ->. reflexivity. }
  split; [exact Hmain|].
  unfold after at 1. rewrite Hmain. cbn [snd].
  apply no_cleanup_without_container.
Qed.

Lemma provisioning_failures_skip_the_cleanup_witness :
  let run := main Demo.loads (Demo.cluster Scene.interrupted_early) Demo.shell_args
               Demo.boot in
  fst run = Exc KeyboardInterrupt
  /\ cleanup_calls (trace (snd run)) = []
  /\ pick request_of (trace (snd run))
     = [debug_command "web-0" "prod" "ghcr.io/jessegoodier/toolbox:latest" (Some "app")
          false].
Proof.
  cbv zeta.
  destruct (@provisioning_failures_skip_the_cleanup Demo.loads
              (Demo.cluster Scene.interrupted_early) Demo.shell_args Demo.boot
              KeyboardInterrupt) as [Hmain Hclean].
  - vm_compute. reflexivity.
  - split; [rewrite Hmain; reflexivity|]. split; [exact Hclean|].
    vm_compute. reflexivity.
Defined.

Section Last.

Variable env : Env.

Lemma cleanup_debug_container_commands name namespace d w :
  commands (trace (snd (cleanup_debug_container env name namespace d w)))
  = (commands (trace w) ++ [kill_command name namespace d])%list.
Proof.
  unfold cleanup_debug_container, run_command, print_debug_command, bind, say, say_err,
    emit, ret, get_DEBUG_MODE, blocking.
  cbn [DEBUG_MODE now trace fst snd].
  destruct (DEBUG_MODE w); cbn [DEBUG_MODE now trace fst snd];
    destruct (answer env _) as [rc out err|e]; reflexivity.
Qed.

End Last.

(** X26.  Once [main] has entered its [try] block, the last command of the
    run is the kill of process 1 in the debug container: everything the
    operation runs, whether it returns, fails or is interrupted, comes
    before it, and nothing is run after it. *)
Theorem cleanup_is_the_last_command env args name namespace d w :
  commands (trace (after (main_operate env args name namespace d) w))
  = (commands (trace (after (guarded_operation env args name namespace d) w))
     ++ [kill_command name namespace d])%list.
Proof.
  unfold after, main_operate.
  pose proof (defined_guarded_operation env args name namespace d w) as Hd.
  unfold bind at 1. unfold try_finally.
  destruct (guarded_operation env args name namespace d w) as [[code|e|] w1];
    cbn [fst snd] in *; try congruence;
    pose proof (cleanup_debug_container_commands env name namespace d w1) as Hc;
    unfold bind at 1;
    destruct (cleanup_debug_container env name namespace d w1) as [[b|e'|] w2];
    cbn [fst snd] in *; exact Hc.
Qed.
